(** * Motor control panel: command encoder and G-code runner

    A shallow embedding of [motor_control_ui.py]: the text-line protocol the
    panel writes to the serial port (axis, speed, step and servo commands),
    the [GCodeRunnerThread] that streams a program line by line, and the
    handlers of [MotorControlUI] that start, pause and stop it.

    Texts are modelled by their UTF-8 bytes ([string]), and the blanks that
    [strip] removes are recognised by their encodings; the serial port is a
    record that logs every buffer handed to [write] and fails where a fault
    schedule says so; message boxes, the output pane and the status bar are
    logs in the window state.  Widget construction, styling and button
    enablement carry no behaviour of the protocol and are left out, and so
    are connecting and disconnecting: the window is given its connection. *)

From Stdlib Require Import ZArith String Ascii List Lia Bool DecimalString.
From Stdlib Require Import Floats.SpecFloat.
From stdpp Require Import base gmap strings list.

Local Open Scope string_scope.
Local Open Scope Z_scope.

(** ** The Python built-ins the program calls *)

Module Py.

(** The blanks of [str.isspace], by their UTF-8 encoding.  In one byte:
    U+0009..U+000D, U+001C..U+001F and U+0020. *)
Definition space1 (c : ascii) : bool :=
  let n := nat_of_ascii c in
  ((9 <=? n)%nat && (n <=? 13)%nat) || ((28 <=? n)%nat && (n <=? 32)%nat).

(** In two bytes: U+0085 (C2 85) and U+00A0 (C2 A0). *)
Definition space2 (c d : ascii) : bool :=
  let d := nat_of_ascii d in
  (nat_of_ascii c =? 194)%nat && ((d =? 133)%nat || (d =? 160)%nat).

(** In three bytes: U+1680 (E1 9A 80), U+2000..U+200A (E2 80 80..8A), U+2028,
    U+2029 and U+202F (E2 80 A8, A9 and AF), U+205F (E2 81 9F) and U+3000
    (E3 80 80). *)
Definition space3 (c d e : ascii) : bool :=
  let c := nat_of_ascii c in
  let d := nat_of_ascii d in
  let e := nat_of_ascii e in
  ((c =? 225)%nat && (d =? 154)%nat && (e =? 128)%nat) ||
  ((c =? 226)%nat && (d =? 128)%nat &&
     (((128 <=? e)%nat && (e <=? 138)%nat) ||
      (e =? 168)%nat || (e =? 169)%nat || (e =? 175)%nat)) ||
  ((c =? 226)%nat && (d =? 129)%nat && (e =? 159)%nat) ||
  ((c =? 227)%nat && (d =? 128)%nat && (e =? 128)%nat).

(** The rest of a text after the blank it starts with, if it starts with
    one. *)
Definition after_space (s : string) : option string :=
  match s with
  | EmptyString => None
  | String c s1 =>
      if space1 c then Some s1
      else match s1 with
           | EmptyString => None
           | String d s2 =>
               if space2 c d then Some s2
               else match s2 with
                    | EmptyString => None
                    | String e s3 => if space3 c d e then Some s3 else None
                    end
           end
  end.

(** The text is one blank, and nothing else. *)
Definition one_space (ch : string) : bool :=
  match after_space ch with
  | Some EmptyString => true
  | _ => false
  end.

(** [s.lstrip()]: the blanks at the start go, one character at a time. *)
Fixpoint lstrip (s : string) : string :=
  match s with
  | EmptyString => EmptyString
  | String c s1 =>
      if space1 c then lstrip s1
      else match s1 with
           | EmptyString => s
           | String d s2 =>
               if space2 c d then lstrip s2
               else match s2 with
                    | EmptyString => s
                    | String e s3 => if space3 c d e then lstrip s3 else s
                    end
           end
  end.

(** [s.rstrip()]: with the blanks at the end of the rest gone, what is left
    of the text is empty if it is one blank, and stays otherwise.  No byte
    of another character is taken for a blank on the way: a blank of one
    byte is below 128, and the first byte of a blank of two or three bytes
    is not a byte that continues a character. *)
Fixpoint rstrip (s : string) : string :=
  match s with
  | EmptyString => EmptyString
  | String c s1 =>
      let t := String c (rstrip s1) in
      if one_space t then EmptyString else t
  end.

(** [s.strip()] *)
Definition strip (s : string) : string := rstrip (lstrip s).

(** Truth value of a text: [if s:] holds for the non-empty ones. *)
Definition truthy (s : string) : bool :=
  match s with EmptyString => false | _ => true end.

(** [s.split('\n')]: never empty, [''.split('\n') == ['']]. *)
Fixpoint split_nl (s : string) : list string :=
  match s with
  | EmptyString => [EmptyString]
  | String c s' =>
      if Ascii.eqb c "010"%char then EmptyString :: split_nl s'
      else match split_nl s' with
           | l :: ls => String c l :: ls
           | [] => [String c EmptyString]
           end
  end.

(** [s.startswith(p)] *)
Definition startswith (p s : string) : bool := String.prefix p s.

Definition lower_char (c : ascii) : ascii :=
  let n := nat_of_ascii c in
  if (65 <=? n)%nat && (n <=? 90)%nat then ascii_of_nat (n + 32) else c.

(** [s.lower()] on ASCII letters. *)
Fixpoint lower (s : string) : string :=
  match s with
  | EmptyString => EmptyString
  | String c s' => String (lower_char c) (lower s')
  end.

(** [str(n)], the text an f-string puts for an integer. *)
Definition str (n : Z) : string := NilZero.string_of_int (Z.to_int n).

(** The blanks [int()] skips round a numeral. *)
Definition isblank (c : ascii) : bool :=
  let n := nat_of_ascii c in
  ((9 <=? n)%nat && (n <=? 13)%nat) || (n =? 32)%nat.

Fixpoint ltrim (s : string) : string :=
  match s with
  | EmptyString => EmptyString
  | String c s' => if isblank c then ltrim s' else s
  end.

Fixpoint rtrim (s : string) : string :=
  match s with
  | EmptyString => EmptyString
  | String c s' =>
      match rtrim s' with
      | EmptyString => if isblank c then EmptyString else String c EmptyString
      | r => String c r
      end
  end.

Definition digit (c : ascii) : option Z :=
  let n := nat_of_ascii c in
  if (48 <=? n)%nat && (n <=? 57)%nat then Some (Z.of_nat n - 48) else None.

(** Digits with single underscores between them; [acc] is the value read so
    far and [sep] tells that the previous character was an underscore. *)
Fixpoint digits (acc : Z) (sep : bool) (s : string) : option Z :=
  match s with
  | EmptyString => if sep then None else Some acc
  | String c s' =>
      if Ascii.eqb c "_"%char then
        if sep then None else digits acc true s'
      else match digit c with
           | Some d => digits (10 * acc + d) false s'
           | None => None
           end
  end.

Definition numeral (s : string) : option Z :=
  match s with
  | EmptyString => None
  | String c _ => match digit c with Some _ => digits 0 false s | None => None end
  end.

(** [int(s)] on a decimal text: [Some v] is the value, [None] stands for
    [ValueError]. *)
Definition int (s : string) : option Z :=
  match rtrim (ltrim s) with
  | String "-" s' => Z.opp <$> numeral s'
  | String "+" s' => numeral s'
  | s' => numeral s'
  end.

End Py.

(** Binary64 arithmetic, for the one place where the program leaves the
    integers: [int((current / total) * 100)]. *)
Module PyFloat.

Definition prec : Z := 53.
Definition emax : Z := 1024.

(** The float nearest to an integer. *)
Definition of_int (n : Z) : spec_float := binary_normalize prec emax n 0 false.

(** [a / b] on integers that a float holds exactly, [b] not zero. *)
Definition truediv (a b : Z) : spec_float := SFdiv prec emax (of_int a) (of_int b).

Definition mul (x y : spec_float) : spec_float := SFmul prec emax x y.

(** [int(x)]: truncation toward zero; [None] stands for the exception raised
    on an infinity or a NaN. *)
Definition to_int (x : spec_float) : option Z :=
  match x with
  | S754_zero _ => Some 0
  | S754_finite s m e =>
      let a := Z.shiftl (Z.pos m) e in Some (if s then - a else a)
  | _ => None
  end.

End PyFloat.

(** ** The serial port *)

Module Serial.

(** [calls] logs every buffer handed to [write], [wire] the ones that went
    out.  [fault n] is the exception text of the [n]-th call of [write]
    (counted from 0) when that call fails. *)
Record t := mk {
  is_open : bool;
  fault : nat -> option string;
  calls : list string;
  wire : list string
}.

Definition not_open : string := "Attempting to use a port that is not open".

(** [port.write(data)]: [Some e] is the exception raised. *)
Definition write (data : string) (s : t) : option string * t :=
  let failed := mk (is_open s) (fault s) (calls s ++ [data]) (wire s) in
  if is_open s then
    match fault s (length (calls s)) with
    | Some e => (Some e, failed)
    | None => (None, mk (is_open s) (fault s) (calls s ++ [data]) (wire s ++ [data]))
    end
  else (Some not_open, failed).

(** What [f"{command}\n".encode('utf-8')] hands to [write]. *)
Definition frame (command : string) : string := command ++ String "010" EmptyString.

End Serial.

(** ** GCodeRunnerThread *)

Module Runner.

(** The three signals of the thread.  [progress] carries [(current, total)];
    line counts stay far below the range of its C [int] arguments. *)
Inductive Signal :=
| progress (current total : nat)
| finished
| error (msg : string).

(** Control points of [run], one per access to state the window shares with
    the thread: the check at the head of an iteration, the pause loop, the
    check after it, the body (skip or write, then [progress]), the statement
    after the loop, and the return. *)
Inductive Loc := LoopHead | PauseWait | Recheck | Body | AfterLoop | Returned.

Record t := mk {
  gcode_lines : list string;
  running : bool;
  paused : bool;
  i : nat;               (* index of [enumerate] *)
  pc : Loc;
  emitted : list Signal  (* signals emitted so far, oldest first *)
}.

(** [__init__] followed by [start()]. *)
Definition init (lines : list string) : t := mk lines true false 0 LoopHead [].

Definition stop (r : t) : t := mk (gcode_lines r) false (paused r) (i r) (pc r) (emitted r).
Definition pause (r : t) : t := mk (gcode_lines r) (running r) true (i r) (pc r) (emitted r).
Definition resume (r : t) : t := mk (gcode_lines r) (running r) false (i r) (pc r) (emitted r).

Definition goto (l : Loc) (r : t) : t :=
  mk (gcode_lines r) (running r) (paused r) (i r) l (emitted r).
Definition emit (sg : Signal) (r : t) : t :=
  mk (gcode_lines r) (running r) (paused r) (i r) (pc r) (emitted r ++ [sg]).
(** [continue], or the end of the body: on to the next index. *)
Definition next (r : t) : t :=
  mk (gcode_lines r) (running r) (paused r) (S (i r)) LoopHead (emitted r).

(** [not line or line.startswith(';') or line.startswith('(')] *)
Definition skipped (line : string) : bool :=
  negb (Py.truthy line) || Py.startswith ";" line || Py.startswith "(" line.

Definition total_lines (r : t) : nat := length (gcode_lines r).

(** [f"Satır {i+1} gönderilemedi: {str(e)}"] *)
Definition send_failure (i : nat) (e : string) : string :=
  "Satır " ++ Py.str (Z.of_nat (i + 1)) ++ " gönderilemedi: " ++ e.

(** One step of [run] against the port. *)
Definition step (r : t) (s : Serial.t) : t * Serial.t :=
  match pc r with
  | LoopHead =>
      match gcode_lines r !! i r with
      | None => (goto AfterLoop r, s)
      | Some _ => if running r then (goto PauseWait r, s) else (goto AfterLoop r, s)
      end
  | PauseWait =>
      if paused r && running r then (r, s) (* msleep(100) *)
      else (goto Recheck r, s)
  | Recheck => if running r then (goto Body r, s) else (goto AfterLoop r, s)
  | Body =>
      match gcode_lines r !! i r with
      | None => (goto AfterLoop r, s)
      | Some line =>
          let line := Py.strip line in
          if skipped line then
            (next (emit (progress (i r + 1) (total_lines r)) r), s)
          else
            match Serial.write (Serial.frame line) s with
            | (None, s') => (next (emit (progress (i r + 1) (total_lines r)) r), s')
            | (Some e, s') => (goto AfterLoop (emit (error (send_failure (i r) e)) r), s')
            end
      end
  | AfterLoop => (goto Returned (emit finished r), s)
  | Returned => (r, s)
  end.

(** [QThread.isRunning()]: started and [run] has not returned. *)
Definition isRunning (r : t) : bool :=
  match pc r with Returned => false | _ => true end.

(** What the window and the scheduler do to a started thread. *)
Inductive Action := Tick | Stop | Pause | Resume.

Definition act (a : Action) (st : t * Serial.t) : t * Serial.t :=
  match a with
  | Tick => step (fst st) (snd st)
  | Stop => (stop (fst st), snd st)
  | Pause => (pause (fst st), snd st)
  | Resume => (resume (fst st), snd st)
  end.

Definition exec (sched : list Action) (st : t * Serial.t) : t * Serial.t :=
  fold_left (fun st a => act a st) sched st.

(** Enough steps for a thread that is not held in the pause loop: at most
    four per remaining line, and the way out. *)
Definition budget (r : t) : nat :=
  match pc r with
  | LoopHead => 4 * (total_lines r - i r) + 5
  | PauseWait => 4 * (total_lines r - i r) + 4
  | Recheck => 4 * (total_lines r - i r) + 3
  | Body => 4 * (total_lines r - i r) + 2
  | AfterLoop => 1
  | Returned => 0
  end.

(** [QThread.wait()]: the caller blocks while the thread runs on.  Called
    on a thread that has been told to stop, or that nobody pauses. *)
Definition wait (st : t * Serial.t) : t * Serial.t :=
  exec (repeat Tick (budget (fst st))) st.

End Runner.

(** ** MotorControlUI *)

Module UI.

Inductive Icon := Warning | Critical | Information.

(** A [QMessageBox] shown to the operator. *)
Record MessageBox := box { icon : Icon; title : string; text : string }.

(** The two [QLineEdit] texts kept per motor in [motor_widgets]. *)
Record MotorWidget := widget { speed : string; steps : string }.

(** The window.  [threads] holds every [GCodeRunnerThread] started so far,
    newest first: [self.gcode_runner] always refers to the one created last,
    the head of the list.  The port object is shared with the threads.
    [gcode_editor] is the text that the editor gives back ([toPlainText]).
    [boxes] logs the message boxes in the order in which the handlers ask
    for them; a box is modal, and what the event loop of an open box lets
    through before the handler goes on is not modelled. *)
Record t := mk {
  serial_connection : option Serial.t;
  motor_widgets : gmap string MotorWidget;
  servo_angle_input : string;
  gcode_editor : string;        (* [self.gcode_editor.toPlainText()] *)
  gcode_lines : list string;
  threads : list Runner.t;
  output_text : list string;
  boxes : list MessageBox;      (* oldest first *)
  gcode_progress : Z;           (* value of the progress bar *)
  statusBar : string
}.

Definition gcode_runner (ui : t) : option Runner.t := head (threads ui).

Definition with_serial (s : option Serial.t) (ui : t) : t :=
  mk s (motor_widgets ui) (servo_angle_input ui) (gcode_editor ui) (gcode_lines ui)
     (threads ui) (output_text ui) (boxes ui) (gcode_progress ui) (statusBar ui).
Definition with_widgets (ws : gmap string MotorWidget) (ui : t) : t :=
  mk (serial_connection ui) ws (servo_angle_input ui) (gcode_editor ui) (gcode_lines ui)
     (threads ui) (output_text ui) (boxes ui) (gcode_progress ui) (statusBar ui).
Definition with_angle (a : string) (ui : t) : t :=
  mk (serial_connection ui) (motor_widgets ui) a (gcode_editor ui) (gcode_lines ui)
     (threads ui) (output_text ui) (boxes ui) (gcode_progress ui) (statusBar ui).
Definition with_editor (c : string) (ui : t) : t :=
  mk (serial_connection ui) (motor_widgets ui) (servo_angle_input ui) c (gcode_lines ui)
     (threads ui) (output_text ui) (boxes ui) (gcode_progress ui) (statusBar ui).
Definition with_lines (ls : list string) (ui : t) : t :=
  mk (serial_connection ui) (motor_widgets ui) (servo_angle_input ui) (gcode_editor ui) ls
     (threads ui) (output_text ui) (boxes ui) (gcode_progress ui) (statusBar ui).
Definition with_threads (ts : list Runner.t) (ui : t) : t :=
  mk (serial_connection ui) (motor_widgets ui) (servo_angle_input ui) (gcode_editor ui)
     (gcode_lines ui) ts (output_text ui) (boxes ui) (gcode_progress ui) (statusBar ui).
Definition append (l : string) (ui : t) : t :=
  mk (serial_connection ui) (motor_widgets ui) (servo_angle_input ui) (gcode_editor ui)
     (gcode_lines ui) (threads ui) (output_text ui ++ [l]) (boxes ui) (gcode_progress ui)
     (statusBar ui).
Definition show (b : MessageBox) (ui : t) : t :=
  mk (serial_connection ui) (motor_widgets ui) (servo_angle_input ui) (gcode_editor ui)
     (gcode_lines ui) (threads ui) (output_text ui) (boxes ui ++ [b]) (gcode_progress ui)
     (statusBar ui).
(** [QProgressBar.setValue] on the range 0..100: a value outside is ignored. *)
Definition setValue (v : Z) (ui : t) : t :=
  mk (serial_connection ui) (motor_widgets ui) (servo_angle_input ui) (gcode_editor ui)
     (gcode_lines ui) (threads ui) (output_text ui) (boxes ui)
     (if (0 <=? v) && (v <=? 100) then v else gcode_progress ui) (statusBar ui).
Definition showMessage (m : string) (ui : t) : t :=
  mk (serial_connection ui) (motor_widgets ui) (servo_angle_input ui) (gcode_editor ui)
     (gcode_lines ui) (threads ui) (output_text ui) (boxes ui) (gcode_progress ui) m.

Definition not_connected : MessageBox := box Warning "Hata" "Arduino'ya bağlı değilsiniz!".
Definition invalid_speed : MessageBox := box Warning "Hata" "Geçersiz hız değeri!".
Definition angle_missing : MessageBox := box Warning "Hata" "Lütfen bir açı değeri girin!".
Definition angle_range : MessageBox :=
  box Warning "Hata" "Açı değeri 0-180 arasında olmalıdır!".
Definition invalid_angle : MessageBox := box Warning "Hata" "Geçersiz açı değeri!".
Definition editor_empty : MessageBox := box Warning "Hata" "G-code editörü boş!".
Definition no_valid_line : MessageBox :=
  box Warning "Hata" "Geçerli G-code satırı bulunamadı!".
Definition already_running : MessageBox := box Warning "Uyarı" "G-code zaten çalışıyor!".
Definition completed : MessageBox := box Information "Başarılı" "G-code başarıyla tamamlandı!".
Definition stopped : MessageBox := box Information "Bilgi" "G-code durduruldu.".

(** [self.serial_connection and self.serial_connection.is_open] *)
Definition connected (ui : t) : bool :=
  match serial_connection ui with
  | Some s => Serial.is_open s
  | None => false
  end.

Definition check_connection (ui : t) : bool * t :=
  if connected ui then (true, ui) else (false, show not_connected ui).

Definition send_command (command : string) (ui : t) : bool * t :=
  match serial_connection ui with
  | Some s =>
      if Serial.is_open s then
        match Serial.write (Serial.frame command) s with
        | (None, s') => (true, append (">>> " ++ command) (with_serial (Some s') ui))
        | (Some e, s') =>
            (false, show (box Critical "Gönderme Hatası"
                              ("Komut gönderilemedi:" ++ String "010" e))
                         (with_serial (Some s') ui))
        end
      else (false, show not_connected ui)
  | None => (false, show not_connected ui)
  end.

(** [self.motors] *)
Definition motors : list string := ["X"; "Y"; "Z"; "E"; "R"; "T"].

(** The texts [init_ui] puts into the inputs of each motor. *)
Definition init_widgets : gmap string MotorWidget :=
  fold_left
    (fun ws motor =>
       let speed_input :=
         if String.eqb motor "X" then "620"
         else if String.eqb motor "Y" then "300"
         else if String.eqb motor "Z" then "50"
         else "1500" in
       <[motor := widget speed_input "0"]> ws)
    motors ∅.

(** The window after [__init__], given the connection it holds. *)
Definition init (conn : option Serial.t) : t :=
  mk conn init_widgets "90" "" [] [] [] [] 0 "Bağlantı bekleniyor...".

Section Commands.

(** The integer parser: [int : str -> int], [None] for [ValueError]. *)
Variable int : string -> option Z.

Definition move_forward (motor : string) (ui : t) : t :=
  let (ok, ui) := check_connection ui in
  if negb ok then ui else
  let ui := snd (send_command (Py.lower motor) ui) in
  match motor_widgets ui !! motor with
  | None => ui (* KeyError *)
  | Some w =>
      let speed := speed w in
      let set_speed :=
        if Py.truthy speed then
          match int speed with
          | Some speed_val => Some (snd (send_command ("v=" ++ Py.str speed_val) ui))
          | None => None
          end
        else Some ui in
      match set_speed with
      | None => show invalid_speed ui
      | Some ui =>
          let steps := steps w in
          if Py.truthy steps then
            match int steps with
            | Some step_val =>
                if 0 <? step_val then snd (send_command ("m=" ++ Py.str step_val) ui)
                else snd (send_command "a" ui)
            | None => snd (send_command "a" ui)
            end
          else snd (send_command "a" ui)
      end
  end.

Definition move_backward (motor : string) (ui : t) : t :=
  let (ok, ui) := check_connection ui in
  if negb ok then ui else
  let ui := snd (send_command (Py.lower motor) ui) in
  match motor_widgets ui !! motor with
  | None => ui (* KeyError *)
  | Some w =>
      let speed := speed w in
      let set_speed :=
        if Py.truthy speed then
          match int speed with
          | Some speed_val => Some (snd (send_command ("v=" ++ Py.str speed_val) ui))
          | None => None
          end
        else Some ui in
      match set_speed with
      | None => show invalid_speed ui
      | Some ui =>
          let steps := steps w in
          if Py.truthy steps then
            match int steps with
            | Some step_val =>
                if 0 <? step_val then snd (send_command ("n=" ++ Py.str step_val) ui)
                else snd (send_command "d" ui)
            | None => snd (send_command "d" ui)
            end
          else snd (send_command "d" ui)
      end
  end.

Definition set_servo_angle (ui : t) : t :=
  let (ok, ui) := check_connection ui in
  if negb ok then ui else
  let angle_text := servo_angle_input ui in
  if negb (Py.truthy angle_text) then show angle_missing ui else
  match int angle_text with
  | Some angle =>
      if (angle <? 0) || (180 <? angle) then show angle_range ui
      else
        let ui := snd (send_command "s" ui) in
        snd (send_command ("p=" ++ Py.str angle) ui)
  | None => show invalid_angle ui
  end.

End Commands.

Definition stop_motor (motor : string) (ui : t) : t :=
  let (ok, ui) := check_connection ui in
  if negb ok then ui else
  let ui := snd (send_command (Py.lower motor) ui) in
  snd (send_command "w" ui).

(** [[line.strip() for line in content.split('\n') if line.strip()]], the
    expression both [load_gcode_file] and [run_gcode] evaluate. *)
Definition stripped_lines (content : string) : list string :=
  List.map Py.strip
    (List.filter (fun line => Py.truthy (Py.strip line)) (Py.split_nl content)).

(** [load_gcode_file] once the operator has chosen a file that reads as
    [content].  The editor is a [QTextEdit]: what [toPlainText] returns after
    [setPlainText(content)] is for Qt to say (it turns a paragraph or line
    separator into a line feed and a no-break space into a blank), so the
    text [shown] that the editor gives back from then on comes with the
    event; the lines are taken from [content] itself. *)
Definition load_gcode_file (content shown : string) (ui : t) : t :=
  let ui := with_editor shown ui in
  let ui := with_lines (stripped_lines content) ui in
  show (box Information "Başarılı"
          ("G-code dosyası yüklendi!" ++ String "010"
             (Py.str (Z.of_nat (length (gcode_lines ui))) ++ " satır.")))
       ui.

Definition on_gcode_finished (ui : t) : t :=
  show completed (showMessage "G-code tamamlandı!" (setValue 100 ui)).

Definition on_gcode_error (error_msg : string) (ui : t) : t :=
  show (box Critical "G-code Hatası" error_msg) (on_gcode_finished ui).

(** [int((current / total) * 100)] *)
Definition percent (current total : Z) : option Z :=
  PyFloat.to_int (PyFloat.mul (PyFloat.truediv current total) (PyFloat.of_int 100)).

Definition on_gcode_progress (current total : Z) (ui : t) : t :=
  if 0 <? total then
    match percent current total with
    | Some progress =>
        showMessage ("G-code çalışıyor... " ++ Py.str current ++ "/" ++ Py.str total
                       ++ " satır (" ++ Py.str progress ++ "%)")
                    (setValue progress ui)
    | None => ui (* the exception leaves the slot *)
    end
  else ui.

(** The slot each signal of a runner is connected to in [run_gcode]. *)
Definition dispatch (sg : Runner.Signal) (ui : t) : t :=
  match sg with
  | Runner.progress current total =>
      on_gcode_progress (Z.of_nat current) (Z.of_nat total) ui
  | Runner.finished => on_gcode_finished ui
  | Runner.error msg => on_gcode_error msg ui
  end.

(** The thread object receives the list that [self.gcode_lines] names at that
    moment; the window later rebinds the attribute to a fresh list and never
    mutates the old one, so the thread keeps its own lines. *)
Definition run_gcode (ui : t) : t :=
  let (ok, ui) := check_connection ui in
  if negb ok then ui else
  let content := gcode_editor ui in
  if negb (Py.truthy (Py.strip content)) then show editor_empty ui else
  let ui := with_lines (stripped_lines content) ui in
  match gcode_lines ui with
  | [] => show no_valid_line ui
  | _ =>
      let start :=
        showMessage "G-code çalışıyor..."
          (with_threads (Runner.init (gcode_lines ui) :: threads ui) ui) in
      match gcode_runner ui with
      | Some r => if Runner.isRunning r then show already_running ui else start
      | None => start
      end
  end.

Definition pause_gcode (ui : t) : t :=
  match threads ui with
  | r :: ts =>
      if Runner.isRunning r then
        if Runner.paused r then
          showMessage "G-code devam ediyor..." (with_threads (Runner.resume r :: ts) ui)
        else
          showMessage "G-code duraklatıldı..." (with_threads (Runner.pause r :: ts) ui)
      else ui
  | [] => ui
  end.

(** Thread [n] runs [f] against the port it shares with the window.  A thread
    is only ever created over a connection, and the window is not modelled
    to drop it; without one nothing moves. *)
Definition on_thread (f : Runner.t * Serial.t -> Runner.t * Serial.t) (n : nat) (ui : t) : t :=
  match threads ui !! n, serial_connection ui with
  | Some r, Some s =>
      let (r', s') := f (r, s) in
      with_serial (Some s') (with_threads (<[n := r']> (threads ui)) ui)
  | _, _ => ui
  end.

(** [stop()], then [wait()] blocks the window until [run] has returned. *)
Definition stop_gcode (ui : t) : t :=
  match gcode_runner ui with
  | Some r =>
      if Runner.isRunning r then
        let ui := on_thread (fun st => Runner.wait (Runner.act Runner.Stop st)) 0 ui in
        show stopped (on_gcode_finished ui)
      else ui
  | None => ui
  end.

(** What can happen to the window between two observations: the operator
    types into an input or the editor, loads a file or presses a button, the
    scheduler lets a thread take a step, or a queued signal reaches its
    slot.  [Edit content] leaves the editor giving back [content];
    [LoadFile content shown] loads a file that reads as [content] and leaves
    the editor giving back [shown]. *)
Inductive Op :=
| TypeSpeed (motor text : string)
| TypeSteps (motor text : string)
| TypeAngle (text : string)
| Forward (motor : string)
| Backward (motor : string)
| StopAxis (motor : string)
| SetServo
| Edit (content : string)
| LoadFile (content shown : string)
| Run
| PauseResume
| StopRun
| Step (n : nat)
| Deliver (sg : Runner.Signal).

Definition op (int : string -> option Z) (o : Op) (ui : t) : t :=
  match o with
  | TypeSpeed motor text =>
      with_widgets (alter (fun w => widget text (steps w)) motor (motor_widgets ui)) ui
  | TypeSteps motor text =>
      with_widgets (alter (fun w => widget (speed w) text) motor (motor_widgets ui)) ui
  | TypeAngle text => with_angle text ui
  | Forward motor => move_forward int motor ui
  | Backward motor => move_backward int motor ui
  | StopAxis motor => stop_motor motor ui
  | SetServo => set_servo_angle int ui
  | Edit content => with_editor content ui
  | LoadFile content shown => load_gcode_file content shown ui
  | Run => run_gcode ui
  | PauseResume => pause_gcode ui
  | StopRun => stop_gcode ui
  | Step n => on_thread (Runner.act Runner.Tick) n ui
  | Deliver sg => dispatch sg ui
  end.

Definition ops (int : string -> option Z) (os : list Op) (ui : t) : t :=
  fold_left (fun ui o => op int o ui) os ui.

(** The threads of the window whose [run] has not returned. *)
Definition active (ui : t) : list Runner.t := List.filter Runner.isRunning (threads ui).

End UI.

(** ** Observations used in the statements *)

(** The six axes of [self.motors], the key of each in [motor_widgets] and the
    letter that selects it on the wire. *)
Inductive Axis := X | Y | Z' | E | R | T.

Definition name (a : Axis) : string :=
  match a with X => "X" | Y => "Y" | Z' => "Z" | E => "E" | R => "R" | T => "T" end.

Definition letter (a : Axis) : string :=
  match a with X => "x" | Y => "y" | Z' => "z" | E => "e" | R => "r" | T => "t" end.

(** Buffers handed to [write] so far, and buffers that went out. *)
Definition calls_of (ui : UI.t) : list string :=
  match UI.serial_connection ui with Some s => Serial.calls s | None => [] end.

Definition wire_of (ui : UI.t) : list string :=
  match UI.serial_connection ui with Some s => Serial.wire s | None => [] end.

(** No call of [write] on the port of the window fails. *)
Definition faultless (ui : UI.t) : Prop :=
  match UI.serial_connection ui with
  | Some s => forall n, Serial.fault s n = None
  | None => True
  end.

(** The third line of a move: the step command with the count when the steps
    text is an integer above zero, the continuous-motion letter otherwise. *)
Definition motion_line (int : string -> option Z) (step cont steps : string) : string :=
  match int steps with
  | Some n => if 0 <? n then step ++ Py.str n else cont
  | None => cont
  end.

(** A window whose port is open and never fails, with [speed] and [steps]
    typed into the inputs of motor X and [angle] into the servo input. *)
Definition panel (speed steps angle : string) : UI.t :=
  UI.mk (Some (Serial.mk true (fun _ => None) [] []))
        (<["X" := UI.widget speed steps]> UI.init_widgets)
        angle "" [] [] [] [] 0 "".

(** The signals [progress (i+1, total)], ..., [progress (i+n, total)]. *)
Definition progress_run (total i n : nat) : list Runner.Signal :=
  List.map (fun j => Runner.progress j total) (seq (i + 1) n).

Definition is_progress (sg : Runner.Signal) : bool :=
  match sg with Runner.progress _ _ => true | _ => false end.

Definition is_finished (sg : Runner.Signal) : bool :=
  match sg with Runner.finished => true | _ => false end.

Definition finished_count (sgs : list Runner.Signal) : nat :=
  length (List.filter is_finished sgs).

(** A line the loop body writes rather than skips. *)
Definition sendable (line : string) : bool := negb (Runner.skipped (Py.strip line)).

(** The buffer the loop body writes for a line. *)
Definition buffer (line : string) : string := Serial.frame (Py.strip line).

(** [run] read as one sequential function, from index [i] with [rest] still
    to do, for a thread that is neither stopped nor held: the signals emitted
    in the end and the port. *)
Fixpoint run_rest (total i : nat) (rest : list string) (s : Serial.t)
    (out : list Runner.Signal) : list Runner.Signal * Serial.t :=
  match rest with
  | [] => ((out ++ [Runner.finished])%list, s)
  | line :: rest' =>
      let line := Py.strip line in
      if Runner.skipped line then
        run_rest total (S i) rest' s (out ++ [Runner.progress (i + 1) total])
      else
        match Serial.write (Serial.frame line) s with
        | (None, s') => run_rest total (S i) rest' s' (out ++ [Runner.progress (i + 1) total])
        | (Some e, s') =>
            ((out ++ [Runner.error (Runner.send_failure i e); Runner.finished])%list, s')
        end
  end.

(** Where a thread that is left to run ends up, seen from any of its control
    points. *)
Definition outcome (st : Runner.t * Serial.t) : list Runner.Signal * Serial.t :=
  let (r, s) := st in
  match Runner.pc r with
  | Runner.AfterLoop => ((Runner.emitted r ++ [Runner.finished])%list, s)
  | Runner.Returned => (Runner.emitted r, s)
  | _ => run_rest (Runner.total_lines r) (Runner.i r)
           (drop (Runner.i r) (Runner.gcode_lines r)) s (Runner.emitted r)
  end.

(** The thread is not in the pause loop for good. *)
Definition free (r : Runner.t) : Prop := Runner.paused r = false \/ Runner.running r = false.

(** The signals a thread can have emitted at each control point: [progress]
    only inside the loop, at most one [error] at the end of these after it,
    and [finished] as the last one once [run] has returned. *)
Definition shape (r : Runner.t) : Prop :=
  exists ps, forallb is_progress ps = true /\
    match Runner.pc r with
    | Runner.AfterLoop =>
        Runner.emitted r = ps \/ exists m, Runner.emitted r = (ps ++ [Runner.error m])%list
    | Runner.Returned =>
        Runner.emitted r = (ps ++ [Runner.finished])%list \/
        exists m, Runner.emitted r = (ps ++ [Runner.error m; Runner.finished])%list
    | _ => Runner.emitted r = ps
    end.

(** A stopped thread that is not about to write. *)
Definition quiet (r : Runner.t) : Prop :=
  Runner.running r = false /\ Runner.pc r <> Runner.Body.

(** A text of blanks only. *)
Fixpoint all_space (s : string) : bool :=
  match s with
  | EmptyString => true
  | String c s1 =>
      if Py.space1 c then all_space s1
      else match s1 with
           | EmptyString => false
           | String d s2 =>
               if Py.space2 c d then all_space s2
               else match s2 with
                    | EmptyString => false
                    | String e s3 => if Py.space3 c d e then all_space s3 else false
                    end
           end
  end.

(** Every superseded thread of the window has returned. *)
Definition one_runner (ui : UI.t) : Prop :=
  Forall (fun r => Runner.isRunning r = false) (tail (UI.threads ui)).

(** ** Further observations *)

(** The buffers the loop body writes for a stretch of the program. *)
Definition sent_of (lines : list string) : list string :=
  List.map buffer (List.filter sendable lines).

(** How far a thread has come, read off the port and the signals: with
    [i] lines done, the [progress] signals are those of lines 1 to [i], the
    buffers of the lines done are on the wire, and [write] has been called
    for them and, after a failed write, once more for the line at [i]. *)
Definition in_order (lines c0 w0 : list string) (st : Runner.t * Serial.t) : Prop :=
  let r := fst st in
  let s := snd st in
  let done := take (Runner.i r) lines in
  Runner.gcode_lines r = lines /\
  (Runner.i r <= length lines)%nat /\
  List.filter is_progress (Runner.emitted r) = progress_run (length lines) 0 (Runner.i r) /\
  Serial.wire s = (w0 ++ sent_of done)%list /\
  (Serial.calls s = (c0 ++ sent_of done)%list \/
   (Runner.pc r = Runner.AfterLoop \/ Runner.pc r = Runner.Returned) /\
   exists line, lines !! Runner.i r = Some line /\ sendable line = true /\
     Serial.calls s = (c0 ++ sent_of done ++ [buffer line])%list).

(** A paused thread that has no write ahead of it before the pause loop. *)
Definition held (r : Runner.t) : Prop :=
  Runner.paused r = true /\ Runner.pc r <> Runner.Body /\
  (Runner.pc r = Runner.Recheck -> Runner.running r = false).

(** [on_serial_data]: a line that the reader thread received is shown in the
    output pane (the scrolling is left out). *)
Definition on_serial_data (data : string) (ui : UI.t) : UI.t :=
  UI.append ("<<< " ++ data) ui.

(** The echo [send_command] puts into the output pane, and the test for one. *)
Definition echo (command : string) : string := ">>> " ++ command.
Definition is_echo (l : string) : bool := Py.startswith ">>> " l.

(** What happens at the window: an operation of the operator, of a thread or
    of a signal, or a line received from the controller. *)
Inductive PanelEvent :=
| Pressed (o : UI.Op)
| Received (data : string).

Definition panel_event (int : string -> option Z) (ev : PanelEvent) (ui : UI.t) : UI.t :=
  match ev with
  | Pressed o => UI.op int o ui
  | Received data => on_serial_data data ui
  end.

Definition panel_events (int : string -> option Z) (evs : list PanelEvent) (ui : UI.t) : UI.t :=
  fold_left (fun ui ev => panel_event int ev ui) evs ui.

(** The events in which no runner thread gets to write: all but a step of a
    thread and the stop button, which waits for the thread. *)
Definition window_only (ev : PanelEvent) : bool :=
  match ev with
  | Pressed (UI.Step _) | Pressed UI.StopRun => false
  | _ => true
  end.

(** From [ui] to [ui'] the commands [sent] went out and the output pane grew
    by lines whose echoes are those of [sent]. *)
Definition echoes (ui ui' : UI.t) : Prop :=
  exists (sent shown : list string),
    wire_of ui' = (wire_of ui ++ List.map Serial.frame sent)%list /\
    UI.output_text ui' = (UI.output_text ui ++ shown)%list /\
    List.filter is_echo shown = List.map echo sent.

(** A text with a line feed in it. *)
Fixpoint contains_nl (s : string) : bool :=
  match s with
  | EmptyString => false
  | String c s' => Ascii.eqb c "010"%char || contains_nl s'
  end.

(** A line that starts as a comment. *)
Definition is_comment (line : string) : bool :=
  Py.startswith ";" line || Py.startswith "(" line.

(** The integers 1 to [n]. *)
Definition upto (n : nat) : list Z := List.map Z.of_nat (seq 1 n).

(** The percentage shown for [(current, total)] is the exact quotient, or one
    less where the quotient is exact; it lies in 0..100 and is 100 at the
    end. *)
Definition percent_close (current total : Z) : bool :=
  match UI.percent current total with
  | Some p =>
      ((p =? 100 * current / total) ||
       ((p =? 100 * current / total - 1) && ((100 * current) mod total =? 0)))
      && (0 <=? p) && (p <=? 100)
      && (if current =? total then p =? 100 else true)
  | None => false
  end.

Definition percent_close_upto (bound : nat) : bool :=
  forallb (fun total => forallb (fun current => percent_close current total)
                          (upto (Z.to_nat total)))
          (upto bound).

(** ** SerialReaderThread *)

Module Reader.

(** What the port has for the thread when it looks: nothing waiting, the
    bytes that [readline] returns, or an exception of [in_waiting] or
    [readline]. *)
Inductive Input :=
| Nothing
| Line (raw : string)
| Failure (e : string).

(** Where the thread stands in [run]: before the test of the loop, in the
    body of the loop with the test passed, or past the loop. *)
Inductive Loc := LoopTest | Body | Returned.

Record t := mk {
  running : bool;
  pc : Loc;
  data_received : list string    (* lines emitted so far, oldest first *)
}.

Definition init : t := mk true LoopTest [].

Definition stop (r : t) : t := mk false (pc r) (data_received r).

Section Decode.

(** [bytes.decode('utf-8', errors='ignore')] *)
Variable decode : string -> string.

(** One step of [run].  The test of the loop reads the flag and the state
    of the port and goes into the body or leaves the loop; the body takes
    what the port has, emits the line if one is left after trimming, and
    goes back to the test, or leaves the loop on an exception. *)
Definition step (is_open : bool) (inp : Input) (r : t) : t :=
  match pc r with
  | LoopTest =>
      mk (running r) (if running r && is_open then Body else Returned) (data_received r)
  | Body =>
      match inp with
      | Nothing => mk (running r) LoopTest (data_received r)
      | Line raw =>
          let line := Py.strip (decode raw) in
          mk (running r) LoopTest
             (if Py.truthy line then data_received r ++ [line] else data_received r)
      | Failure _ => mk (running r) Returned (data_received r)
      end
  | Returned => r
  end.

(** The thread takes a step, with the port as it is at that moment, or
    [stop] is called from the window. *)
Inductive Event :=
| Turn (is_open : bool) (inp : Input)
| Stop.

Definition act (ev : Event) (r : t) : t :=
  match ev with
  | Turn is_open inp => step is_open inp r
  | Stop => stop r
  end.

Definition exec (evs : list Event) (r : t) : t := fold_left (fun r ev => act ev r) evs r.


End Decode.

End Reader.

(** ** The list of ports *)

(** A [QComboBox]: the entries with their text and data, and the index of the
    current one.  Adding to an empty box makes the first entry current. *)
Module Combo.

Record t := mk {
  items : list (string * string);
  currentIndex : option nat
}.

Definition currentText (c : t) : string :=
  match currentIndex c with
  | Some i => match items c !! i with Some it => fst it | None => "" end
  | None => ""
  end.

Definition currentData (c : t) : string :=
  match currentIndex c with
  | Some i => match items c !! i with Some it => snd it | None => "" end
  | None => ""
  end.

Definition count (c : t) : nat := length (items c).

Definition clear (c : t) : t := mk [] None.

Definition addItem (text data : string) (c : t) : t :=
  mk (items c ++ [(text, data)])
     (match items c with [] => Some 0%nat | _ => currentIndex c end).

(** Index of the first entry with the text. *)
Fixpoint find (text : string) (its : list (string * string)) : option nat :=
  match its with
  | [] => None
  | it :: its' => if String.eqb (fst it) text then Some 0%nat else S <$> find text its'
  end.

Definition findText (text : string) (c : t) : option nat := find text (items c).

Definition setCurrentIndex (i : nat) (c : t) : t := mk (items c) (Some i).

End Combo.

(** An entry of [serial.tools.list_ports.comports()]. *)
Record Port := port { device : string; description : string }.

(** [f"{port.device} - {port.description}"] *)
Definition port_label (p : Port) : string := device p ++ " - " ++ description p.

(** The entry [update_port_list] adds for a port: its label as the text, its
    device as the data. *)
Definition entry (p : Port) : string * string := (port_label p, device p).

(** [update_port_list], given what [comports()] returns. *)
Definition update_port_list (ports : list Port) (port_combo : Combo.t) : Combo.t :=
  let current_selection := Combo.currentText port_combo in
  let port_combo := Combo.clear port_combo in
  let port_combo :=
    fold_left (fun c p => Combo.addItem (port_label p) (device p) c) ports port_combo in
  match Combo.findText current_selection port_combo with
  | Some index => Combo.setCurrentIndex index port_combo
  | None => port_combo
  end.

(** * Properties *)

(** ** The command encoder *)

Lemma lower_name (a : Axis) : Py.lower (name a) = letter a.
Proof. destruct a; reflexivity. Qed.

Lemma connected_port (ui : UI.t) :
  UI.connected ui = true ->
  exists s, UI.serial_connection ui = Some s /\ Serial.is_open s = true.
Proof.
  unfold UI.connected. destruct (UI.serial_connection ui) as [s|]; [|discriminate].
  intros H. exists s. split; [reflexivity | exact H].
Qed.

(** What one [send_command] does on an open port: one more call of [write],
    nothing else of the window that the encoder reads is touched, and the
    line goes out unless the port fails. *)
Lemma send_command_spec (command : string) (ui : UI.t) :
  UI.connected ui = true ->
  let ui' := snd (UI.send_command command ui) in
  UI.connected ui' = true /\
  UI.motor_widgets ui' = UI.motor_widgets ui /\
  UI.servo_angle_input ui' = UI.servo_angle_input ui /\
  calls_of ui' = (calls_of ui ++ [Serial.frame command])%list /\
  (faultless ui ->
   faultless ui' /\ wire_of ui' = (wire_of ui ++ [Serial.frame command])%list /\
   UI.boxes ui' = UI.boxes ui).
Proof.
  intros Hc. destruct (connected_port ui Hc) as (s & Hs & Ho).
  unfold UI.send_command, calls_of, wire_of, faultless, UI.connected.
  rewrite Hs, Ho. unfold Serial.write. rewrite Ho.
  destruct (Serial.fault s (length (Serial.calls s))) as [e|] eqn:Hf; cbn.
  - do 4 (split; [reflexivity|]).
    intros Hn. rewrite Hn in Hf. discriminate.
  - do 4 (split; [reflexivity|]).
    intros Hn. split; [exact Hn|]. split; reflexivity.
Qed.

Section Encoder.

Variable int : string -> option Z.
(** [int('')] raises [ValueError]. *)
Hypothesis int_empty : int "" = None.

Lemma truthy_parsed (s : string) (v : Z) : int s = Some v -> Py.truthy s = true.
Proof. destruct s; [rewrite int_empty; discriminate | reflexivity]. Qed.

(** The motion line the two move commands choose, whatever the steps text. *)
Lemma motion_choice (step cont steps : string) (ui : UI.t) :
  (if Py.truthy steps then
     match int steps with
     | Some step_val =>
         if 0 <? step_val then snd (UI.send_command (step ++ Py.str step_val) ui)
         else snd (UI.send_command cont ui)
     | None => snd (UI.send_command cont ui)
     end
   else snd (UI.send_command cont ui))
  = snd (UI.send_command (motion_line int step cont steps) ui).
Proof.
  unfold motion_line. destruct steps as [|c steps]; cbn [Py.truthy].
  - rewrite int_empty. reflexivity.
  - destruct (int (String c steps)) as [n|]; [destruct (0 <? n)|]; reflexivity.
Qed.

Lemma move_forward_lines (motor : string) (ui : UI.t) (w : UI.MotorWidget) (v : Z) :
  UI.connected ui = true ->
  UI.motor_widgets ui !! motor = Some w ->
  int (UI.speed w) = Some v ->
  let lines := List.map Serial.frame
    [Py.lower motor; "v=" ++ Py.str v; motion_line int "m=" "a" (UI.steps w)] in
  calls_of (UI.move_forward int motor ui) = (calls_of ui ++ lines)%list /\
  (faultless ui -> wire_of (UI.move_forward int motor ui) = (wire_of ui ++ lines)%list).
Proof.
  intros Hc Hw Hv. unfold UI.move_forward, UI.check_connection.
  rewrite Hc. cbn [negb].
  destruct (send_command_spec (Py.lower motor) ui Hc) as (Hc1 & Hw1 & _ & Hl1 & Hf1).
  set (ui1 := snd (UI.send_command (Py.lower motor) ui)) in *.
  rewrite Hw1, Hw, (truthy_parsed _ _ Hv), Hv, motion_choice.
  destruct (send_command_spec ("v=" ++ Py.str v) ui1 Hc1) as (Hc2 & _ & _ & Hl2 & Hf2).
  set (ui2 := snd (UI.send_command ("v=" ++ Py.str v) ui1)) in *.
  destruct (send_command_spec (motion_line int "m=" "a" (UI.steps w)) ui2 Hc2)
    as (_ & _ & _ & Hl3 & Hf3).
  split.
  - rewrite Hl3, Hl2, Hl1, <- !app_assoc. reflexivity.
  - intros Hn. destruct (Hf1 Hn) as (Hn1 & Hx1 & _).
    destruct (Hf2 Hn1) as (Hn2 & Hx2 & _). destruct (Hf3 Hn2) as (_ & Hx3 & _).
    rewrite Hx3, Hx2, Hx1, <- !app_assoc. reflexivity.
Qed.

Lemma move_backward_lines (motor : string) (ui : UI.t) (w : UI.MotorWidget) (v : Z) :
  UI.connected ui = true ->
  UI.motor_widgets ui !! motor = Some w ->
  int (UI.speed w) = Some v ->
  let lines := List.map Serial.frame
    [Py.lower motor; "v=" ++ Py.str v; motion_line int "n=" "d" (UI.steps w)] in
  calls_of (UI.move_backward int motor ui) = (calls_of ui ++ lines)%list /\
  (faultless ui -> wire_of (UI.move_backward int motor ui) = (wire_of ui ++ lines)%list).
Proof.
  intros Hc Hw Hv. unfold UI.move_backward, UI.check_connection.
  rewrite Hc. cbn [negb].
  destruct (send_command_spec (Py.lower motor) ui Hc) as (Hc1 & Hw1 & _ & Hl1 & Hf1).
  set (ui1 := snd (UI.send_command (Py.lower motor) ui)) in *.
  rewrite Hw1, Hw, (truthy_parsed _ _ Hv), Hv, motion_choice.
  destruct (send_command_spec ("v=" ++ Py.str v) ui1 Hc1) as (Hc2 & _ & _ & Hl2 & Hf2).
  set (ui2 := snd (UI.send_command ("v=" ++ Py.str v) ui1)) in *.
  destruct (send_command_spec (motion_line int "n=" "d" (UI.steps w)) ui2 Hc2)
    as (_ & _ & _ & Hl3 & Hf3).
  split.
  - rewrite Hl3, Hl2, Hl1, <- !app_assoc. reflexivity.
  - intros Hn. destruct (Hf1 Hn) as (Hn1 & Hx1 & _).
    destruct (Hf2 Hn1) as (Hn2 & Hx2 & _). destruct (Hf3 Hn2) as (_ & Hx3 & _).
    rewrite Hx3, Hx2, Hx1, <- !app_assoc. reflexivity.
Qed.

End Encoder.

(** C1. With a speed text that parses as the integer [v], the forward command
    hands to [write], one call per line and in this order, the lowercase axis
    letter, [v=<v>] and then [m=<n>] when the steps text parses as an integer
    [n > 0] and [a] otherwise; the backward command does the same with
    [n=<n>] and [d].  On a port that does not fail these are exactly the
    lines that go out. *)
Theorem move_emits_axis_speed_motion
    (int : string -> option Z) (a : Axis) (ui : UI.t) (w : UI.MotorWidget) (v : Z) :
  int "" = None ->
  UI.connected ui = true ->
  UI.motor_widgets ui !! name a = Some w ->
  int (UI.speed w) = Some v ->
  let forward := List.map Serial.frame
    [letter a; "v=" ++ Py.str v; motion_line int "m=" "a" (UI.steps w)] in
  let backward := List.map Serial.frame
    [letter a; "v=" ++ Py.str v; motion_line int "n=" "d" (UI.steps w)] in
  calls_of (UI.move_forward int (name a) ui) = (calls_of ui ++ forward)%list /\
  calls_of (UI.move_backward int (name a) ui) = (calls_of ui ++ backward)%list /\
  (faultless ui ->
   wire_of (UI.move_forward int (name a) ui) = (wire_of ui ++ forward)%list /\
   wire_of (UI.move_backward int (name a) ui) = (wire_of ui ++ backward)%list).
Proof.
  intros He Hc Hw Hv.
  destruct (move_forward_lines int He (name a) ui w v Hc Hw Hv) as [Hf Hfw].
  destruct (move_backward_lines int He (name a) ui w v Hc Hw Hv) as [Hb Hbw].
  rewrite lower_name in Hf, Hfw, Hb, Hbw.
  split; [exact Hf|]. split; [exact Hb|].
  intros Hn. split; [exact (Hfw Hn) | exact (Hbw Hn)].
Qed.

Lemma move_emits_axis_speed_motion_witness :
  wire_of (UI.move_forward Py.int "X" (panel "620" "100" "90"))
    = List.map Serial.frame ["x"; "v=620"; "m=100"] /\
  wire_of (UI.move_backward Py.int "X" (panel "620" "100" "90"))
    = List.map Serial.frame ["x"; "v=620"; "n=100"].
Proof.
  apply (move_emits_axis_speed_motion Py.int X (panel "620" "100" "90")
           (UI.widget "620" "100") 620);
    vm_compute; reflexivity.
Defined.

(** C2, as the code has it.  With a non-empty speed text that does not parse,
    the axis letter has already been handed to [write] when the speed is
    examined: the forward and the backward command make exactly that one
    call, then show the invalid-speed warning, and no speed or motion line
    follows. *)
Theorem invalid_speed_sends_axis_only
    (int : string -> option Z) (a : Axis) (ui : UI.t) (w : UI.MotorWidget) :
  UI.connected ui = true ->
  UI.motor_widgets ui !! name a = Some w ->
  UI.speed w <> "" ->
  int (UI.speed w) = None ->
  calls_of (UI.move_forward int (name a) ui) = (calls_of ui ++ [Serial.frame (letter a)])%list /\
  calls_of (UI.move_backward int (name a) ui) = (calls_of ui ++ [Serial.frame (letter a)])%list /\
  (faultless ui ->
   wire_of (UI.move_forward int (name a) ui) = (wire_of ui ++ [Serial.frame (letter a)])%list /\
   wire_of (UI.move_backward int (name a) ui) = (wire_of ui ++ [Serial.frame (letter a)])%list /\
   UI.boxes (UI.move_forward int (name a) ui) = (UI.boxes ui ++ [UI.invalid_speed])%list /\
   UI.boxes (UI.move_backward int (name a) ui) = (UI.boxes ui ++ [UI.invalid_speed])%list).
Proof.
  intros Hc Hw Hne Hv.
  assert (Ht : Py.truthy (UI.speed w) = true) by (destruct (UI.speed w); [congruence | reflexivity]).
  unfold UI.move_forward, UI.move_backward, UI.check_connection.
  rewrite Hc. cbn [negb]. rewrite <- lower_name.
  destruct (send_command_spec (Py.lower (name a)) ui Hc) as (_ & Hw1 & _ & Hl1 & Hf1).
  set (ui1 := snd (UI.send_command (Py.lower (name a)) ui)) in *.
  rewrite Hw1, Hw, Ht, Hv.
  split; [exact Hl1|]. split; [exact Hl1|].
  intros Hn. destruct (Hf1 Hn) as (_ & Hx & Hb).
  unfold wire_of in *. cbn. rewrite Hb. repeat split; exact Hx.
Qed.

Lemma invalid_speed_sends_axis_only_witness :
  wire_of (UI.move_forward Py.int "X" (panel "abc" "100" "90")) = [Serial.frame "x"] /\
  wire_of (UI.move_backward Py.int "X" (panel "abc" "100" "90")) = [Serial.frame "x"] /\
  UI.boxes (UI.move_forward Py.int "X" (panel "abc" "100" "90")) = [UI.invalid_speed] /\
  UI.boxes (UI.move_backward Py.int "X" (panel "abc" "100" "90")) = [UI.invalid_speed].
Proof.
  apply (invalid_speed_sends_axis_only Py.int X (panel "abc" "100" "90")
           (UI.widget "abc" "100"));
    try (vm_compute; reflexivity).
  discriminate.
Defined.

(** C2 as stated fails: with the speed text [abc] on motor X the port starts
    with nothing sent, and after the forward or the backward command the
    axis line has gone out. *)
Lemma invalid_speed_axis_line_goes_out :
  Py.int "abc" = None /\
  wire_of (panel "abc" "100" "90") = [] /\
  wire_of (UI.move_forward Py.int "X" (panel "abc" "100" "90")) = [Serial.frame "x"] /\
  wire_of (UI.move_backward Py.int "X" (panel "abc" "100" "90")) = [Serial.frame "x"].
Proof. vm_compute. repeat split. Qed.

(** C3. An angle text that parses as an integer [p] with [0 <= p <= 180]
    makes [set_servo_angle] hand exactly the two lines [s] and [p=<p>] to
    [write]; a text that does not parse, or whose value lies outside the
    range, leaves the port untouched and a warning is shown. *)
Theorem servo_angle_checked_before_sending (int : string -> option Z) (ui : UI.t) :
  int "" = None ->
  UI.connected ui = true ->
  let ui' := UI.set_servo_angle int ui in
  let angle_text := UI.servo_angle_input ui in
  (forall p, int angle_text = Some p -> 0 <= p <= 180 ->
     let lines := List.map Serial.frame ["s"; "p=" ++ Py.str p] in
     calls_of ui' = (calls_of ui ++ lines)%list /\
     (faultless ui -> wire_of ui' = (wire_of ui ++ lines)%list)) /\
  (forall p, int angle_text = Some p -> p < 0 \/ 180 < p ->
     calls_of ui' = calls_of ui /\ wire_of ui' = wire_of ui /\
     UI.boxes ui' = (UI.boxes ui ++ [UI.angle_range])%list) /\
  (int angle_text = None ->
     calls_of ui' = calls_of ui /\ wire_of ui' = wire_of ui /\
     UI.boxes ui' =
       (UI.boxes ui ++ [if Py.truthy angle_text then UI.invalid_angle else UI.angle_missing])%list).
Proof.
  intros He Hc ui' angle_text. subst ui'.
  unfold UI.set_servo_angle, UI.check_connection. rewrite Hc. cbn [negb].
  fold angle_text.
  assert (Hparsed : forall p, int angle_text = Some p -> Py.truthy angle_text = true).
  { intros p Hp. destruct angle_text; [rewrite He in Hp; discriminate | reflexivity]. }
  split; [|split].
  - intros p Hp Hr. rewrite (Hparsed p Hp), Hp. cbn [negb].
    replace ((p <? 0) || (180 <? p)) with false by lia.
    destruct (send_command_spec "s" ui Hc) as (Hc1 & _ & _ & Hl1 & Hf1).
    destruct (send_command_spec ("p=" ++ Py.str p) _ Hc1) as (_ & _ & _ & Hl2 & Hf2).
    split.
    + rewrite Hl2, Hl1, <- app_assoc. reflexivity.
    + intros Hn. destruct (Hf1 Hn) as (Hn1 & Hx1 & _).
      destruct (Hf2 Hn1) as (_ & Hx2 & _).
      rewrite Hx2, Hx1, <- app_assoc. reflexivity.
  - intros p Hp Hr. rewrite (Hparsed p Hp), Hp. cbn [negb].
    replace ((p <? 0) || (180 <? p)) with true by lia. repeat split.
  - intros Hn. destruct (Py.truthy angle_text); cbn [negb]; [rewrite Hn|]; repeat split.
Qed.

Lemma servo_angle_checked_before_sending_witness :
  wire_of (UI.set_servo_angle Py.int (panel "620" "0" "90"))
    = List.map Serial.frame ["s"; "p=90"].
Proof.
  destruct (servo_angle_checked_before_sending Py.int (panel "620" "0" "90")
              eq_refl eq_refl) as [Hin _].
  destruct (Hin 90 eq_refl ltac:(lia)) as [_ Hw].
  apply Hw. intros n. reflexivity.
Defined.

(** C9. With an empty speed text the move commands are not rejected: they
    hand the axis letter and the motion line to [write] and no [v=] line in
    between, and no warning is shown. *)
Theorem empty_speed_skips_speed_line
    (int : string -> option Z) (a : Axis) (ui : UI.t) (w : UI.MotorWidget) :
  int "" = None ->
  UI.connected ui = true ->
  UI.motor_widgets ui !! name a = Some w ->
  UI.speed w = "" ->
  let forward := List.map Serial.frame [letter a; motion_line int "m=" "a" (UI.steps w)] in
  let backward := List.map Serial.frame [letter a; motion_line int "n=" "d" (UI.steps w)] in
  calls_of (UI.move_forward int (name a) ui) = (calls_of ui ++ forward)%list /\
  calls_of (UI.move_backward int (name a) ui) = (calls_of ui ++ backward)%list /\
  (faultless ui ->
   wire_of (UI.move_forward int (name a) ui) = (wire_of ui ++ forward)%list /\
   wire_of (UI.move_backward int (name a) ui) = (wire_of ui ++ backward)%list /\
   UI.boxes (UI.move_forward int (name a) ui) = UI.boxes ui /\
   UI.boxes (UI.move_backward int (name a) ui) = UI.boxes ui).
Proof.
  intros He Hc Hw Hs.
  unfold UI.move_forward, UI.move_backward, UI.check_connection.
  rewrite Hc. cbn [negb]. rewrite <- lower_name.
  destruct (send_command_spec (Py.lower (name a)) ui Hc) as (Hc1 & Hw1 & _ & Hl1 & Hf1).
  set (ui1 := snd (UI.send_command (Py.lower (name a)) ui)) in *.
  rewrite Hw1, Hw, Hs. cbn [Py.truthy]. rewrite !(motion_choice int He).
  destruct (send_command_spec (motion_line int "m=" "a" (UI.steps w)) ui1 Hc1)
    as (_ & _ & _ & Hlf & Hff).
  destruct (send_command_spec (motion_line int "n=" "d" (UI.steps w)) ui1 Hc1)
    as (_ & _ & _ & Hlb & Hfb).
  split; [rewrite Hlf, Hl1, <- app_assoc; reflexivity|].
  split; [rewrite Hlb, Hl1, <- app_assoc; reflexivity|].
  intros Hn. destruct (Hf1 Hn) as (Hn1 & Hx1 & Hb1).
  destruct (Hff Hn1) as (_ & Hxf & Hbf). destruct (Hfb Hn1) as (_ & Hxb & Hbb).
  rewrite Hxf, Hxb, Hbf, Hbb, Hx1, Hb1, <- !app_assoc. repeat split.
Qed.

Lemma empty_speed_skips_speed_line_witness :
  wire_of (UI.move_forward Py.int "X" (panel "" "100" "90"))
    = List.map Serial.frame ["x"; "m=100"] /\
  wire_of (UI.move_backward Py.int "X" (panel "" "100" "90"))
    = List.map Serial.frame ["x"; "n=100"] /\
  UI.boxes (UI.move_forward Py.int "X" (panel "" "100" "90")) = [] /\
  UI.boxes (UI.move_backward Py.int "X" (panel "" "100" "90")) = [].
Proof.
  apply (empty_speed_skips_speed_line Py.int X (panel "" "100" "90") (UI.widget "" "100"));
    vm_compute; reflexivity.
Defined.

(** ** The runner thread *)

Section RunnerFacts.

Implicit Types (r : Runner.t) (s : Serial.t) (st : Runner.t * Serial.t).
Implicit Types (sched : list Runner.Action).

Lemma step_keeps r s :
  Runner.running (fst (Runner.step r s)) = Runner.running r /\
  Runner.paused (fst (Runner.step r s)) = Runner.paused r /\
  Runner.gcode_lines (fst (Runner.step r s)) = Runner.gcode_lines r.
Proof.
  destruct r as [ls run pau i pc em]. unfold Runner.step. cbn.
  destruct pc; cbn; try done.
  - destruct (ls !! i); [destruct run|]; done.
  - destruct (pau && run); done.
  - destruct run; done.
  - destruct (ls !! i) as [line|]; [|done].
    destruct (Runner.skipped (Py.strip line)); [done|].
    destruct (Serial.write _ s) as [[e|] s']; done.
Qed.

Lemma exec_app sched1 sched2 st :
  Runner.exec (sched1 ++ sched2) st = Runner.exec sched2 (Runner.exec sched1 st).
Proof. unfold Runner.exec. apply fold_left_app. Qed.

Lemma exec_cons (a : Runner.Action) sched st :
  Runner.exec (a :: sched) st = Runner.exec sched (Runner.act a st).
Proof. reflexivity. Qed.

(** A step of a thread that has not been stopped does not change where the
    run ends up. *)
Lemma step_outcome r s :
  Runner.running r = true -> outcome (Runner.step r s) = outcome (r, s).
Proof.
  destruct r as [ls run pau i pc em]. cbn. intros ->.
  unfold Runner.step, outcome. destruct pc; cbn; try done.
  - destruct (ls !! i) as [line|] eqn:Hl; cbn; [done|].
    apply lookup_ge_None in Hl. rewrite drop_ge by done. done.
  - destruct pau; done.
  - destruct (ls !! i) as [line|] eqn:Hl; cbn.
    + rewrite (drop_S _ _ _ Hl). cbn.
      destruct (Runner.skipped (Py.strip line)); cbn; [done|].
      destruct (Serial.write _ s) as [[e|] s']; cbn; [|done].
      rewrite <- app_assoc. done.
    + apply lookup_ge_None in Hl. rewrite drop_ge by done. done.
Qed.

Lemma exec_outcome sched st :
  Runner.running (fst st) = true ->
  Forall (fun a => a <> Runner.Stop) sched ->
  outcome (Runner.exec sched st) = outcome st /\
  Runner.running (fst (Runner.exec sched st)) = true.
Proof.
  revert st. induction sched as [|a sched IH]; intros [r s] Hr Hs; [done|].
  apply Forall_cons in Hs as [Ha Hs]. rewrite exec_cons.
  assert (Hact : outcome (Runner.act a (r, s)) = outcome (r, s) /\
                 Runner.running (fst (Runner.act a (r, s))) = true).
  { destruct a; cbn [Runner.act fst snd]; try done.
    split; [by apply step_outcome|]. cbn in Hr.
    by rewrite (proj1 (step_keeps r s)). }
  destruct Hact as [Ho Hr'].
  destruct (IH (Runner.act a (r, s)) Hr' Hs) as [IHo IHr].
  split; [by rewrite IHo|done].
Qed.

(** An undisturbed run, once returned, has emitted and written what the
    sequential reading of [run] says. *)
Lemma returned_outcome (lines : list string) s sched :
  Forall (fun a => a <> Runner.Stop) sched ->
  Runner.pc (fst (Runner.exec sched (Runner.init lines, s))) = Runner.Returned ->
  (Runner.emitted (fst (Runner.exec sched (Runner.init lines, s))),
   snd (Runner.exec sched (Runner.init lines, s)))
  = run_rest (length lines) 0 lines s [].
Proof.
  intros Hs Hp.
  destruct (exec_outcome sched (Runner.init lines, s) eq_refl Hs) as [Ho _].
  destruct (Runner.exec sched (Runner.init lines, s)) as [r s'] eqn:He.
  cbn in Hp. unfold outcome in Ho at 1. rewrite Hp in Ho. exact Ho.
Qed.

Lemma step_budget r s :
  free r -> Runner.pc r <> Runner.Returned ->
  (Runner.budget (fst (Runner.step r s)) < Runner.budget r)%nat.
Proof.
  destruct r as [ls run pau i pc em]. unfold free, Runner.step, Runner.budget.
  cbn. intros Hf Hp. destruct pc; cbn; try done; try lia.
  - destruct (ls !! i); [destruct run|]; cbn; lia.
  - destruct pau, run; cbn; try lia; destruct Hf; done.
  - destruct run; cbn; lia.
  - destruct (ls !! i) as [line|] eqn:Hl; cbn; [|lia].
    apply lookup_lt_Some in Hl. unfold Runner.total_lines. cbn.
    destruct (Runner.skipped (Py.strip line)); cbn; [lia|].
    destruct (Serial.write _ s) as [[e|] s']; cbn; lia.
Qed.

Lemma ticks_return (n : nat) r s :
  free r -> (Runner.budget r <= n)%nat ->
  Runner.pc (fst (Runner.exec (repeat Runner.Tick n) (r, s))) = Runner.Returned.
Proof.
  revert r s. induction n as [|n IH]; intros r s Hf Hb.
  - cbn. destruct r as [ls run pau i pc em]. unfold Runner.budget in Hb. cbn in *.
    destruct pc; try lia. done.
  - cbn [repeat]. rewrite exec_cons. cbn [Runner.act fst snd].
    destruct (Runner.step r s) as [r' s'] eqn:Hst.
    assert (Hr' : r' = fst (Runner.step r s)) by (by rewrite Hst).
    apply IH.
    + destruct (step_keeps r s) as (Hrun & Hpau & _). rewrite <- Hr' in *.
      unfold free in *. by rewrite Hrun, Hpau.
    + assert (Hd : Runner.pc r = Runner.Returned \/ Runner.pc r <> Runner.Returned)
        by (destruct (Runner.pc r); (by left) || (by right)).
      destruct Hd as [Hp|Hp].
      * destruct r as [ls run pau i pc em]. cbn in Hp. subst pc.
        unfold Runner.step in Hst. cbn in Hst. inversion Hst. subst.
        unfold Runner.budget in *. cbn in *. lia.
      * pose proof (step_budget r s Hf Hp). rewrite <- Hr' in *. lia.
Qed.

Lemma ticks_no_stop (n : nat) :
  Forall (fun a => a <> Runner.Stop) (repeat Runner.Tick n).
Proof. induction n; cbn; constructor; done. Qed.

(** [wait] does come back for a thread that is not held. *)
Lemma wait_returns r s :
  free r -> Runner.isRunning (fst (Runner.wait (r, s))) = false.
Proof.
  intros Hf. unfold Runner.wait, Runner.isRunning. cbn [fst].
  by rewrite (ticks_return (Runner.budget r) r s Hf).
Qed.

End RunnerFacts.

Section Signals.

Implicit Types (r : Runner.t) (s : Serial.t) (st : Runner.t * Serial.t).

Lemma shape_step r s : shape r -> shape (fst (Runner.step r s)).
Proof.
  destruct r as [ls run pau i pc em]. unfold shape, Runner.step. cbn.
  intros (ps & Hps & H). destruct pc; cbn.
  - exists ps. split; [done|]. destruct (ls !! i); [destruct run|]; cbn; auto.
  - exists ps. split; [done|]. destruct (pau && run); cbn; auto.
  - exists ps. split; [done|]. destruct run; cbn; auto.
  - destruct (ls !! i) as [line|]; cbn; [|exists ps; auto].
    destruct (Runner.skipped (Py.strip line)); cbn.
    { eexists. split; [|reflexivity]. rewrite H, forallb_app, Hps. done. }
    destruct (Serial.write _ s) as [[e|] s']; cbn.
    + exists ps. split; [done|]. right. eexists. by rewrite H.
    + eexists. split; [|reflexivity]. rewrite H, forallb_app, Hps. done.
  - exists ps. split; [done|]. destruct H as [->|[m ->]]; [by left|].
    right. exists m. by rewrite <- app_assoc.
  - exists ps. auto.
Qed.

Lemma shape_exec (sched : list Runner.Action) st :
  shape (fst st) -> shape (fst (Runner.exec sched st)).
Proof.
  revert st. induction sched as [|a sched IH]; intros [r s] H; [done|].
  rewrite exec_cons. apply IH.
  destruct a; cbn [Runner.act fst snd]; [by apply shape_step| | |];
    destruct r as [ls run pau i pc em]; exact H.
Qed.

Lemma shape_init (lines : list string) : shape (Runner.init lines).
Proof. exists []. done. Qed.

Lemma progress_not_finished (ps : list Runner.Signal) :
  forallb is_progress ps = true -> List.filter is_finished ps = [].
Proof.
  induction ps as [|[c t| |m] ps IH]; cbn; done.
Qed.

Lemma progress_not_error (ps : list Runner.Signal) (m : string) :
  forallb is_progress ps = true -> ~ In (Runner.error m) ps.
Proof.
  intros H Hin. rewrite forallb_forall in H. by apply H in Hin.
Qed.

End Signals.

(** C10. Whatever the window does to a started thread (steps, stop, pause,
    resume in any order), [finished] is emitted exactly once, as the last
    signal, when [run] returns, and never before; when an [error] has been
    emitted for a failed write, [finished] follows it at once.  [run] does
    return on each way out: a thread that is not held in the pause loop,
    and so any thread after [stop], returns.  In the window the slot of
    [error] shows the completion box before the error box. *)
Theorem finished_once_on_every_exit
    (lines : list string) (s : Serial.t) (sched : list Runner.Action) :
  let st := Runner.exec sched (Runner.init lines, s) in
  let r := fst st in
  finished_count (Runner.emitted r) = (if Runner.isRunning r then 0 else 1)%nat /\
  (Runner.isRunning r = false -> last (Runner.emitted r) = Some Runner.finished) /\
  (forall m, Runner.isRunning r = false -> In (Runner.error m) (Runner.emitted r) ->
     exists ps, forallb is_progress ps = true /\
       Runner.emitted r = (ps ++ [Runner.error m; Runner.finished])%list) /\
  (free r -> Runner.isRunning (fst (Runner.wait st)) = false) /\
  Runner.isRunning (fst (Runner.wait (Runner.act Runner.Stop st))) = false /\
  (forall msg ui, UI.boxes (UI.on_gcode_error msg ui)
     = (UI.boxes ui ++ [UI.completed; UI.box UI.Critical "G-code Hatası" msg])%list).
Proof.
  intros st r.
  assert (Hsh : shape r) by (apply shape_exec, shape_init).
  destruct Hsh as (ps & Hps & H). unfold finished_count, Runner.isRunning.
  split; [|split; [|split; [|split; [|split]]]].
  - destruct (Runner.pc r).
    1-4: by rewrite H, (progress_not_finished ps Hps).
    + destruct H as [->|[m ->]]; [by rewrite (progress_not_finished ps Hps)|].
      by rewrite List.filter_app, (progress_not_finished ps Hps).
    + destruct H as [->|[m ->]];
        by rewrite List.filter_app, (progress_not_finished ps Hps).
  - destruct (Runner.pc r); try done. intros _.
    destruct H as [->|[m ->]]; [by rewrite last_snoc|].
    change [Runner.error m; Runner.finished]
      with ([Runner.error m] ++ [Runner.finished])%list.
    by rewrite app_assoc, last_snoc.
  - intros m. destruct (Runner.pc r); try done. intros _ Hin.
    destruct H as [H|[m' H]]; rewrite H in Hin |- *;
      apply in_app_or in Hin as [Hin|Hin];
      try (by apply progress_not_error in Hin).
    + destruct Hin as [Hin|[]]. done.
    + exists ps. destruct Hin as [Hin|[Hin|[]]]; [|done]. by inversion Hin.
  - intros Hf. destruct st as [r0 s0]. by apply wait_returns.
  - destruct st as [r0 s0]. apply wait_returns. by right.
  - intros msg ui. unfold UI.on_gcode_error, UI.on_gcode_finished. cbn.
    by rewrite <- app_assoc.
Qed.

Lemma finished_once_on_every_exit_witness :
  let port := Serial.mk true (fun n => if Nat.eqb n 1 then Some "Write timeout" else None) [] [] in
  let r := fst (Runner.exec (repeat Runner.Tick 9) (Runner.init ["G28"; "G1 X10"; "G1 X0"], port)) in
  Runner.isRunning r = false /\
  In (Runner.error "Satır 2 gönderilemedi: Write timeout") (Runner.emitted r) /\
  exists ps, forallb is_progress ps = true /\
    Runner.emitted r
    = (ps ++ [Runner.error "Satır 2 gönderilemedi: Write timeout"; Runner.finished])%list.
Proof.
  intros port r.
  assert (Hr : Runner.isRunning r = false) by (vm_compute; reflexivity).
  assert (Hin : In (Runner.error "Satır 2 gönderilemedi: Write timeout") (Runner.emitted r))
    by (vm_compute; right; left; reflexivity).
  split; [exact Hr|]. split; [exact Hin|].
  exact (proj1 (proj2 (proj2 (finished_once_on_every_exit
            ["G28"; "G1 X10"; "G1 X0"] port (repeat Runner.Tick 9))))
           "Satır 2 gönderilemedi: Write timeout" Hr Hin).
Defined.

Section SequentialRun.

Implicit Types (s : Serial.t) (rest lines : list string) (out : list Runner.Signal).

Lemma progress_run_S (total i n : nat) :
  progress_run total i (S n) = Runner.progress (i + 1) total :: progress_run total (S i) n.
Proof. reflexivity. Qed.

(** The sequential run when the write for the [j]-th remaining line is the
    first to fail: [j] lines go out, [j + 1] calls are made. *)
Lemma run_rest_fails rest : forall total i s out j e,
  forallb sendable rest = true ->
  Serial.is_open s = true ->
  (forall m, (m < j)%nat -> Serial.fault s (length (Serial.calls s) + m) = None) ->
  Serial.fault s (length (Serial.calls s) + j) = Some e ->
  (j < length rest)%nat ->
  run_rest total i rest s out =
    ((out ++ progress_run total i j
          ++ [Runner.error (Runner.send_failure (i + j) e); Runner.finished])%list,
     Serial.mk true (Serial.fault s)
       (Serial.calls s ++ List.map buffer (take (S j) rest))
       (Serial.wire s ++ List.map buffer (take j rest))).
Proof.
  induction rest as [|line rest IH]; intros total i s out j e Hall Ho Hok Hbad Hj;
    [cbn in Hj; lia|].
  cbn in Hall. apply andb_prop in Hall as [Hline Hall].
  unfold sendable in Hline. apply negb_true_iff in Hline.
  cbn [run_rest]. rewrite Hline. unfold Serial.write. rewrite Ho.
  destruct j as [|j].
  - rewrite Nat.add_0_r in Hbad. rewrite Hbad, Nat.add_0_r. cbn.
    by rewrite app_nil_r, take_0.
  - pose proof (Hok 0%nat ltac:(lia)) as H0. rewrite Nat.add_0_r in H0. rewrite H0.
    rewrite (IH total (S i) _ _ j e); cbn [Serial.is_open Serial.fault Serial.calls Serial.wire];
      try done.
    + rewrite progress_run_S. replace (i + S j)%nat with (S i + j)%nat by lia.
      cbn [take List.map]. rewrite <- !app_assoc. done.
    + intros m Hm. rewrite length_app. cbn.
      replace (length (Serial.calls s) + 1 + m)%nat
        with (length (Serial.calls s) + S m)%nat by lia.
      apply Hok. lia.
    + rewrite length_app. cbn.
      replace (length (Serial.calls s) + 1 + j)%nat
        with (length (Serial.calls s) + S j)%nat by lia.
      done.
    + cbn in Hj. lia.
Qed.

(** The sequential run on a port that does not fail: one [progress] per
    line, one buffer per line that is not skipped. *)
Lemma run_rest_completes rest : forall total i s out,
  Serial.is_open s = true ->
  (forall n, Serial.fault s n = None) ->
  run_rest total i rest s out =
    ((out ++ progress_run total i (length rest) ++ [Runner.finished])%list,
     Serial.mk true (Serial.fault s)
       (Serial.calls s ++ List.map buffer (List.filter sendable rest))
       (Serial.wire s ++ List.map buffer (List.filter sendable rest))).
Proof.
  induction rest as [|line rest IH]; intros total i s out Ho Hn.
  - cbn. rewrite !app_nil_r. destruct s; cbn in *. by subst.
  - cbn [run_rest List.filter length].
    assert (Hs : sendable line = negb (Runner.skipped (Py.strip line))) by done.
    rewrite Hs. destruct (Runner.skipped (Py.strip line)); cbn [negb].
    + rewrite IH by done. rewrite progress_run_S, <- !app_assoc. done.
    + unfold Serial.write. rewrite Ho, Hn.
      rewrite IH by done.
      cbn [Serial.is_open Serial.fault Serial.calls Serial.wire List.map].
      rewrite progress_run_S, <- !app_assoc. done.
Qed.

End SequentialRun.

(** C6. A program whose lines are all sent, on an open port whose write
    fails for line [k] with the text [e] and not before, run with any pauses
    and resumes but no stop: once [run] has returned, [write] has been called
    exactly [k] times, for the first [k] lines, the first [k - 1] of them went
    out, and the signals are the [progress] of lines 1 to [k - 1], the [error]
    naming line [k] and [e], then [finished].  And [run] does return, with
    this result, when the thread is not held in the pause loop. *)
Theorem send_failure_ends_run
    (lines : list string) (s : Serial.t) (sched : list Runner.Action) (k : nat) (e : string) :
  forallb sendable lines = true ->
  Serial.is_open s = true ->
  (1 <= k <= length lines)%nat ->
  (forall m, (m < k - 1)%nat -> Serial.fault s (length (Serial.calls s) + m) = None) ->
  Serial.fault s (length (Serial.calls s) + (k - 1)) = Some e ->
  Forall (fun a => a <> Runner.Stop) sched ->
  let failed_at_k (st : Runner.t * Serial.t) :=
    Serial.calls (snd st) = (Serial.calls s ++ List.map buffer (take k lines))%list /\
    length (Serial.calls (snd st)) = (length (Serial.calls s) + k)%nat /\
    Serial.wire (snd st) = (Serial.wire s ++ List.map buffer (take (k - 1) lines))%list /\
    Runner.emitted (fst st) =
      (progress_run (length lines) 0 (k - 1)
         ++ [Runner.error ("Satır " ++ Py.str (Z.of_nat k) ++ " gönderilemedi: " ++ e);
             Runner.finished])%list in
  let st := Runner.exec sched (Runner.init lines, s) in
  (Runner.isRunning (fst st) = false -> failed_at_k st) /\
  (free (fst st) ->
   Runner.isRunning (fst (Runner.wait st)) = false /\ failed_at_k (Runner.wait st)).
Proof.
  intros Hall Ho Hk Hok Hbad Hs failed_at_k st.
  assert (Hres : forall sched', Forall (fun a => a <> Runner.Stop) sched' ->
            Runner.isRunning (fst (Runner.exec sched' (Runner.init lines, s))) = false ->
            failed_at_k (Runner.exec sched' (Runner.init lines, s))).
  { intros sched' Hs' Hret.
    assert (Hp : Runner.pc (fst (Runner.exec sched' (Runner.init lines, s))) = Runner.Returned)
      by (unfold Runner.isRunning in Hret; destruct (Runner.pc _); done).
    pose proof (returned_outcome lines s sched' Hs' Hp) as Hout.
    rewrite (run_rest_fails lines (length lines) 0 s [] (k - 1) e) in Hout
      by (try done; lia).
    apply pair_equal_spec in Hout as [Hem Hst]. unfold failed_at_k. rewrite Hem, Hst.
    cbn [Serial.calls Serial.wire app]. unfold Runner.send_failure.
    replace (S (k - 1)) with k by lia. replace (0 + (k - 1) + 1)%nat with k by lia.
    split; [done|]. split; [|done].
    rewrite length_app, length_map, length_take. lia. }
  split; [by apply Hres|].
  intros Hf.
  assert (Hret : Runner.isRunning (fst (Runner.wait st)) = false)
    by (destruct st as [r0 s0]; by apply wait_returns).
  split; [done|]. revert Hret. unfold Runner.wait. subst st. rewrite <- exec_app.
  apply Hres, Forall_app. split; [done | apply ticks_no_stop].
Qed.

Lemma send_failure_ends_run_witness :
  let port := Serial.mk true (fun n => if Nat.eqb n 1 then Some "Write timeout" else None) [] [] in
  let st := Runner.exec (repeat Runner.Tick 9) (Runner.init ["G28"; "G1 X10"; "G1 X0"], port) in
  Serial.calls (snd st) = List.map Serial.frame ["G28"; "G1 X10"] /\
  length (Serial.calls (snd st)) = 2%nat /\
  Serial.wire (snd st) = List.map Serial.frame ["G28"] /\
  Runner.emitted (fst st) =
    [Runner.progress 1 3; Runner.error "Satır 2 gönderilemedi: Write timeout";
     Runner.finished].
Proof.
  intros port st.
  refine (proj1 (send_failure_ends_run ["G28"; "G1 X10"; "G1 X0"] port
                   (repeat Runner.Tick 9) 2 "Write timeout" _ _ _ _ _ _) _);
    try (vm_compute; reflexivity).
  - vm_compute. lia.
  - intros m Hm. assert (m = 0%nat) as -> by (cbn in Hm; lia). reflexivity.
  - repeat constructor; discriminate.
Defined.

(** ** Lines of the editor *)

Section Lines.

Implicit Types (s r t u w b l : string).

Lemma length_ind (P : string -> Prop) :
  (forall s, (forall r, (String.length r < String.length s)%nat -> P r) -> P s) ->
  forall s, P s.
Proof.
  intros H s. remember (String.length s) as n eqn:Hn. revert s Hn.
  induction n as [n IH] using lt_wf_ind. intros s ->. apply H.
  intros r Hr. by apply (IH _ Hr).
Qed.

Lemma append_cons (c : ascii) s t : String c s ++ t = String c (s ++ t).
Proof. reflexivity. Qed.

Lemma append_assoc s t u : (s ++ t) ++ u = s ++ (t ++ u).
Proof. induction s as [|c s IH]; [done|]. by rewrite !append_cons, IH. Qed.

Lemma append_nil s : s ++ "" = s.
Proof. induction s as [|c s IH]; [done|]. by rewrite append_cons, IH. Qed.

Lemma length_append s t :
  String.length (s ++ t) = (String.length s + String.length t)%nat.
Proof. induction s as [|c s IH]; [done|]. rewrite append_cons. cbn. by rewrite IH. Qed.

(** A text that starts with a blank is that blank, one character, and the
    rest. *)
Lemma after_space_cut s r :
  Py.after_space s = Some r ->
  exists b, s = b ++ r /\ b <> "" /\ Py.one_space b = true /\
    forall t, Py.after_space (b ++ t) = Some t.
Proof.
  destruct s as [|c [|d [|e s3]]]; cbn; [done|..].
  - destruct (Py.space1 c) eqn:H1; [|done]. intros [= <-].
    exists (String c ""). unfold Py.one_space. cbv [append]. cbn. rewrite H1. done.
  - destruct (Py.space1 c) eqn:H1.
    + intros [= <-]. exists (String c ""). unfold Py.one_space. cbv [append]. cbn.
      rewrite H1. done.
    + destruct (Py.space2 c d) eqn:H2; [|done]. intros [= <-].
      exists (String c (String d "")). unfold Py.one_space. cbv [append]. cbn.
      rewrite H1, H2. done.
  - destruct (Py.space1 c) eqn:H1.
    + intros [= <-]. exists (String c ""). unfold Py.one_space. cbv [append]. cbn.
      rewrite H1. done.
    + destruct (Py.space2 c d) eqn:H2.
      * intros [= <-]. exists (String c (String d "")). unfold Py.one_space.
        cbv [append]. cbn. rewrite H1, H2. done.
      * destruct (Py.space3 c d e) eqn:H3; [|done]. intros [= <-].
        exists (String c (String d (String e ""))). unfold Py.one_space.
        cbv [append]. cbn. rewrite H1, H2, H3. done.
Qed.

Lemma after_space_shorter s r :
  Py.after_space s = Some r -> (String.length r < String.length s)%nat.
Proof.
  intros (b & -> & Hb & _)%after_space_cut. rewrite length_append.
  destruct b; [done|]. cbn. lia.
Qed.

Lemma after_space_app s r t :
  Py.after_space s = Some r -> Py.after_space (s ++ t) = Some (r ++ t).
Proof.
  intros (b & -> & _ & _ & Hb)%after_space_cut. by rewrite append_assoc.
Qed.

Lemma after_space_prefix s t : Py.after_space (s ++ t) = None -> Py.after_space s = None.
Proof.
  intros H. destruct (Py.after_space s) as [r|] eqn:Hs; [|done].
  by rewrite (after_space_app _ _ t Hs) in H.
Qed.

Lemma lstrip_eq s :
  Py.lstrip s = match Py.after_space s with Some r => Py.lstrip r | None => s end.
Proof.
  destruct s as [|c [|d [|e s3]]]; cbn; [done|..];
    destruct (Py.space1 c); try done;
    destruct (Py.space2 c d); try done;
    by destruct (Py.space3 c d e).
Qed.

Lemma all_space_step s r : Py.after_space s = Some r -> all_space s = all_space r.
Proof.
  destruct s as [|c [|d [|e s3]]]; cbn; [done|..];
    destruct (Py.space1 c); try (by intros [= <-]);
    destruct (Py.space2 c d); try (by intros [= <-]);
    destruct (Py.space3 c d e); by intros [= <-].
Qed.

Lemma all_space_none s : Py.after_space s = None -> s <> "" -> all_space s = false.
Proof.
  destruct s as [|c [|d [|e s3]]]; cbn; [done|..];
    destruct (Py.space1 c); try done;
    destruct (Py.space2 c d); try done;
    by destruct (Py.space3 c d e).
Qed.

Lemma lstrip_empty s : Py.lstrip s = "" <-> all_space s = true.
Proof.
  induction s as [s IH] using length_ind. rewrite lstrip_eq.
  destruct (Py.after_space s) as [r|] eqn:Hs.
  - rewrite (all_space_step _ _ Hs). apply IH. by apply after_space_shorter.
  - destruct s; [done|]. by rewrite (all_space_none _ Hs).
Qed.

(** What [lstrip] leaves does not start with a blank, and is the end of the
    text. *)
Lemma lstrip_head s : Py.after_space (Py.lstrip s) = None.
Proof.
  induction s as [s IH] using length_ind. rewrite lstrip_eq.
  destruct (Py.after_space s) as [r|] eqn:Hs; [|done].
  apply IH. by apply after_space_shorter.
Qed.

Lemma lstrip_suffix s : exists w, s = w ++ Py.lstrip s.
Proof.
  induction s as [s IH] using length_ind. rewrite lstrip_eq.
  destruct (Py.after_space s) as [r|] eqn:Hs; [|by exists ""].
  destruct (IH r (after_space_shorter _ _ Hs)) as [w Hw].
  destruct (after_space_cut _ _ Hs) as (b & -> & _).
  exists (b ++ w). by rewrite append_assoc, <- Hw.
Qed.

(** What [rstrip] leaves is the start of the text. *)
Lemma rstrip_prefix s : exists w, s = Py.rstrip s ++ w.
Proof.
  induction s as [|c s [w IH]]; [by exists ""|]. cbn [Py.rstrip].
  destruct (Py.one_space _); [by eexists|].
  exists w. by rewrite append_cons, <- IH.
Qed.

Lemma rstrip_head s :
  Py.after_space s = None ->
  Py.after_space (Py.rstrip s) = None /\ (Py.rstrip s = "" -> s = "").
Proof.
  intros Hs. destruct (rstrip_prefix s) as [w Hw]. split.
  - apply (after_space_prefix _ w). by rewrite <- Hw.
  - destruct s as [|c s]; [done|]. cbn [Py.rstrip].
    destruct (rstrip_prefix s) as [w' Hw'].
    destruct (Py.one_space (String c (Py.rstrip s))) eqn:Hb; [|done].
    assert (Hn : Py.after_space (String c (Py.rstrip s)) = None).
    { apply (after_space_prefix _ w'). by rewrite append_cons, <- Hw'. }
    unfold Py.one_space in Hb. by rewrite Hn in Hb.
Qed.

Lemma rstrip_idem s : Py.rstrip (Py.rstrip s) = Py.rstrip s.
Proof.
  induction s as [|c s IH]; [done|]. cbn [Py.rstrip].
  destruct (Py.one_space (String c (Py.rstrip s))) eqn:Hb; [done|].
  cbn [Py.rstrip]. by rewrite IH, Hb.
Qed.

Lemma strip_empty s : Py.strip s = "" <-> all_space s = true.
Proof.
  rewrite <- lstrip_empty. unfold Py.strip. split.
  - intros H. by apply (rstrip_head _ (lstrip_head s)).
  - by intros ->.
Qed.

Lemma strip_idem s : Py.strip (Py.strip s) = Py.strip s.
Proof.
  unfold Py.strip.
  destruct (rstrip_head _ (lstrip_head s)) as [Hh _].
  rewrite (lstrip_eq (Py.rstrip _)), Hh. apply rstrip_idem.
Qed.

Lemma truthy_strip s : Py.truthy (Py.strip s) = negb (all_space s).
Proof.
  destruct (all_space s) eqn:Hs.
  - apply strip_empty in Hs. by rewrite Hs.
  - destruct (Py.strip s) eqn:Hst; [|done].
    apply strip_empty in Hst. congruence.
Qed.

(** No byte of a blank of two or three bytes is a line feed. *)
Lemma space2_high (c d : ascii) :
  Py.space2 c d = true -> (128 <= nat_of_ascii d)%nat.
Proof.
  unfold Py.space2. cbv zeta.
  rewrite andb_true_iff, orb_true_iff, !Nat.eqb_eq. lia.
Qed.

Lemma space3_high (c d e : ascii) :
  Py.space3 c d e = true -> (128 <= nat_of_ascii d)%nat /\ (128 <= nat_of_ascii e)%nat.
Proof.
  unfold Py.space3. cbv zeta.
  rewrite !orb_true_iff, !andb_true_iff, !orb_true_iff, !andb_true_iff,
    !Nat.eqb_eq, !Nat.leb_le. lia.
Qed.

Lemma contains_nl_app s t : contains_nl (s ++ t) = contains_nl s || contains_nl t.
Proof.
  induction s as [|c s IH]; [done|]. rewrite append_cons. cbn.
  by rewrite IH, orb_assoc.
Qed.

Lemma split_nl_cons s : exists l ls, Py.split_nl s = l :: ls.
Proof.
  induction s as [|c s (l & ls & IH)]; cbn; [by eexists _, _|].
  destruct (Ascii.eqb c "010"); [by eexists _, _|]. rewrite IH. by eexists _, _.
Qed.

(** A text is its first line, or its first line, a line feed and the text
    that gives the other lines. *)
Lemma split_nl_first s :
  (contains_nl s = false /\ Py.split_nl s = [s]) \/
  exists l rest, s = l ++ String "010" rest /\ contains_nl l = false /\
    Py.split_nl s = l :: Py.split_nl rest.
Proof.
  induction s as [|c s IH]; [by left|]. cbn.
  destruct (Ascii.eqb c "010") eqn:Hc.
  - apply Ascii.eqb_eq in Hc as ->. right. by exists "", s.
  - cbn. destruct IH as [[Hn ->]|(l & rest & -> & Hl & ->)]; [by left|].
    right. exists (String c l), rest. cbn. by rewrite Hc, Hl.
Qed.

(** Blanks do not reach across a line feed. *)
Lemma all_space_line l rest :
  contains_nl l = false ->
  all_space (l ++ String "010" rest) = all_space l && all_space rest.
Proof.
  induction l as [l IH] using length_ind. intros Hl.
  destruct (Py.after_space l) as [r|] eqn:Hr.
  - pose proof (after_space_shorter _ _ Hr) as Hlen.
    rewrite (all_space_step _ _ Hr).
    rewrite (all_space_step _ _ (after_space_app _ _ (String "010" rest) Hr)).
    apply IH; [done|].
    destruct (after_space_cut _ _ Hr) as (b & -> & _).
    rewrite contains_nl_app in Hl. by apply orb_false_elim in Hl as [_ Hl].
  - destruct l as [|c l]; [done|].
    rewrite (all_space_none _ Hr) by done. cbn [andb].
    apply all_space_none; [|done].
    destruct l as [|d [|e l3]]; cbv [append]; cbn in Hr |- *.
    + destruct (Py.space1 c); [done|].
      destruct (Py.space2 c "010") eqn:H2;
        [apply space2_high in H2; vm_compute in H2; lia|].
      destruct rest as [|e rest]; [done|].
      destruct (Py.space3 c "010" e) eqn:H3; [|done].
      apply space3_high in H3. vm_compute in H3. lia.
    + destruct (Py.space1 c); [done|]. destruct (Py.space2 c d); [done|].
      destruct (Py.space3 c d "010") eqn:H3; [|done].
      apply space3_high in H3. vm_compute in H3. lia.
    + destruct (Py.space1 c); [done|]. destruct (Py.space2 c d); [done|].
      by destruct (Py.space3 c d e).
Qed.

Lemma all_space_split s : forallb all_space (Py.split_nl s) = all_space s.
Proof.
  induction s as [s IH] using length_ind.
  destruct (split_nl_first s) as [[_ ->]|(l & rest & -> & Hl & ->)].
  - cbn. apply andb_true_r.
  - cbn [forallb]. rewrite (all_space_line _ _ Hl). f_equal. apply IH.
    rewrite length_append. cbn. lia.
Qed.

Lemma lstrip_no_nl s : contains_nl s = false -> contains_nl (Py.lstrip s) = false.
Proof.
  destruct (lstrip_suffix s) as [w Hw]. intros H. rewrite Hw, contains_nl_app in H.
  by apply orb_false_elim in H as [_ H].
Qed.

Lemma rstrip_no_nl s : contains_nl s = false -> contains_nl (Py.rstrip s) = false.
Proof.
  destruct (rstrip_prefix s) as [w Hw]. intros H. rewrite Hw, contains_nl_app in H.
  by apply orb_false_elim in H as [H _].
Qed.

(** The second guard of [run_gcode] never fires: a text that is not blank
    has a line that is not blank. *)
Lemma stripped_lines_nonempty (content : string) :
  Py.strip content <> "" -> UI.stripped_lines content <> [].
Proof.
  intros Hc Hl. apply Hc, strip_empty. rewrite <- all_space_split.
  unfold UI.stripped_lines in Hl. apply map_eq_nil in Hl.
  induction (Py.split_nl content) as [|l ls IH]; [done|].
  cbn in Hl |- *. rewrite truthy_strip in Hl.
  destruct (all_space l); cbn in *; [by apply IH | done].
Qed.

Lemma stripped_lines_not_blank (content : string) :
  Forall (fun l => l <> "") (UI.stripped_lines content).
Proof.
  unfold UI.stripped_lines. induction (Py.split_nl content) as [|l ls IH]; cbn; [done|].
  destruct (Py.truthy (Py.strip l)) eqn:Hl; cbn; [|done].
  constructor; [|done]. intros He. by rewrite He in Hl.
Qed.

End Lines.

(** The blanks outside ASCII go like the others, at both ends and not in the
    middle; the zero width space U+200B is no blank. *)
Example strip_takes_blanks_of_every_width :
  let next_line := String "194" (String "133" "") in
  let no_break_space := String "194" (String "160" "") in
  let ogham_space := String "225" (String "154" (String "128" "")) in
  let em_space := String "226" (String "128" (String "131" "")) in
  let line_separator := String "226" (String "128" (String "168" "")) in
  let paragraph_separator := String "226" (String "128" (String "169" "")) in
  let narrow_space := String "226" (String "128" (String "175" "")) in
  let math_space := String "226" (String "129" (String "159" "")) in
  let ideographic_space := String "227" (String "128" (String "128" "")) in
  let zero_width_space := String "226" (String "128" (String "139" "")) in
  Py.strip (next_line ++ no_break_space ++ ogham_space ++ " G1" ++ no_break_space ++ "X10"
            ++ em_space ++ line_separator ++ paragraph_separator ++ narrow_space
            ++ math_space ++ ideographic_space ++ String "009" "")
    = "G1" ++ no_break_space ++ "X10" /\
  Py.strip (ideographic_space ++ no_break_space ++ line_separator) = "" /\
  Py.strip (zero_width_space ++ " ") = zero_width_space /\
  UI.stripped_lines ("G28" ++ String "010" (ideographic_space ++ String "010" "G1 X10"))
    = ["G28"; "G1 X10"].
Proof. vm_compute. repeat split. Qed.

(** C4, as the code has it.  Blank lines typed into the editor are not
    counted: [run_gcode] filters the text with the expression that file
    loading uses, so the thread gets exactly the typed lines that are not
    made of blanks only, trimmed, none of them empty; the total of the run
    is their number, and an undisturbed run emits one [progress] for each of
    them and none for a blank line, and writes nothing for a blank line.  A
    blank is any character that [strip] removes, among them the no-break and
    the ideographic space. *)
Theorem typed_blank_lines_are_dropped (ui : UI.t) (s : Serial.t) :
  UI.serial_connection ui = Some s ->
  Serial.is_open s = true ->
  (forall n, Serial.fault s n = None) ->
  Py.strip (UI.gcode_editor ui) <> "" ->
  (forall r, UI.gcode_runner ui = Some r -> Runner.isRunning r = false) ->
  let typed := Py.split_nl (UI.gcode_editor ui) in
  let lines := UI.stripped_lines (UI.gcode_editor ui) in
  let n := length lines in
  (forall shown, UI.gcode_lines (UI.load_gcode_file (UI.gcode_editor ui) shown ui) = lines) /\
  UI.gcode_runner (UI.run_gcode ui) = Some (Runner.init lines) /\
  lines = List.map Py.strip (List.filter (fun l => negb (all_space l)) typed) /\
  n = length (List.filter (fun l => Py.truthy (Py.strip l)) typed) /\
  Forall (fun l => l <> "") lines /\
  let st := Runner.wait (Runner.init lines, s) in
  Runner.isRunning (fst st) = false /\
  Runner.emitted (fst st) = (progress_run n 0 n ++ [Runner.finished])%list /\
  Serial.wire (snd st)
    = (Serial.wire s ++ List.map buffer (List.filter sendable lines))%list.
Proof.
  intros Hs Ho Hn Hc Hr typed lines n.
  split; [done|]. split; [|split; [|split; [|split]]].
  - unfold UI.run_gcode, UI.check_connection, UI.connected. rewrite Hs, Ho. cbn [negb].
    destruct (Py.truthy (Py.strip (UI.gcode_editor ui))) eqn:Ht;
      [|by destruct (Py.strip (UI.gcode_editor ui))].
    cbn [negb]. cbn. fold lines.
    pose proof (stripped_lines_nonempty _ Hc) as Hl. fold lines in Hl.
    destruct lines as [|l ls] eqn:Hlines; [done|].
    unfold UI.gcode_runner in *. cbn.
    destruct (head (UI.threads ui)) as [r|] eqn:Hh; [|done].
    by rewrite (Hr r eq_refl).
  - subst lines typed. unfold UI.stripped_lines. f_equal.
    apply filter_ext. intros l. apply truthy_strip.
  - subst n lines. unfold UI.stripped_lines. by rewrite length_map.
  - apply stripped_lines_not_blank.
  - intros st.
    assert (Hret : Runner.isRunning (fst st) = false) by (apply wait_returns; by left).
    split; [done|].
    assert (Hp : Runner.pc (fst st) = Runner.Returned)
      by (unfold Runner.isRunning in Hret; destruct (Runner.pc (fst st)); done).
    pose proof (returned_outcome lines s _ (ticks_no_stop _) Hp) as Hout.
    rewrite (run_rest_completes lines (length lines) 0 s [] Ho Hn) in Hout.
    apply pair_equal_spec in Hout as [Hem Hport]. subst st. unfold Runner.wait.
    by rewrite Hem, Hport.
Qed.

Lemma typed_blank_lines_are_dropped_witness :
  let ideographic_space := String "227" (String "128" (String "128" "")) in
  let no_break_space := String "194" (String "160" "") in
  let content := "G28" ++ String "010" (String "010"
                   (ideographic_space ++ no_break_space ++ String "010" "G1 X10")) in
  let port := Serial.mk true (fun _ => None) [] [] in
  let st := Runner.wait (Runner.init (UI.stripped_lines content), port) in
  UI.stripped_lines content = ["G28"; "G1 X10"] /\
  Runner.isRunning (fst st) = false /\
  Runner.emitted (fst st) = [Runner.progress 1 2; Runner.progress 2 2; Runner.finished] /\
  Serial.wire (snd st) = ["G28" ++ String "010" ""; "G1 X10" ++ String "010" ""].
Proof.
  intros ideographic_space no_break_space content port st.
  split; [vm_compute; reflexivity|].
  exact (proj2 (proj2 (proj2 (proj2 (proj2
    (typed_blank_lines_are_dropped (UI.with_editor content (panel "620" "0" "90")) port
       eq_refl eq_refl (fun _ => eq_refl) ltac:(vm_compute; discriminate)
       ltac:(intros r; vm_compute; discriminate))))))).
Defined.

(** C4 as stated fails: three lines are typed, the second one blank; the
    thread that [run_gcode] starts holds two lines, and the run reports a
    total of 2 with two [progress] signals, none for the blank line. *)
Lemma typed_blank_line_not_counted :
  let content := "G28" ++ String "010" (String "010" "G1 X10") in
  let ui := UI.ops Py.int (UI.Edit content :: UI.Run :: repeat (UI.Step 0) 12) (panel "620" "0" "90") in
  Py.split_nl content = ["G28"; ""; "G1 X10"] /\
  (Runner.gcode_lines <$> UI.gcode_runner ui) = Some ["G28"; "G1 X10"] /\
  (Runner.emitted <$> UI.gcode_runner ui)
    = Some [Runner.progress 1 2; Runner.progress 2 2; Runner.finished] /\
  wire_of ui = List.map Serial.frame ["G28"; "G1 X10"].
Proof. vm_compute. repeat split. Qed.

(** ** Stopping a run *)

Section Stopping.

Implicit Types (r : Runner.t) (s : Serial.t) (st : Runner.t * Serial.t).
Implicit Types (sched : list Runner.Action).

Lemma act_keeps (a : Runner.Action) st :
  Runner.gcode_lines (fst (Runner.act a st)) = Runner.gcode_lines (fst st) /\
  (Runner.running (fst st) = false -> Runner.running (fst (Runner.act a st)) = false).
Proof.
  destruct st as [r s]. destruct a; cbn [Runner.act fst snd]; try done.
  destruct (step_keeps r s) as (Hrun & _ & Hl). rewrite Hl, Hrun. done.
Qed.

Lemma exec_keeps sched st :
  Runner.gcode_lines (fst (Runner.exec sched st)) = Runner.gcode_lines (fst st) /\
  (Runner.running (fst st) = false -> Runner.running (fst (Runner.exec sched st)) = false).
Proof.
  revert st. induction sched as [|a sched IH]; intros st; [done|].
  rewrite exec_cons. destruct (IH (Runner.act a st)) as [Hl Hr].
  destruct (act_keeps a st) as [Hl' Hr']. rewrite Hl, Hl'. auto.
Qed.

Lemma quiet_act (a : Runner.Action) r s :
  quiet r -> quiet (fst (Runner.act a (r, s))) /\ snd (Runner.act a (r, s)) = s.
Proof.
  destruct r as [ls run pau i pc em]. unfold quiet. cbn. intros [-> Hp].
  destruct a; cbn; try done.
  unfold Runner.step. cbn. destruct pc; cbn; try done.
  - destruct (ls !! i); done.
  - rewrite andb_false_r. done.
Qed.

Lemma quiet_exec sched r s : quiet r -> snd (Runner.exec sched (r, s)) = s.
Proof.
  revert r s. induction sched as [|a sched IH]; intros r s Hq; [done|].
  rewrite exec_cons. destruct (quiet_act a r s Hq) as [Hq' Hs].
  destruct (Runner.act a (r, s)) as [r' s']. cbn in Hq', Hs. subst s'.
  by apply IH.
Qed.

(** A thread stopped when it has passed the last check of an iteration makes
    at most the one write of that iteration. *)
Lemma stopped_in_body sched : forall r s,
  Runner.running r = false -> Runner.pc r = Runner.Body ->
  Serial.calls (snd (Runner.exec sched (r, s))) = Serial.calls s \/
  exists line, Runner.gcode_lines r !! Runner.i r = Some line /\
    Serial.calls (snd (Runner.exec sched (r, s))) = (Serial.calls s ++ [buffer line])%list.
Proof.
  induction sched as [|a sched IH]; intros r s Hr Hp; [by left|].
  rewrite exec_cons.
  destruct a; cbn [Runner.act fst snd];
    try (destruct r as [ls run pau i pc em]; cbn in *; by apply IH).
  destruct r as [ls run pau i pc em]. cbn in *. subst run pc.
  unfold Runner.step. cbn.
  destruct (ls !! i) as [line|] eqn:Hl.
  - destruct (Runner.skipped (Py.strip line)).
    + left. by rewrite quiet_exec.
    + right. exists line. split; [done|].
      unfold Serial.write.
      destruct (Serial.is_open s); [destruct (Serial.fault s _)|];
        by rewrite quiet_exec.
  - left. by rewrite quiet_exec.
Qed.

Lemma returned_last_finished r :
  shape r -> Runner.isRunning r = false -> last (Runner.emitted r) = Some Runner.finished.
Proof.
  intros (ps & _ & H). unfold Runner.isRunning. destruct (Runner.pc r); try done.
  intros _. destruct H as [->|[m ->]]; [by rewrite last_snoc|].
  change [Runner.error m; Runner.finished]
    with ([Runner.error m] ++ [Runner.finished])%list.
  by rewrite app_assoc, last_snoc.
Qed.

Lemma on_thread_boxes f (n : nat) (ui : UI.t) :
  UI.boxes (UI.on_thread f n ui) = UI.boxes ui.
Proof.
  unfold UI.on_thread. destruct (UI.threads ui !! n) as [r|]; [|done].
  destruct (UI.serial_connection ui) as [s|]; [|done].
  by destruct (f (r, s)).
Qed.

End Stopping.

(** C5, as the code has it.  When [stop] is requested at any point of a run,
    the only write that can still follow is the one for the line whose
    iteration has already passed its last check: no later line is handed to
    [write].  The thread then returns, and its last signal is [finished],
    the signal of a completed run: the thread has no signal of its own for a
    stop.  In the window, [stop_gcode] shows the completion box and after
    it the box that says the run was stopped. *)
Theorem stop_lets_only_inflight_line_out
    (lines : list string) (s : Serial.t) (before after : list Runner.Action) :
  let st1 := Runner.exec before (Runner.init lines, s) in
  let st2 := Runner.exec after (Runner.act Runner.Stop st1) in
  (Serial.calls (snd st2) = Serial.calls (snd st1) \/
   (Runner.pc (fst st1) = Runner.Body /\
    exists line, lines !! Runner.i (fst st1) = Some line /\
      Serial.calls (snd st2) = (Serial.calls (snd st1) ++ [buffer line])%list)) /\
  (Runner.isRunning (fst st2) = false ->
   last (Runner.emitted (fst st2)) = Some Runner.finished) /\
  (Runner.isRunning (fst (Runner.wait st2)) = false /\
   last (Runner.emitted (fst (Runner.wait st2))) = Some Runner.finished) /\
  (forall ui r, UI.gcode_runner ui = Some r -> Runner.isRunning r = true ->
     UI.boxes (UI.stop_gcode ui) = (UI.boxes ui ++ [UI.completed; UI.stopped])%list).
Proof.
  intros st1 st2.
  assert (Hsh1 : shape (fst st1)) by (apply shape_exec, shape_init).
  assert (Hsh2 : shape (fst st2)).
  { subst st2. apply shape_exec. destruct st1 as [[ls run pau i pc em] s1]. exact Hsh1. }
  split; [|split; [|split]].
  - assert (Hl : Runner.gcode_lines (fst st1) = lines)
      by (subst st1; by rewrite (proj1 (exec_keeps _ _))).
    subst st2. destruct st1 as [r1 s1]. cbn [Runner.act fst snd] in *.
    assert (Hd : Runner.pc r1 = Runner.Body \/ Runner.pc r1 <> Runner.Body)
      by (destruct (Runner.pc r1); (by left) || (by right)).
    destruct Hd as [Hp|Hp].
    + destruct (stopped_in_body after (Runner.stop r1) s1 eq_refl Hp) as [H|(line & Hi & H)];
        [by left|].
      right. split; [done|]. exists line. cbn in Hi. rewrite Hl in Hi. done.
    + left. by rewrite quiet_exec.
  - by apply returned_last_finished.
  - assert (Hret : Runner.isRunning (fst (Runner.wait st2)) = false).
    { destruct st2 as [r2 s2] eqn:He. apply wait_returns. right.
      replace r2 with (fst st2) by (by rewrite He). subst st2.
      apply exec_keeps. by destruct st1. }
    split; [done|]. apply returned_last_finished; [|done].
    unfold Runner.wait. by apply shape_exec.
  - intros ui r Hg Hr. unfold UI.stop_gcode. rewrite Hg, Hr.
    unfold UI.on_gcode_finished. cbn. rewrite on_thread_boxes, <- app_assoc. done.
Qed.

Lemma stop_lets_only_inflight_line_out_witness :
  let ui := UI.ops Py.int [UI.Edit ("G28" ++ String "010" "G1 X10"); UI.Run;
                    UI.Step 0; UI.Step 0; UI.Step 0; UI.Step 0] (panel "620" "0" "90") in
  UI.boxes (UI.stop_gcode ui) = (UI.boxes ui ++ [UI.completed; UI.stopped])%list.
Proof.
  intros ui.
  refine (proj2 (proj2 (proj2 (stop_lets_only_inflight_line_out [] (Serial.mk true (fun _ => None) [] []) [] [])))
            ui (Runner.mk ["G28"; "G1 X10"] true false 1 Runner.LoopHead [Runner.progress 1 2]) _ _);
    vm_compute; reflexivity.
Defined.

(** C5 as stated fails in its second half: a run of two lines is stopped
    after the first; it ends with [finished], the last signal of the run
    that is left to complete, and the window shows the completion box. *)
Lemma stopped_run_ends_with_finished :
  let port := Serial.mk true (fun _ => None) [] [] in
  let program := ["G28"; "G1 X10"] in
  let halted := Runner.exec (repeat Runner.Tick 4 ++ Runner.Stop :: repeat Runner.Tick 2)
                  (Runner.init program, port) in
  let complete := Runner.exec (repeat Runner.Tick 10) (Runner.init program, port) in
  Serial.wire (snd halted) = [Serial.frame "G28"] /\
  Runner.emitted (fst halted) = [Runner.progress 1 2; Runner.finished] /\
  Runner.emitted (fst complete)
    = [Runner.progress 1 2; Runner.progress 2 2; Runner.finished] /\
  last (Runner.emitted (fst halted)) = last (Runner.emitted (fst complete)) /\
  UI.boxes (UI.dispatch Runner.finished (panel "620" "0" "90")) = [UI.completed] /\
  UI.boxes (UI.ops Py.int [UI.Edit ("G28" ++ String "010" "G1 X10"); UI.Run;
                    UI.Step 0; UI.Step 0; UI.Step 0; UI.Step 0; UI.StopRun]
                   (panel "620" "0" "90"))
    = [UI.completed; UI.stopped].
Proof. vm_compute. repeat split. Qed.

(** ** One runner at a time *)

Section OneRunner.

Implicit Types (ui : UI.t) (r : Runner.t).

Lemma dispatch_threads (sg : Runner.Signal) ui : UI.threads (UI.dispatch sg ui) = UI.threads ui.
Proof.
  destruct sg as [c t| |m]; cbn; try done.
  unfold UI.on_gcode_progress. destruct (0 <? Z.of_nat t); [|done].
  by destruct (UI.percent _ _).
Qed.

(** [run_gcode] either leaves the threads alone or puts a new one in front
    of a thread that has returned. *)
Lemma run_gcode_threads ui :
  UI.threads (UI.run_gcode ui) = UI.threads ui \/
  (UI.threads (UI.run_gcode ui)
     = Runner.init (UI.stripped_lines (UI.gcode_editor ui)) :: UI.threads ui /\
   forall r, head (UI.threads ui) = Some r -> Runner.isRunning r = false).
Proof.
  unfold UI.run_gcode, UI.check_connection.
  destruct (UI.connected ui); cbn [negb]; [|by left].
  destruct (Py.truthy (Py.strip (UI.gcode_editor ui))); cbn [negb]; [|by left].
  cbn. destruct (UI.stripped_lines (UI.gcode_editor ui)) as [|l ls]; [by left|].
  unfold UI.gcode_runner. cbn.
  destruct (head (UI.threads ui)) as [r|] eqn:Hh.
  - destruct (Runner.isRunning r) eqn:Hr; [by left|].
    right. split; [done|]. intros r' Hr'. by inversion Hr'; subst.
  - right. split; [done|]. intros r' Hr'. done.
Qed.

Lemma returned_step r (s : Serial.t) :
  Runner.isRunning r = false -> Runner.step r s = (r, s).
Proof.
  destruct r as [ls run pau i pc em]. unfold Runner.isRunning, Runner.step. cbn.
  by destruct pc.
Qed.

Lemma on_thread_one_runner f (n : nat) ui :
  (forall r s, Runner.isRunning r = false -> Runner.isRunning (fst (f (r, s))) = false) ->
  one_runner ui -> one_runner (UI.on_thread f n ui).
Proof.
  intros Hf. unfold one_runner, UI.on_thread.
  destruct (UI.threads ui !! n) as [r|] eqn:Hn; [|done].
  destruct (UI.serial_connection ui) as [s|]; [|done].
  destruct (f (r, s)) as [r' s'] eqn:Hfr. cbn.
  destruct (UI.threads ui) as [|r0 ts]; [done|].
  destruct n as [|n]; [done|]. cbn in *. intros Hall.
  assert (Hr : Runner.isRunning r = false)
    by (rewrite Forall_forall in Hall; eapply Hall, list_elem_of_lookup_2, Hn).
  apply Forall_insert; [done|]. specialize (Hf r s Hr). by rewrite Hfr in Hf.
Qed.

Lemma send_command_threads (command : string) ui :
  UI.threads (snd (UI.send_command command ui)) = UI.threads ui.
Proof.
  unfold UI.send_command. destruct (UI.serial_connection ui) as [s|]; [|done].
  destruct (Serial.is_open s); [|done].
  by destruct (Serial.write _ s) as [[e|] s'].
Qed.

Lemma command_threads (int : string -> option Z) (motor : string) ui :
  UI.threads (UI.move_forward int motor ui) = UI.threads ui /\
  UI.threads (UI.move_backward int motor ui) = UI.threads ui /\
  UI.threads (UI.stop_motor motor ui) = UI.threads ui /\
  UI.threads (UI.set_servo_angle int ui) = UI.threads ui.
Proof.
  unfold UI.move_forward, UI.move_backward, UI.stop_motor, UI.set_servo_angle,
    UI.check_connection.
  destruct (UI.connected ui); cbn [negb]; [|done].
  split; [|split; [|split]].
  1, 2: destruct (UI.motor_widgets _ !! motor) as [w|]; [|by rewrite send_command_threads];
    destruct (Py.truthy (UI.speed w)); [destruct (int (UI.speed w))|];
    destruct (Py.truthy (UI.steps w)); try destruct (int (UI.steps w)) as [n|];
    try destruct (0 <? n);
    cbn [UI.show UI.threads]; by rewrite ?send_command_threads.
  - by rewrite !send_command_threads.
  - destruct (Py.truthy (UI.servo_angle_input ui)); cbn [negb]; [|done].
    destruct (int (UI.servo_angle_input ui)) as [p|]; [|done].
    destruct ((p <? 0) || (180 <? p)); [done|]. by rewrite !send_command_threads.
Qed.

Lemma op_one_runner (int : string -> option Z) (o : UI.Op) ui :
  one_runner ui -> one_runner (UI.op int o ui).
Proof.
  intros H. destruct o; cbn [UI.op]; try done.
  1-4: unfold one_runner;
    try destruct (command_threads int motor ui) as (Hf & Hb & Hs & _);
    try destruct (command_threads int "" ui) as (_ & _ & _ & Ha);
    by rewrite ?Hf, ?Hb, ?Hs, ?Ha.
  - destruct (run_gcode_threads ui) as [He|[He Hh]]; unfold one_runner in *; rewrite He;
      [done|].
    cbn. destruct (UI.threads ui) as [|r ts]; [done|].
    constructor; [by apply Hh | done].
  - unfold UI.pause_gcode, one_runner in *.
    destruct (UI.threads ui) as [|r ts] eqn:Ht; [by rewrite Ht|].
    destruct (Runner.isRunning r); [|by rewrite Ht].
    by destruct (Runner.paused r).
  - unfold UI.stop_gcode. destruct (UI.gcode_runner ui) as [r|] eqn:Hg; [|done].
    destruct (Runner.isRunning r); [|done].
    unfold one_runner.
    cbn [UI.show UI.on_gcode_finished UI.showMessage UI.setValue UI.threads].
    apply on_thread_one_runner; [|done].
    intros r' s' Hr'.
    assert (Hw : forall r, Runner.isRunning r = false -> Runner.wait (r, s') = (r, s')).
    { intros [ls run pau i pc em]. unfold Runner.isRunning, Runner.wait, Runner.budget.
      cbn. by destruct pc. }
    cbn [Runner.act fst snd]. rewrite Hw; by destruct r'.
  - apply on_thread_one_runner; [|done].
    intros r s Hr. cbn [Runner.act fst snd]. by rewrite returned_step.
  - unfold one_runner. by rewrite dispatch_threads.
Qed.

Lemma ops_one_runner (int : string -> option Z) (os : list UI.Op) ui :
  one_runner ui -> one_runner (UI.ops int os ui).
Proof.
  revert ui. induction os as [|o os IH]; intros ui H; [done|].
  cbn. apply IH. by apply op_one_runner.
Qed.

Lemma one_runner_active ui : one_runner ui -> (length (UI.active ui) <= 1)%nat.
Proof.
  unfold one_runner, UI.active. destruct (UI.threads ui) as [|r ts]; cbn; [lia|].
  intros H.
  assert (Hts : List.filter Runner.isRunning ts = []).
  { induction H as [|r' ts' Hr' _ IH]; cbn; [done|]. by rewrite Hr'. }
  destruct (Runner.isRunning r); cbn; rewrite Hts; cbn; lia.
Qed.

End OneRunner.

(** C7. Whatever has happened to the window since it was opened (typing,
    commands, loads, runs, pauses, stops, steps of any thread, delivered
    signals), at most one of its runner threads has not returned.  A request
    to run made while the current runner has not returned (paused or not) is
    always turned down with a warning: no thread is created for the new
    lines and the port is not touched.  On a connected window with a program
    in the editor, the two guards that come first in [run_gcode] pass and the
    warning is the already-running one. *)
Theorem start_while_running_rejected :
  (forall (int : string -> option Z) (conn : option Serial.t) (os : list UI.Op),
     (length (UI.active (UI.ops int os (UI.init conn))) <= 1)%nat) /\
  (forall (ui : UI.t) (r : Runner.t),
     UI.gcode_runner ui = Some r ->
     Runner.isRunning r = true ->
     UI.threads (UI.run_gcode ui) = UI.threads ui /\
     UI.serial_connection (UI.run_gcode ui) = UI.serial_connection ui /\
     exists b, UI.icon b = UI.Warning /\
       UI.boxes (UI.run_gcode ui) = (UI.boxes ui ++ [b])%list) /\
  (forall (ui : UI.t) (r : Runner.t),
     UI.gcode_runner ui = Some r ->
     Runner.isRunning r = true ->
     UI.connected ui = true ->
     Py.strip (UI.gcode_editor ui) <> "" ->
     UI.boxes (UI.run_gcode ui) = (UI.boxes ui ++ [UI.already_running])%list).
Proof.
  split; [|split].
  - intros int conn os. apply one_runner_active, ops_one_runner. constructor.
  - intros ui r Hg Hr. unfold UI.run_gcode, UI.check_connection.
    destruct (UI.connected ui); cbn [negb];
      [|split; [done|]; split; [done|]; by exists UI.not_connected].
    destruct (Py.truthy (Py.strip (UI.gcode_editor ui))); cbn [negb];
      [|split; [done|]; split; [done|]; by exists UI.editor_empty].
    cbn. destruct (UI.stripped_lines (UI.gcode_editor ui)) as [|l ls];
      [split; [done|]; split; [done|]; by exists UI.no_valid_line|].
    unfold UI.gcode_runner in *. cbn. rewrite Hg, Hr.
    split; [done|]. split; [done|]. by exists UI.already_running.
  - intros ui r Hg Hr Hc He.
    pose proof (stripped_lines_nonempty _ He) as Hl.
    unfold UI.run_gcode, UI.check_connection. rewrite Hc. cbn [negb].
    destruct (Py.truthy (Py.strip (UI.gcode_editor ui))) eqn:Ht;
      [|by destruct (Py.strip (UI.gcode_editor ui))].
    cbn [negb]. cbn.
    destruct (UI.stripped_lines (UI.gcode_editor ui)) as [|l ls]; [done|].
    unfold UI.gcode_runner in *. cbn. rewrite Hg, Hr. done.
Qed.

Lemma start_while_running_rejected_witness :
  let first := UI.ops Py.int [UI.Edit ("G28" ++ String "010" "G1 X10"); UI.Run;
                              UI.Step 0; UI.Step 0; UI.PauseResume] (panel "620" "0" "90") in
  let ui := UI.with_editor "M3" first in
  UI.boxes (UI.run_gcode ui) = [UI.already_running] /\
  UI.threads (UI.run_gcode ui) = UI.threads ui /\
  UI.serial_connection (UI.run_gcode ui) = UI.serial_connection ui.
Proof.
  intros first ui.
  pose (r := Runner.mk ["G28"; "G1 X10"] true true 0 Runner.Recheck []).
  assert (Hg : UI.gcode_runner ui = Some r) by (vm_compute; reflexivity).
  destruct start_while_running_rejected as (_ & Hany & Hbox).
  destruct (Hany ui r Hg eq_refl) as (Ht & Hs & _).
  split; [|split; [exact Ht | exact Hs]].
  apply (Hbox ui r Hg eq_refl); [vm_compute; reflexivity | vm_compute; discriminate].
Defined.

(** ** The progress percentage *)

(** C8, at the input where the code leaves it.  For the progress event
    (29, 100), which a program of a hundred lines emits after its line 29,
    the handler computes 29 / 100 and then the product with 100 in binary64;
    the product is just below 29 and [int] truncates it to 28, which is what
    the bar and the status line show, while the exact quotient of 100 * 29
    by 100 is 29. *)
Theorem percent_29_of_100 :
  In (Runner.progress 29 100)
     (Runner.emitted (fst (Runner.wait (Runner.init (repeat "G1 X1" 100),
                                        Serial.mk true (fun _ => None) [] [])))) /\
  UI.percent 29 100 = Some 28 /\
  (100 * 29) / 100 = 29 /\
  UI.gcode_progress (UI.dispatch (Runner.progress 29 100) (panel "620" "0" "90")) = 28 /\
  UI.statusBar (UI.dispatch (Runner.progress 29 100) (panel "620" "0" "90"))
    = "G-code çalışıyor... 29/100 satır (28%)".
Proof.
  split; [|vm_compute; repeat split].
  vm_compute. do 28 right. left. reflexivity.
Qed.

(** * Further properties *)

(** ** Order of the lines and of the signals *)

Section InOrder.

Implicit Types (r : Runner.t) (s : Serial.t) (st : Runner.t * Serial.t).

Lemma progress_run_snoc (total i : nat) :
  progress_run total 0 (S i) = (progress_run total 0 i ++ [Runner.progress (i + 1) total])%list.
Proof.
  unfold progress_run. rewrite seq_S, List.map_app. cbn. by rewrite (Nat.add_comm i 1).
Qed.

Lemma sent_of_snoc (done : list string) (line : string) :
  sent_of (done ++ [line]) =
    (sent_of done ++ (if sendable line then [buffer line] else []))%list.
Proof.
  unfold sent_of. rewrite List.filter_app, List.map_app. cbn.
  by destruct (sendable line).
Qed.

Ltac fields :=
  cbn [fst snd Runner.gcode_lines Runner.running Runner.paused Runner.i Runner.pc
       Runner.emitted Runner.next Runner.emit Runner.goto Runner.total_lines
       Serial.is_open Serial.fault Serial.calls Serial.wire] in *.

Lemma in_order_step (lines c0 w0 : list string) r s :
  in_order lines c0 w0 (r, s) -> in_order lines c0 w0 (Runner.step r s).
Proof.
  destruct r as [ls run pau i pc em]. unfold in_order, Runner.step. fields.
  intros (-> & Hi & Hp & Hw & Hc). destruct pc; fields.
  - destruct (lines !! i); [destruct run|]; fields; repeat split; try done;
      destruct Hc as [Hc|[[?|?] _]]; try done; by left.
  - destruct (pau && run); fields; repeat split; try done;
      destruct Hc as [Hc|[[?|?] _]]; try done; by left.
  - destruct run; fields; repeat split; try done;
      destruct Hc as [Hc|[[?|?] _]]; try done; by left.
  - destruct Hc as [Hc|[[?|?] _]]; try done.
    destruct (lines !! i) as [line|] eqn:Hl; fields; [|repeat split; try done; by left].
    pose proof (lookup_lt_Some _ _ _ Hl) as Hlt.
    assert (Hs : sendable line = negb (Runner.skipped (Py.strip line))) by done.
    destruct (Runner.skipped (Py.strip line)); cbn [negb] in Hs.
    { fields. rewrite List.filter_app, Hp, (take_S_r _ _ _ Hl), sent_of_snoc, Hs, app_nil_r.
      rewrite progress_run_snoc.
      repeat split; try done; try lia. by left. }
    unfold Serial.write.
    destruct (Serial.is_open s); [destruct (Serial.fault s _)|]; fields.
    2: { rewrite List.filter_app, Hp, (take_S_r _ _ _ Hl), sent_of_snoc, Hs.
         rewrite progress_run_snoc, Hw, Hc, <- !app_assoc.
         repeat split; try done; try lia. by left. }
    all: rewrite List.filter_app, Hp, app_nil_r; repeat split; try done;
      right; (split; [by left|]); exists line; by rewrite Hc, <- app_assoc.
  - rewrite List.filter_app, app_nil_r. repeat split; try done.
    destruct Hc as [Hc|[_ Hc]]; [by left|]. right. split; [by right|done].
  - done.
Qed.

Lemma in_order_exec (lines c0 w0 : list string) (sched : list Runner.Action) st :
  in_order lines c0 w0 st -> in_order lines c0 w0 (Runner.exec sched st).
Proof.
  revert st. induction sched as [|a sched IH]; intros [r s] H; [done|].
  rewrite exec_cons. apply IH.
  destruct a; cbn [Runner.act fst snd]; [by apply in_order_step| | |];
    destruct r as [ls run pau i pc em]; exact H.
Qed.

Lemma in_order_init (lines : list string) s :
  in_order lines (Serial.calls s) (Serial.wire s) (Runner.init lines, s).
Proof.
  unfold in_order. fields. rewrite take_0. unfold sent_of. cbn. rewrite !app_nil_r.
  repeat split; try done; try lia. by left.
Qed.

End InOrder.

(** X1. At every moment of a run, whatever the schedule of steps, stops,
    pauses and resumes and whatever writes fail: the lines that have gone out
    are the buffers of the lines done so far that are neither blank nor
    comments, in program order, none twice and none left out; [write] has
    been called for exactly these, and after a failed write for the one line
    that failed as well. *)
Theorem lines_go_out_in_order
    (lines : list string) (s : Serial.t) (sched : list Runner.Action) :
  let st := Runner.exec sched (Runner.init lines, s) in
  let done := take (Runner.i (fst st)) lines in
  (Runner.i (fst st) <= length lines)%nat /\
  Serial.wire (snd st) = (Serial.wire s ++ sent_of done)%list /\
  (Serial.calls (snd st) = (Serial.calls s ++ sent_of done)%list \/
   exists line, lines !! Runner.i (fst st) = Some line /\ sendable line = true /\
     Serial.calls (snd st) = (Serial.calls s ++ sent_of done ++ [buffer line])%list).
Proof.
  intros st done.
  destruct (in_order_exec lines _ _ sched _ (in_order_init lines s))
    as (_ & Hi & _ & Hw & Hc).
  split; [done|]. split; [done|].
  destruct Hc as [Hc|(_ & line & Hl & Hs & Hc)]; [by left|].
  right. by exists line.
Qed.

(** X2. At every moment of a run, under any schedule and any failures, the
    signals emitted so far are [progress (1, N)], ..., [progress (i, N)] for
    the [i <= N] lines done, [N] the length of the program, followed by
    nothing, by one [error], by [finished], or by [error] and [finished]. *)
Theorem progress_counts_every_line
    (lines : list string) (s : Serial.t) (sched : list Runner.Action) :
  let r := fst (Runner.exec sched (Runner.init lines, s)) in
  (Runner.i r <= length lines)%nat /\
  exists rest,
    Runner.emitted r = (progress_run (length lines) 0 (Runner.i r) ++ rest)%list /\
    (rest = [] \/ rest = [Runner.finished] \/
     exists m, rest = [Runner.error m] \/ rest = [Runner.error m; Runner.finished]).
Proof.
  intros r.
  destruct (in_order_exec lines _ _ sched _ (in_order_init lines s))
    as (_ & Hi & Hp & _). fold r in Hi, Hp.
  assert (Hsh : shape r) by (apply shape_exec, shape_init).
  split; [done|]. destruct Hsh as (ps & Hps & H).
  assert (Hf : forall tl, List.filter is_progress tl = [] ->
            Runner.emitted r = (ps ++ tl)%list -> ps = progress_run (length lines) 0 (Runner.i r)).
  { intros tl Htl He. rewrite He, List.filter_app, Htl, app_nil_r in Hp.
    rewrite <- Hp. clear -Hps. induction ps as [|[c t| |m] ps IH]; cbn in *; try done.
    by rewrite <- IH. }
  destruct (Runner.pc r).
  1-4: exists []; rewrite app_nil_r; split; [|by left];
    rewrite H; apply (Hf []); auto; by rewrite app_nil_r.
  - destruct H as [H|[m H]].
    + exists []. rewrite app_nil_r. split; [|by left].
      rewrite H. apply (Hf []); auto. by rewrite app_nil_r.
    + exists [Runner.error m]. split; [|right; right; exists m; by left].
      rewrite H. f_equal. by apply (Hf [Runner.error m]); auto.
  - destruct H as [H|[m H]].
    + exists [Runner.finished]. split; [|right; by left].
      rewrite H. f_equal. by apply (Hf [Runner.finished]); auto.
    + exists [Runner.error m; Runner.finished].
      split; [|right; right; exists m; by right].
      rewrite H. f_equal. by apply (Hf [Runner.error m; Runner.finished]); auto.
Qed.

(** ** Runs that are left to finish *)

Section WholeRuns.

Implicit Types (s : Serial.t) (lines pre post : list string).

(** The sequential run when the first write to fail is the one for [line],
    which comes after the stretch [pre] of the program. *)
Lemma run_rest_fails_after pre : forall line post total i s out e,
  sendable line = true ->
  Serial.is_open s = true ->
  (forall m, (m < length (sent_of pre))%nat ->
     Serial.fault s (length (Serial.calls s) + m) = None) ->
  Serial.fault s (length (Serial.calls s) + length (sent_of pre)) = Some e ->
  run_rest total i (pre ++ line :: post) s out =
    ((out ++ progress_run total i (length pre)
          ++ [Runner.error (Runner.send_failure (i + length pre) e); Runner.finished])%list,
     Serial.mk true (Serial.fault s)
       (Serial.calls s ++ sent_of pre ++ [buffer line])
       (Serial.wire s ++ sent_of pre)).
Proof.
  induction pre as [|l pre IH]; intros line post total i s out e Hline Ho Hok Hbad.
  - unfold sendable in Hline. apply negb_true_iff in Hline.
    cbn [app run_rest]. rewrite Hline. unfold Serial.write. rewrite Ho.
    cbn in Hbad. rewrite Nat.add_0_r in Hbad. rewrite Hbad, Nat.add_0_r. cbn.
    by rewrite app_nil_r.
  - cbn [app run_rest length].
    assert (Hs : sendable l = negb (Runner.skipped (Py.strip l))) by done.
    replace (i + S (length pre))%nat with (S i + length pre)%nat by lia.
    rewrite progress_run_S.
    change (sent_of (l :: pre))
      with (List.map buffer (if sendable l then l :: List.filter sendable pre
                             else List.filter sendable pre)) in *.
    destruct (Runner.skipped (Py.strip l)); cbn [negb] in Hs; rewrite Hs in *.
    + rewrite (IH line post total (S i) s _ e) by done.
      by rewrite <- !app_assoc.
    + cbn [List.map length] in Hok, Hbad. unfold Serial.write. rewrite Ho.
      pose proof (Hok 0%nat ltac:(lia)) as H0. rewrite Nat.add_0_r in H0. rewrite H0.
      rewrite (IH line post total (S i) _ _ e);
        cbn [Serial.is_open Serial.fault Serial.calls Serial.wire]; try done.
      * cbn [List.map]. by rewrite <- !app_assoc.
      * intros m Hm. rewrite length_app. cbn [length].
        replace (length (Serial.calls s) + 1 + m)%nat
          with (length (Serial.calls s) + S m)%nat by lia.
        apply Hok. fold (sent_of pre). lia.
      * rewrite length_app. cbn [length].
        replace (length (Serial.calls s) + 1 + length (sent_of pre))%nat
          with (length (Serial.calls s) + S (length (sent_of pre)))%nat by lia.
        done.
Qed.

End WholeRuns.

(** X3. A run that nobody stops, on an open port that does not fail, paused
    and resumed at will: once [run] has returned, the signals are
    [progress (1, N)], ..., [progress (N, N)] and [finished], one [progress]
    per line whether written or skipped, and the lines on the wire are the
    buffers of the lines that are neither blank nor comments, in order.  A
    thread that is not held in the pause loop does return with this result:
    pausing and resuming change nothing of what is sent or signalled. *)
Theorem undisturbed_run_completes
    (lines : list string) (s : Serial.t) (sched : list Runner.Action) :
  Serial.is_open s = true ->
  (forall n, Serial.fault s n = None) ->
  Forall (fun a => a <> Runner.Stop) sched ->
  let completed (st : Runner.t * Serial.t) :=
    Runner.emitted (fst st)
      = (progress_run (length lines) 0 (length lines) ++ [Runner.finished])%list /\
    Serial.calls (snd st) = (Serial.calls s ++ sent_of lines)%list /\
    Serial.wire (snd st) = (Serial.wire s ++ sent_of lines)%list in
  let st := Runner.exec sched (Runner.init lines, s) in
  (Runner.isRunning (fst st) = false -> completed st) /\
  (free (fst st) ->
   Runner.isRunning (fst (Runner.wait st)) = false /\ completed (Runner.wait st)).
Proof.
  intros Ho Hn Hs completed st.
  assert (Hres : forall sched', Forall (fun a => a <> Runner.Stop) sched' ->
            Runner.isRunning (fst (Runner.exec sched' (Runner.init lines, s))) = false ->
            completed (Runner.exec sched' (Runner.init lines, s))).
  { intros sched' Hs' Hret.
    assert (Hp : Runner.pc (fst (Runner.exec sched' (Runner.init lines, s))) = Runner.Returned)
      by (unfold Runner.isRunning in Hret; destruct (Runner.pc _); done).
    pose proof (returned_outcome lines s sched' Hs' Hp) as Hout.
    rewrite (run_rest_completes lines (length lines) 0 s [] Ho Hn) in Hout.
    apply pair_equal_spec in Hout as [Hem Hst]. unfold completed. by rewrite Hem, Hst. }
  split; [by apply Hres|].
  intros Hf.
  assert (Hret : Runner.isRunning (fst (Runner.wait st)) = false)
    by (destruct st as [r0 s0]; by apply wait_returns).
  split; [done|]. revert Hret. unfold Runner.wait. subst st. rewrite <- exec_app.
  apply Hres, Forall_app. split; [done | apply ticks_no_stop].
Qed.

Lemma undisturbed_run_completes_witness :
  let port := Serial.mk true (fun _ => None) [] [] in
  let st := Runner.exec [Runner.Tick; Runner.Pause; Runner.Tick; Runner.Tick; Runner.Resume]
              (Runner.init ["G28"; "; home first"; "  G1 X10 "], port) in
  Runner.isRunning (fst (Runner.wait st)) = false /\
  Runner.emitted (fst (Runner.wait st))
    = [Runner.progress 1 3; Runner.progress 2 3; Runner.progress 3 3; Runner.finished] /\
  Serial.calls (snd (Runner.wait st)) = List.map Serial.frame ["G28"; "G1 X10"] /\
  Serial.wire (snd (Runner.wait st)) = List.map Serial.frame ["G28"; "G1 X10"].
Proof.
  intros port st.
  refine (proj2 (undisturbed_run_completes ["G28"; "; home first"; "  G1 X10 "] port
                   [Runner.Tick; Runner.Pause; Runner.Tick; Runner.Tick; Runner.Resume]
                   eq_refl (fun _ => eq_refl) _) _).
  - repeat constructor; discriminate.
  - vm_compute. by left.
Defined.

(** X4. The line number in the error text is the position of the failed line
    in the program, comments counted.  When the first write to fail is the
    one for [line], which follows the stretch [pre] of the program, a run that
    nobody stops ends with the [progress] of every line of [pre], the [error]
    naming line [length pre + 1] and the exception text, and [finished];
    [write] has been called for the lines of [pre] that are not skipped and
    for [line], and nothing of what follows [line] is ever handed to it. *)
Theorem failure_names_program_line
    (pre post : list string) (line : string) (s : Serial.t)
    (sched : list Runner.Action) (e : string) :
  sendable line = true ->
  Serial.is_open s = true ->
  (forall m, (m < length (sent_of pre))%nat ->
     Serial.fault s (length (Serial.calls s) + m) = None) ->
  Serial.fault s (length (Serial.calls s) + length (sent_of pre)) = Some e ->
  Forall (fun a => a <> Runner.Stop) sched ->
  let lines := (pre ++ line :: post)%list in
  let failed (st : Runner.t * Serial.t) :=
    Runner.emitted (fst st) =
      (progress_run (length lines) 0 (length pre)
         ++ [Runner.error ("Satır " ++ Py.str (Z.of_nat (length pre + 1))
                             ++ " gönderilemedi: " ++ e);
             Runner.finished])%list /\
    Serial.calls (snd st) = (Serial.calls s ++ sent_of pre ++ [buffer line])%list /\
    Serial.wire (snd st) = (Serial.wire s ++ sent_of pre)%list in
  let st := Runner.exec sched (Runner.init lines, s) in
  (Runner.isRunning (fst st) = false -> failed st) /\
  (free (fst st) ->
   Runner.isRunning (fst (Runner.wait st)) = false /\ failed (Runner.wait st)).
Proof.
  intros Hline Ho Hok Hbad Hs lines failed st.
  assert (Hres : forall sched', Forall (fun a => a <> Runner.Stop) sched' ->
            Runner.isRunning (fst (Runner.exec sched' (Runner.init lines, s))) = false ->
            failed (Runner.exec sched' (Runner.init lines, s))).
  { intros sched' Hs' Hret.
    assert (Hp : Runner.pc (fst (Runner.exec sched' (Runner.init lines, s))) = Runner.Returned)
      by (unfold Runner.isRunning in Hret; destruct (Runner.pc _); done).
    pose proof (returned_outcome lines s sched' Hs' Hp) as Hout.
    unfold lines in Hout.
    rewrite (run_rest_fails_after pre line post _ 0 s [] e) in Hout by done.
    apply pair_equal_spec in Hout as [Hem Hst]. unfold failed, lines.
    by rewrite Hem, Hst. }
  split; [by apply Hres|].
  intros Hf.
  assert (Hret : Runner.isRunning (fst (Runner.wait st)) = false)
    by (destruct st as [r0 s0]; by apply wait_returns).
  split; [done|]. revert Hret. unfold Runner.wait. subst st. rewrite <- exec_app.
  apply Hres, Forall_app. split; [done | apply ticks_no_stop].
Qed.

Lemma failure_names_program_line_witness :
  let port := Serial.mk true (fun n => if Nat.eqb n 1 then Some "Write timeout" else None) [] [] in
  let st := Runner.wait (Runner.init ["G28"; "; to the corner"; "G1 X10"; "G1 X0"], port) in
  Runner.isRunning (fst st) = false /\
  Runner.emitted (fst st) =
    [Runner.progress 1 4; Runner.progress 2 4;
     Runner.error "Satır 3 gönderilemedi: Write timeout"; Runner.finished] /\
  Serial.calls (snd st) = List.map Serial.frame ["G28"; "G1 X10"] /\
  Serial.wire (snd st) = List.map Serial.frame ["G28"].
Proof.
  intros port st.
  refine (proj2 (failure_names_program_line ["G28"; "; to the corner"] ["G1 X0"] "G1 X10"
                   port [] "Write timeout" eq_refl eq_refl _ eq_refl _) _).
  - intros m Hm. assert (m = 0%nat) as -> by (vm_compute in Hm; lia). reflexivity.
  - constructor.
  - by left.
Defined.

(** ** Pausing a run *)

Section Pausing.

Implicit Types (r : Runner.t) (s : Serial.t) (sched : list Runner.Action).

Lemma held_act (a : Runner.Action) r s :
  a <> Runner.Resume -> held r ->
  held (fst (Runner.act a (r, s))) /\ snd (Runner.act a (r, s)) = s.
Proof.
  destruct r as [ls run pau i pc em]. unfold held. cbn.
  intros Ha (-> & Hp & Hr). destruct a; cbn; try done.
  unfold Runner.step. cbn. destruct pc; cbn; try done.
  - destruct (ls !! i); [destruct run|]; done.
  - destruct run; done.
  - by rewrite Hr.
Qed.

Lemma held_exec sched r s :
  Forall (fun a => a <> Runner.Resume) sched -> held r ->
  snd (Runner.exec sched (r, s)) = s.
Proof.
  revert r s. induction sched as [|a sched IH]; intros r s Hs Hh; [done|].
  apply Forall_cons in Hs as [Ha Hs]. rewrite exec_cons.
  destruct (held_act a r s Ha Hh) as [Hh' Hs'].
  destruct (Runner.act a (r, s)) as [r' s']. cbn in Hh', Hs'. subst s'.
  by apply IH.
Qed.

Lemma paused_in_body sched : forall r s,
  Forall (fun a => a <> Runner.Resume) sched ->
  Runner.paused r = true -> Runner.pc r = Runner.Body ->
  Serial.calls (snd (Runner.exec sched (r, s))) = Serial.calls s \/
  exists line, Runner.gcode_lines r !! Runner.i r = Some line /\
    Serial.calls (snd (Runner.exec sched (r, s))) = (Serial.calls s ++ [buffer line])%list.
Proof.
  induction sched as [|a sched IH]; intros r s Hs Hpau Hp; [by left|].
  apply Forall_cons in Hs as [Ha Hs]. rewrite exec_cons.
  destruct a; cbn [Runner.act fst snd]; try done;
    try (destruct r as [ls run pau i pc em]; cbn in *; by apply IH).
  destruct r as [ls run pau i pc em]. cbn in *. subst pau pc.
  unfold Runner.step. cbn.
  destruct (ls !! i) as [line|] eqn:Hl.
  - destruct (Runner.skipped (Py.strip line)).
    + left. by rewrite held_exec.
    + right. exists line. split; [done|].
      unfold Serial.write.
      destruct (Serial.is_open s); [destruct (Serial.fault s _)|];
        by rewrite held_exec.
  - left. by rewrite held_exec.
Qed.

Lemma paused_in_recheck sched : forall r s,
  Forall (fun a => a <> Runner.Resume) sched ->
  Runner.paused r = true -> Runner.pc r = Runner.Recheck ->
  Serial.calls (snd (Runner.exec sched (r, s))) = Serial.calls s \/
  exists line, Runner.gcode_lines r !! Runner.i r = Some line /\
    Serial.calls (snd (Runner.exec sched (r, s))) = (Serial.calls s ++ [buffer line])%list.
Proof.
  induction sched as [|a sched IH]; intros r s Hs Hpau Hp; [by left|].
  pose proof Hs as Hs0. apply Forall_cons in Hs as [Ha Hs]. rewrite exec_cons.
  destruct r as [ls run pau i pc em]. cbn in *. subst pau pc.
  destruct a; cbn [Runner.act fst snd]; try done.
  - unfold Runner.step. cbn. destruct run.
    + by apply (paused_in_body sched (Runner.mk ls true true i Runner.Body em) s).
    + left. by rewrite held_exec.
  - left. by rewrite held_exec.
  - by apply IH.
Qed.

End Pausing.

(** X5. When [pause] is requested at any point of a run, then for as long as
    nobody resumes, whatever else happens (steps, stop, more pauses), the
    only write that can still follow is the one for the line whose iteration
    has already passed the pause loop: no later line is handed to [write]
    while the thread is paused. *)
Theorem pause_holds_back_later_lines
    (lines : list string) (s : Serial.t) (before after : list Runner.Action) :
  Forall (fun a => a <> Runner.Resume) after ->
  let st1 := Runner.exec before (Runner.init lines, s) in
  let st2 := Runner.exec after (Runner.act Runner.Pause st1) in
  Serial.calls (snd st2) = Serial.calls (snd st1) \/
  ((Runner.pc (fst st1) = Runner.Recheck \/ Runner.pc (fst st1) = Runner.Body) /\
   exists line, lines !! Runner.i (fst st1) = Some line /\
     Serial.calls (snd st2) = (Serial.calls (snd st1) ++ [buffer line])%list).
Proof.
  intros Ha st1 st2.
  assert (Hl : Runner.gcode_lines (fst st1) = lines)
    by (subst st1; by rewrite (proj1 (exec_keeps _ _))).
  subst st2. destruct st1 as [r1 s1]. cbn [Runner.act fst snd] in *.
  destruct (Runner.pc r1) eqn:Hp.
  3: { destruct (paused_in_recheck after (Runner.pause r1) s1 Ha eq_refl Hp)
         as [H|(line & Hi & H)]; [by left|].
       right. split; [by left|]. exists line. cbn in Hi. by rewrite Hl in Hi. }
  3: { destruct (paused_in_body after (Runner.pause r1) s1 Ha eq_refl Hp)
         as [H|(line & Hi & H)]; [by left|].
       right. split; [by right|]. exists line. cbn in Hi. by rewrite Hl in Hi. }
  all: left; rewrite held_exec; try done;
    destruct r1 as [ls run pau i pc em]; cbn in *; subst pc; by repeat split.
Qed.

Lemma pause_holds_back_later_lines_witness :
  let port := Serial.mk true (fun _ => None) [] [] in
  let st1 := Runner.exec (repeat Runner.Tick 3) (Runner.init ["G28"; "G1 X10"], port) in
  let st2 := Runner.exec (repeat Runner.Tick 8) (Runner.act Runner.Pause st1) in
  Runner.pc (fst st1) = Runner.Body /\
  Serial.calls (snd st1) = [] /\
  Serial.calls (snd st2) = [Serial.frame "G28"] /\
  (Serial.calls (snd st2) = Serial.calls (snd st1) \/
   ((Runner.pc (fst st1) = Runner.Recheck \/ Runner.pc (fst st1) = Runner.Body) /\
    exists line, ["G28"; "G1 X10"] !! Runner.i (fst st1) = Some line /\
      Serial.calls (snd st2) = (Serial.calls (snd st1) ++ [buffer line])%list)).
Proof.
  intros port st1 st2. do 3 (split; [vm_compute; reflexivity|]).
  apply (pause_holds_back_later_lines ["G28"; "G1 X10"] port
           (repeat Runner.Tick 3) (repeat Runner.Tick 8)).
  repeat constructor; discriminate.
Defined.

(** ** Commands without a connection, and commands on a failing port *)

(** X6. Without an open connection none of the commands does anything but
    show the not-connected warning: the move commands, the stop command, the
    servo command and the run request leave the window as it was, with that
    one box added, and [send_command] answers [False] and does not call
    [write]. *)
Theorem commands_need_a_connection
    (int : string -> option Z) (motor command : string) (ui : UI.t) :
  UI.connected ui = false ->
  UI.move_forward int motor ui = UI.show UI.not_connected ui /\
  UI.move_backward int motor ui = UI.show UI.not_connected ui /\
  UI.stop_motor motor ui = UI.show UI.not_connected ui /\
  UI.set_servo_angle int ui = UI.show UI.not_connected ui /\
  UI.run_gcode ui = UI.show UI.not_connected ui /\
  UI.send_command command ui = (false, UI.show UI.not_connected ui) /\
  calls_of (UI.show UI.not_connected ui) = calls_of ui.
Proof.
  intros Hc.
  unfold UI.move_forward, UI.move_backward, UI.stop_motor, UI.set_servo_angle,
    UI.run_gcode, UI.check_connection. rewrite Hc. cbn [negb].
  do 5 (split; [reflexivity|]). split; [|reflexivity].
  unfold UI.send_command. unfold UI.connected in Hc.
  destruct (UI.serial_connection ui) as [s|]; [|reflexivity]. by rewrite Hc.
Qed.

Lemma commands_need_a_connection_witness :
  let ui := UI.init None in
  UI.boxes (UI.move_forward Py.int "X" ui) = [UI.not_connected] /\
  UI.boxes (UI.run_gcode ui) = [UI.not_connected] /\
  UI.send_command "x" ui = (false, UI.show UI.not_connected ui).
Proof.
  intros ui.
  destruct (commands_need_a_connection Py.int "X" "x" ui eq_refl)
    as (Hf & _ & _ & _ & Hr & Hs & _).
  rewrite Hf, Hr, Hs. repeat split.
Defined.

(** X7. On an open port the stop command hands the lowercase axis letter and
    then [w] to [write], in two calls; on a port that does not fail these are
    the two lines that go out, and no box is shown. *)
Theorem stop_motor_emits_axis_and_w (a : Axis) (ui : UI.t) :
  UI.connected ui = true ->
  let lines := List.map Serial.frame [letter a; "w"] in
  calls_of (UI.stop_motor (name a) ui) = (calls_of ui ++ lines)%list /\
  (faultless ui ->
   wire_of (UI.stop_motor (name a) ui) = (wire_of ui ++ lines)%list /\
   UI.boxes (UI.stop_motor (name a) ui) = UI.boxes ui).
Proof.
  intros Hc. unfold UI.stop_motor, UI.check_connection. rewrite Hc. cbn [negb].
  rewrite lower_name.
  destruct (send_command_spec (letter a) ui Hc) as (Hc1 & _ & _ & Hl1 & Hf1).
  destruct (send_command_spec "w" _ Hc1) as (_ & _ & _ & Hl2 & Hf2).
  cbn zeta. split.
  - rewrite Hl2, Hl1, <- app_assoc. reflexivity.
  - intros Hn. destruct (Hf1 Hn) as (Hn1 & Hx1 & Hb1).
    destruct (Hf2 Hn1) as (_ & Hx2 & Hb2).
    rewrite Hx2, Hx1, Hb2, Hb1, <- app_assoc. split; reflexivity.
Qed.

Lemma stop_motor_emits_axis_and_w_witness :
  wire_of (UI.stop_motor "Y" (panel "620" "0" "90")) = List.map Serial.frame ["y"; "w"] /\
  UI.boxes (UI.stop_motor "Y" (panel "620" "0" "90")) = [].
Proof.
  apply (stop_motor_emits_axis_and_w Y (panel "620" "0" "90") eq_refl).
  intros n. reflexivity.
Defined.

(** What one [send_command] does on an open port, by the outcome of the
    write. *)
Lemma send_command_outcome (command : string) (ui : UI.t) (s : Serial.t) :
  UI.serial_connection ui = Some s ->
  Serial.is_open s = true ->
  let called := (Serial.calls s ++ [Serial.frame command])%list in
  match Serial.fault s (length (Serial.calls s)) with
  | None =>
      UI.send_command command ui =
        (true, UI.append (">>> " ++ command)
                 (UI.with_serial
                    (Some (Serial.mk true (Serial.fault s) called
                             (Serial.wire s ++ [Serial.frame command]))) ui))
  | Some e =>
      UI.send_command command ui =
        (false, UI.show (UI.box UI.Critical "Gönderme Hatası"
                           ("Komut gönderilemedi:" ++ String "010" e))
                  (UI.with_serial
                     (Some (Serial.mk true (Serial.fault s) called (Serial.wire s))) ui))
  end.
Proof.
  intros Hs Ho. unfold UI.send_command, Serial.write. rewrite Hs, Ho.
  by destruct (Serial.fault s (length (Serial.calls s))).
Qed.

(** X8. A write that fails does not end a move command.  When the write of
    the axis letter raises [e] and the next two writes succeed, the forward
    and the backward command show the send-error box with [e] and go on: the
    speed line and the motion line go out without the axis line before
    them. *)
Theorem move_goes_on_after_failed_axis_write
    (int : string -> option Z) (a : Axis) (ui : UI.t) (s : Serial.t)
    (w : UI.MotorWidget) (v : Z) (e : string) :
  int "" = None ->
  UI.serial_connection ui = Some s ->
  Serial.is_open s = true ->
  Serial.fault s (length (Serial.calls s)) = Some e ->
  Serial.fault s (length (Serial.calls s) + 1) = None ->
  Serial.fault s (length (Serial.calls s) + 2) = None ->
  UI.motor_widgets ui !! name a = Some w ->
  int (UI.speed w) = Some v ->
  let failure := UI.box UI.Critical "Gönderme Hatası" ("Komut gönderilemedi:" ++ String "010" e) in
  let forward := List.map Serial.frame
    ["v=" ++ Py.str v; motion_line int "m=" "a" (UI.steps w)] in
  let backward := List.map Serial.frame
    ["v=" ++ Py.str v; motion_line int "n=" "d" (UI.steps w)] in
  wire_of (UI.move_forward int (name a) ui) = (wire_of ui ++ forward)%list /\
  wire_of (UI.move_backward int (name a) ui) = (wire_of ui ++ backward)%list /\
  UI.boxes (UI.move_forward int (name a) ui) = (UI.boxes ui ++ [failure])%list /\
  UI.boxes (UI.move_backward int (name a) ui) = (UI.boxes ui ++ [failure])%list.
Proof.
  intros He Hs Ho H0 H1 H2 Hw Hv failure forward backward.
  unfold UI.move_forward, UI.move_backward, UI.check_connection, UI.connected.
  rewrite Hs, Ho. cbn [negb].
  pose proof (send_command_outcome (Py.lower (name a)) ui s Hs Ho) as Hax.
  rewrite H0 in Hax. cbn zeta in Hax. rewrite Hax. cbn [snd].
  set (ui1 := UI.show _ _).
  set (s1 := Serial.mk true (Serial.fault s)
               (Serial.calls s ++ [Serial.frame (Py.lower (name a))]) (Serial.wire s)).
  assert (Hs1 : UI.serial_connection ui1 = Some s1) by reflexivity.
  assert (Hl1 : length (Serial.calls s1) = (length (Serial.calls s) + 1)%nat)
    by (cbn; rewrite length_app; reflexivity).
  change (UI.motor_widgets ui1) with (UI.motor_widgets ui).
  rewrite Hw, (truthy_parsed int He _ _ Hv), Hv, !(motion_choice int He).
  pose proof (send_command_outcome ("v=" ++ Py.str v) ui1 s1 Hs1 eq_refl) as Hsp.
  rewrite Hl1 in Hsp. cbn [Serial.fault s1] in Hsp. rewrite H1 in Hsp.
  cbn zeta in Hsp. rewrite Hsp. cbn [snd].
  set (ui2 := UI.append _ _).
  set (s2 := Serial.mk true (Serial.fault s1)
               (Serial.calls s1 ++ [Serial.frame ("v=" ++ Py.str v)])
               (Serial.wire s1 ++ [Serial.frame ("v=" ++ Py.str v)])).
  assert (Hs2 : UI.serial_connection ui2 = Some s2) by reflexivity.
  assert (Hl2 : length (Serial.calls s2) = (length (Serial.calls s) + 2)%nat)
    by (cbn; rewrite !length_app; cbn; lia).
  pose proof (send_command_outcome (motion_line int "m=" "a" (UI.steps w)) ui2 s2 Hs2 eq_refl)
    as Hmf.
  pose proof (send_command_outcome (motion_line int "n=" "d" (UI.steps w)) ui2 s2 Hs2 eq_refl)
    as Hmb.
  rewrite Hl2 in Hmf, Hmb. cbn [Serial.fault s2 s1] in Hmf, Hmb. rewrite H2 in Hmf, Hmb.
  cbn zeta in Hmf, Hmb. rewrite Hmf, Hmb. unfold wire_of. rewrite Hs. cbn.
  rewrite <- !app_assoc. repeat split.
Qed.

Lemma move_goes_on_after_failed_axis_write_witness :
  let port := Serial.mk true (fun n => if Nat.eqb n 0 then Some "Write timeout" else None) [] [] in
  let ui := UI.with_serial (Some port) (panel "620" "100" "90") in
  wire_of (UI.move_forward Py.int "X" ui) = List.map Serial.frame ["v=620"; "m=100"] /\
  wire_of (UI.move_backward Py.int "X" ui) = List.map Serial.frame ["v=620"; "n=100"].
Proof.
  intros port ui.
  destruct (move_goes_on_after_failed_axis_write Py.int X ui port (UI.widget "620" "100") 620
              "Write timeout" eq_refl eq_refl eq_refl eq_refl eq_refl eq_refl
              ltac:(vm_compute; reflexivity) eq_refl) as (Hf & Hb & _).
  split; [exact Hf | exact Hb].
Defined.

(** ** The output pane *)

Section Echoes.

Variable int : string -> option Z.
Implicit Types (ui : UI.t).

Lemma echoes_refl ui : echoes ui ui.
Proof. exists [], []. cbn. by rewrite !app_nil_r. Qed.

Lemma echoes_trans ui1 ui2 ui3 : echoes ui1 ui2 -> echoes ui2 ui3 -> echoes ui1 ui3.
Proof.
  intros (l1 & o1 & Hw1 & Ho1 & He1) (l2 & o2 & Hw2 & Ho2 & He2).
  exists (l1 ++ l2)%list, (o1 ++ o2)%list.
  rewrite Hw2, Hw1, Ho2, Ho1, List.filter_app, He1, He2, !List.map_app, <- !app_assoc.
  done.
Qed.

Lemma echoes_frame ui ui1 ui2 :
  UI.serial_connection ui2 = UI.serial_connection ui1 ->
  UI.output_text ui2 = UI.output_text ui1 ->
  echoes ui ui1 -> echoes ui ui2.
Proof.
  intros Hs Ho (l & o & Hw & Hout & He). exists l, o.
  unfold wire_of in *. by rewrite Hs, Ho.
Qed.

Lemma is_echo_echo (command : string) : is_echo (echo command) = true.
Proof. destruct command; vm_compute; reflexivity. Qed.

Lemma is_echo_received (data : string) : is_echo ("<<< " ++ data) = false.
Proof. destruct data; vm_compute; reflexivity. Qed.

Lemma echoes_send (command : string) ui ui1 :
  echoes ui ui1 -> echoes ui (snd (UI.send_command command ui1)).
Proof.
  intros H. eapply echoes_trans; [exact H|]. clear H.
  unfold UI.send_command.
  destruct (UI.serial_connection ui1) as [s|] eqn:Hs;
    [|eapply echoes_frame; [| |apply echoes_refl]; done].
  destruct (Serial.is_open s) eqn:Ho;
    [|eapply echoes_frame; [| |apply echoes_refl]; done].
  unfold Serial.write. rewrite Ho.
  destruct (Serial.fault s _); cbn [snd].
  - exists [], []. unfold wire_of. rewrite Hs. cbn. by rewrite !app_nil_r.
  - exists [command], [echo command]. unfold wire_of. rewrite Hs.
    cbn [List.filter]. rewrite is_echo_echo. done.
Qed.

Lemma echoes_show (b : UI.MessageBox) ui ui1 : echoes ui ui1 -> echoes ui (UI.show b ui1).
Proof. by apply echoes_frame. Qed.

Ltac echo_steps :=
  repeat first [ apply echoes_refl | apply echoes_send | apply echoes_show ].

Lemma move_forward_echoes (motor : string) ui : echoes ui (UI.move_forward int motor ui).
Proof.
  unfold UI.move_forward, UI.check_connection.
  destruct (UI.connected ui); cbn [negb]; [|echo_steps].
  destruct (UI.motor_widgets _ !! motor) as [w|]; [|echo_steps].
  destruct (Py.truthy (UI.speed w)); [destruct (int (UI.speed w))|];
    destruct (Py.truthy (UI.steps w)); try destruct (int (UI.steps w)) as [n|];
    try destruct (0 <? n); echo_steps.
Qed.

Lemma move_backward_echoes (motor : string) ui : echoes ui (UI.move_backward int motor ui).
Proof.
  unfold UI.move_backward, UI.check_connection.
  destruct (UI.connected ui); cbn [negb]; [|echo_steps].
  destruct (UI.motor_widgets _ !! motor) as [w|]; [|echo_steps].
  destruct (Py.truthy (UI.speed w)); [destruct (int (UI.speed w))|];
    destruct (Py.truthy (UI.steps w)); try destruct (int (UI.steps w)) as [n|];
    try destruct (0 <? n); echo_steps.
Qed.

Lemma run_gcode_log ui :
  UI.serial_connection (UI.run_gcode ui) = UI.serial_connection ui /\
  UI.output_text (UI.run_gcode ui) = UI.output_text ui.
Proof.
  unfold UI.run_gcode, UI.check_connection.
  destruct (UI.connected ui); cbn [negb]; [|done].
  destruct (Py.truthy (Py.strip (UI.gcode_editor ui))); cbn [negb]; [|done].
  cbn. destruct (UI.stripped_lines (UI.gcode_editor ui)); [done|].
  unfold UI.gcode_runner. cbn.
  destruct (head (UI.threads ui)) as [r|]; [destruct (Runner.isRunning r)|]; done.
Qed.

Lemma window_only_echoes (ev : PanelEvent) ui :
  window_only ev = true -> echoes ui (panel_event int ev ui).
Proof.
  destruct ev as [o|data]; cbn [panel_event].
  - destruct o; cbn [window_only UI.op]; intros Hw; try done;
      try (eapply echoes_frame; [| |apply echoes_refl]; done).
    + apply move_forward_echoes.
    + apply move_backward_echoes.
    + unfold UI.stop_motor, UI.check_connection.
      destruct (UI.connected ui); cbn [negb]; echo_steps.
    + unfold UI.set_servo_angle, UI.check_connection.
      destruct (UI.connected ui); cbn [negb]; [|echo_steps].
      destruct (Py.truthy (UI.servo_angle_input ui)); cbn [negb]; [|echo_steps].
      destruct (int (UI.servo_angle_input ui)) as [p|]; [|echo_steps].
      destruct ((p <? 0) || (180 <? p)); echo_steps.
    + destruct (run_gcode_log ui) as [Hs Ho].
      eapply echoes_frame; [exact Hs|exact Ho|apply echoes_refl].
    + unfold UI.pause_gcode. destruct (UI.threads ui) as [|r ts]; [apply echoes_refl|].
      destruct (Runner.isRunning r); [|apply echoes_refl].
      destruct (Runner.paused r); (eapply echoes_frame; [| |apply echoes_refl]; done).
    + destruct sg as [c t| |m]; cbn [UI.dispatch];
        try (eapply echoes_frame; [| |apply echoes_refl]; done).
      unfold UI.on_gcode_progress. destruct (0 <? Z.of_nat t); [|apply echoes_refl].
      destruct (UI.percent _ _); [|apply echoes_refl].
      eapply echoes_frame; [| |apply echoes_refl]; done.
  - intros _. exists [], ["<<< " ++ data]. unfold on_serial_data.
    cbn [List.filter]. rewrite is_echo_received. cbn. by rewrite app_nil_r.
Qed.

End Echoes.

(** X9. The output pane tells what went out.  Over any sequence of events at
    the window in which no runner thread gets to write (typing, commands,
    loading, run requests, pause presses, delivered signals, received
    lines), the lines added to the wire are the commands [sent], one frame
    each, and the lines added to the output pane that start with [>>>] are
    the echoes of exactly these commands, in the same order: a command whose
    write failed or that was turned down is not echoed, and a received line
    is never taken for one. *)
Theorem output_pane_echoes_what_went_out
    (int : string -> option Z) (evs : list PanelEvent) (ui : UI.t) :
  forallb window_only evs = true ->
  exists (sent shown : list string),
    wire_of (panel_events int evs ui) = (wire_of ui ++ List.map Serial.frame sent)%list /\
    UI.output_text (panel_events int evs ui) = (UI.output_text ui ++ shown)%list /\
    List.filter is_echo shown = List.map echo sent.
Proof.
  revert ui. induction evs as [|ev evs IH]; intros ui Hw.
  - apply echoes_refl.
  - cbn in Hw. apply andb_prop in Hw as [Hev Hw]. cbn.
    exact (echoes_trans _ _ _ (window_only_echoes int ev ui Hev) (IH _ Hw)).
Qed.

Lemma output_pane_echoes_what_went_out_witness :
  let port := Serial.mk true (fun n => if Nat.eqb n 1 then Some "Write timeout" else None) [] [] in
  let ui := UI.with_serial (Some port) (panel "620" "0" "90") in
  let evs := [Pressed (UI.Forward "X"); Received "ok"; Pressed (UI.StopAxis "X")] in
  wire_of (panel_events Py.int evs ui) = List.map Serial.frame ["x"; "a"; "x"; "w"] /\
  UI.output_text (panel_events Py.int evs ui)
    = [">>> x"; ">>> a"; "<<< ok"; ">>> x"; ">>> w"] /\
  exists (sent shown : list string),
    wire_of (panel_events Py.int evs ui) = (wire_of ui ++ List.map Serial.frame sent)%list /\
    UI.output_text (panel_events Py.int evs ui) = (UI.output_text ui ++ shown)%list /\
    List.filter is_echo shown = List.map echo sent.
Proof.
  intros port ui evs. do 2 (split; [vm_compute; reflexivity|]).
  apply (output_pane_echoes_what_went_out Py.int evs ui). reflexivity.
Defined.

(** ** The lines taken from the editor *)

Section Stripped.

Implicit Types (s line : string).

Lemma split_nl_no_nl s : Forall (fun l => contains_nl l = false) (Py.split_nl s).
Proof.
  induction s as [|c s IH]; cbn; [by constructor|].
  destruct (Ascii.eqb c "010") eqn:Hc; [by constructor|].
  destruct (Py.split_nl s) as [|l ls]; [by constructor; [cbn; rewrite Hc|]|].
  apply Forall_cons in IH as [Hl Hls]. constructor; [|done]. cbn. by rewrite Hc, Hl.
Qed.

End Stripped.

Lemma editor_lines_trimmed_all (content : string) :
  Forall (fun l => l <> "" /\ Py.strip l = l /\ contains_nl l = false /\
                   buffer l = l ++ String "010" "" /\ sendable l = negb (is_comment l))
         (UI.stripped_lines content) /\
  sent_of (UI.stripped_lines content)
    = List.map (fun l => l ++ String "010" "")
        (List.filter (fun l => negb (is_comment l)) (UI.stripped_lines content)).
Proof.
  assert (H : Forall (fun l => l <> "" /\ Py.strip l = l /\ contains_nl l = false /\
                   buffer l = l ++ String "010" "" /\ sendable l = negb (is_comment l))
                (UI.stripped_lines content)).
  { unfold UI.stripped_lines.
    pose proof (split_nl_no_nl content) as Hnl.
    induction (Py.split_nl content) as [|l ls IH]; cbn [List.filter List.map]; [done|].
    apply Forall_cons in Hnl as [Hl Hls].
    destruct (Py.truthy (Py.strip l)) eqn:Ht; cbn [List.map]; [|by apply IH].
    constructor; [|by apply IH].
    assert (Hne : Py.strip l <> "") by (intros He; by rewrite He in Ht).
    split; [done|]. split; [apply strip_idem|].
    split; [by apply rstrip_no_nl, lstrip_no_nl|].
    unfold buffer, sendable, Runner.skipped, is_comment.
    rewrite strip_idem, Ht. done. }
  split; [done|]. unfold sent_of.
  induction H as [|l ls (_ & _ & _ & Hb & Hs) _ IH]; [done|].
  cbn [List.filter]. rewrite Hs. destruct (negb (is_comment l)); cbn [List.map];
    by rewrite ?Hb, IH.
Qed.

(** X10. Every line that file loading or a run request takes from a text is
    non-empty, has no blank at either end, be it an ASCII blank or one of the
    other blanks of [str.isspace], and no line feed inside, so the thread's
    own [strip] leaves it as it is: the buffer written for it is the bytes
    of the line followed by the one byte of a line feed, and of these lines
    the thread skips exactly the ones that start with [;] or [(]; its test
    for a blank line never succeeds on them. *)
Theorem editor_lines_are_trimmed (content : string) :
  Forall (fun l => l <> "" /\ Py.strip l = l /\ contains_nl l = false /\
                   buffer l = l ++ String "010" "" /\ sendable l = negb (is_comment l))
         (UI.stripped_lines content) /\
  sent_of (UI.stripped_lines content)
    = List.map (fun l => l ++ String "010" "")
        (List.filter (fun l => negb (is_comment l)) (UI.stripped_lines content)).
Proof. apply editor_lines_trimmed_all. Qed.

(** ** The buttons of the G-code panel *)

Section Buttons.

Implicit Types (ui : UI.t) (r : Runner.t) (s : Serial.t).

Lemma run_gcode_cases ui :
  let lines := UI.stripped_lines (UI.gcode_editor ui) in
  (UI.connected ui = false /\ UI.run_gcode ui = UI.show UI.not_connected ui) \/
  (UI.connected ui = true /\ Py.strip (UI.gcode_editor ui) = "" /\
   UI.run_gcode ui = UI.show UI.editor_empty ui) \/
  (UI.connected ui = true /\ Py.strip (UI.gcode_editor ui) <> "" /\
   (exists r, UI.gcode_runner ui = Some r /\ Runner.isRunning r = true) /\
   UI.run_gcode ui = UI.show UI.already_running (UI.with_lines lines ui)) \/
  (UI.connected ui = true /\ Py.strip (UI.gcode_editor ui) <> "" /\ lines <> [] /\
   (forall r, UI.gcode_runner ui = Some r -> Runner.isRunning r = false) /\
   UI.run_gcode ui =
     UI.showMessage "G-code çalışıyor..."
       (UI.with_threads (Runner.init lines :: UI.threads ui) (UI.with_lines lines ui))).
Proof.
  intros lines. unfold UI.run_gcode, UI.check_connection.
  destruct (UI.connected ui) eqn:Hc; cbn [negb]; [|by left].
  right. destruct (Py.strip (UI.gcode_editor ui)) as [|c t] eqn:Hst; cbn [Py.truthy negb];
    [by left|].
  right.
  assert (Hne : Py.strip (UI.gcode_editor ui) <> "") by by rewrite Hst.
  pose proof (stripped_lines_nonempty _ Hne) as Hl. fold lines in Hl.
  cbn. fold lines. destruct lines as [|l ls] eqn:Hlines; [done|].
  unfold UI.gcode_runner. cbn.
  destruct (head (UI.threads ui)) as [r|] eqn:Hh.
  - destruct (Runner.isRunning r) eqn:Hr.
    + left. repeat split; try done. by exists r.
    + right. repeat split; try done. intros r' Hr'. by inversion Hr'; subst.
  - right. repeat split; done.
Qed.

Lemma step_port (r : Runner.t) s :
  Serial.is_open (snd (Runner.step r s)) = Serial.is_open s /\
  Serial.fault (snd (Runner.step r s)) = Serial.fault s.
Proof.
  destruct r as [ls run pau i pc em]. unfold Runner.step. cbn.
  destruct pc; cbn; try done.
  - destruct (ls !! i); [destruct run|]; done.
  - destruct (pau && run); done.
  - destruct run; done.
  - destruct (ls !! i) as [line|]; [|done].
    destruct (Runner.skipped (Py.strip line)); [done|].
    unfold Serial.write. destruct (Serial.is_open s) eqn:Ho;
      [destruct (Serial.fault s _)|]; cbn; by rewrite ?Ho.
Qed.

Lemma exec_port (sched : list Runner.Action) (st : Runner.t * Serial.t) :
  Serial.is_open (snd (Runner.exec sched st)) = Serial.is_open (snd st) /\
  Serial.fault (snd (Runner.exec sched st)) = Serial.fault (snd st).
Proof.
  revert st. induction sched as [|a sched IH]; intros [r s]; [done|].
  rewrite exec_cons. destruct (IH (Runner.act a (r, s))) as [Ho Hf]. rewrite Ho, Hf.
  destruct a; cbn [Runner.act fst snd]; try done. apply step_port.
Qed.

End Buttons.

(** X11. The warning for a text without a valid line is never shown.  A text
    that is not blank has a line that is not blank, so the guard of
    [run_gcode] that asks for one cannot fail once the guard against a blank
    editor has passed: a run request shows at most one box, and that box is
    the not-connected, the empty-editor or the already-running warning; and
    a thread that a run request starts has at least one line, none of its
    lines empty. *)
Theorem no_valid_line_warning_never_shown (ui : UI.t) :
  (Py.strip (UI.gcode_editor ui) <> "" -> UI.stripped_lines (UI.gcode_editor ui) <> []) /\
  (UI.boxes (UI.run_gcode ui) = UI.boxes ui \/
   exists b, UI.boxes (UI.run_gcode ui) = (UI.boxes ui ++ [b])%list /\
     b <> UI.no_valid_line /\
     (b = UI.not_connected \/ b = UI.editor_empty \/ b = UI.already_running)) /\
  (forall r, UI.threads (UI.run_gcode ui) = r :: UI.threads ui ->
     Runner.gcode_lines r <> [] /\ Forall (fun l => l <> "") (Runner.gcode_lines r)).
Proof.
  split; [apply stripped_lines_nonempty|].
  destruct (run_gcode_cases ui)
    as [[_ ->]|[(_ & _ & ->)|[(_ & _ & _ & ->)|(_ & _ & Hl & _ & ->)]]].
  - split; [right; eexists; split; [reflexivity|]; split; [discriminate|by left]|].
    intros r Hr. cbn in Hr. by apply (f_equal length) in Hr; cbn in Hr; lia.
  - split; [right; eexists; split; [reflexivity|]; split; [discriminate|by right; left]|].
    intros r Hr. cbn in Hr. by apply (f_equal length) in Hr; cbn in Hr; lia.
  - split; [right; eexists; split; [reflexivity|]; split; [discriminate|by right; right]|].
    intros r Hr. cbn in Hr. by apply (f_equal length) in Hr; cbn in Hr; lia.
  - split; [by left|]. intros r Hr. cbn in Hr. inversion Hr; subst. cbn.
    split; [done|]. apply stripped_lines_not_blank.
Qed.

(** X12. The pause button acts on a runner that has not returned and on
    nothing else: it sets the thread's pause flag when it is clear and clears
    it when it is set, so that two presses leave every thread as it was; it
    never touches the port; with no runner, or one that has returned, the
    window stays as it is. *)
Theorem pause_button_toggles (ui : UI.t) :
  UI.serial_connection (UI.pause_gcode ui) = UI.serial_connection ui /\
  (forall r ts, UI.threads ui = r :: ts -> Runner.isRunning r = true ->
     UI.threads (UI.pause_gcode ui)
       = (if Runner.paused r then Runner.resume r else Runner.pause r) :: ts /\
     UI.threads (UI.pause_gcode (UI.pause_gcode ui)) = UI.threads ui) /\
  ((forall r, UI.gcode_runner ui = Some r -> Runner.isRunning r = false) ->
     UI.pause_gcode ui = ui).
Proof.
  unfold UI.pause_gcode, UI.gcode_runner. split; [|split].
  - destruct (UI.threads ui) as [|r ts]; [done|].
    destruct (Runner.isRunning r); [|done]. by destruct (Runner.paused r).
  - intros r ts Ht Hr. rewrite Ht, Hr.
    destruct r as [ls run pau i pc em]. unfold Runner.isRunning in Hr. cbn in Hr.
    destruct pau, pc; try discriminate; cbn; done.
  - intros H. destruct (UI.threads ui) as [|r ts]; [done|].
    by rewrite (H r eq_refl).
Qed.

Lemma pause_button_toggles_witness :
  let ui := UI.ops Py.int [UI.Edit "G28"; UI.Run; UI.Step 0] (panel "620" "0" "90") in
  (Runner.paused <$> UI.gcode_runner (UI.pause_gcode ui)) = Some true /\
  UI.threads (UI.pause_gcode (UI.pause_gcode ui)) = UI.threads ui.
Proof.
  intros ui.
  destruct (pause_button_toggles ui) as (_ & H & _).
  destruct (H (Runner.mk ["G28"] true false 0 Runner.PauseWait []) []
              ltac:(vm_compute; reflexivity) eq_refl) as [H1 H2].
  split; [|exact H2]. unfold UI.gcode_runner. rewrite H1. reflexivity.
Defined.

(** X13. Pressing stop on a runner that has not returned brings it to its
    end before the handler goes on: afterwards the thread has returned, it
    has handed to [write] at most the one line it was about to write, and a
    run request on the still open connection with a program in the editor is
    accepted and starts a new thread. *)
Theorem stop_button_frees_the_runner (ui : UI.t) (s : Serial.t) (r : Runner.t) :
  UI.serial_connection ui = Some s ->
  UI.gcode_runner ui = Some r ->
  Runner.isRunning r = true ->
  let ui' := UI.stop_gcode ui in
  (exists r', UI.gcode_runner ui' = Some r' /\ Runner.isRunning r' = false /\
     Runner.gcode_lines r' = Runner.gcode_lines r) /\
  (calls_of ui' = calls_of ui \/
   exists line, Runner.gcode_lines r !! Runner.i r = Some line /\
     calls_of ui' = (calls_of ui ++ [buffer line])%list) /\
  (Serial.is_open s = true -> Py.strip (UI.gcode_editor ui) <> "" ->
   UI.threads (UI.run_gcode ui')
     = Runner.init (UI.stripped_lines (UI.gcode_editor ui)) :: UI.threads ui').
Proof.
  intros Hs Hg Hr ui'. subst ui'. unfold UI.stop_gcode. rewrite Hg, Hr.
  unfold UI.gcode_runner in Hg.
  destruct (UI.threads ui) as [|r0 ts] eqn:Ht; [done|]. cbn in Hg. inversion Hg; subst r0.
  unfold UI.on_thread. rewrite Ht, Hs. cbn [lookup list_lookup].
  cbn [Runner.act fst snd].
  destruct (Runner.wait (Runner.stop r, s)) as [r' s'] eqn:Hw.
  assert (Hret : Runner.isRunning r' = false).
  { replace r' with (fst (Runner.wait (Runner.stop r, s))) by (by rewrite Hw).
    apply wait_returns. by right. }
  assert (Hlines : Runner.gcode_lines r' = Runner.gcode_lines r).
  { replace r' with (fst (Runner.wait (Runner.stop r, s))) by (by rewrite Hw).
    unfold Runner.wait. by rewrite (proj1 (exec_keeps _ _)). }
  assert (Hopen : Serial.is_open s' = Serial.is_open s).
  { replace s' with (snd (Runner.wait (Runner.stop r, s))) by (by rewrite Hw).
    unfold Runner.wait. by rewrite (proj1 (exec_port _ _)). }
  split; [|split].
  - exists r'. unfold UI.gcode_runner. cbn. done.
  - unfold calls_of. rewrite Hs. cbn.
    replace s' with (snd (Runner.wait (Runner.stop r, s))) by (by rewrite Hw).
    unfold Runner.wait.
    assert (Hd : Runner.pc r = Runner.Body \/ Runner.pc r <> Runner.Body)
      by (destruct (Runner.pc r); (by left) || (by right)).
    destruct Hd as [Hp|Hp].
    + by apply (stopped_in_body _ (Runner.stop r) s eq_refl Hp).
    + left. by rewrite quiet_exec.
  - intros Ho He.
    set (ui' := UI.show UI.stopped _).
    destruct (run_gcode_cases ui') as [[Hc _]|[(_ & Hb & _)|[(_ & _ & (r1 & Hg1 & Hr1) & _)|H]]].
    + unfold ui', UI.connected in Hc. cbn in Hc. congruence.
    + done.
    + unfold ui', UI.gcode_runner in Hg1. cbn in Hg1. inversion Hg1; subst. congruence.
    + destruct H as (_ & _ & _ & _ & H). by rewrite H.
Qed.

Lemma stop_button_frees_the_runner_witness :
  let ui := UI.ops Py.int [UI.Edit ("G28" ++ String "010" "G1 X10"); UI.Run;
                           UI.Step 0; UI.Step 0; UI.Step 0] (panel "620" "0" "90") in
  calls_of ui = [] /\
  calls_of (UI.stop_gcode ui) = [Serial.frame "G28"] /\
  UI.threads (UI.run_gcode (UI.stop_gcode ui))
    = Runner.init ["G28"; "G1 X10"] :: UI.threads (UI.stop_gcode ui).
Proof.
  intros ui. do 2 (split; [vm_compute; reflexivity|]).
  refine (proj2 (proj2 (stop_button_frees_the_runner ui (Serial.mk true (fun _ => None) [] [])
            (Runner.mk ["G28"; "G1 X10"] true false 0 Runner.Body []) _ _ _)) _ _);
    try (vm_compute; reflexivity).
  vm_compute. discriminate.
Defined.

(** ** The inputs of the motors *)

Section Widgets.

Variable int : string -> option Z.
Implicit Types (ui : UI.t).

Lemma send_command_widgets (command : string) ui :
  UI.motor_widgets (snd (UI.send_command command ui)) = UI.motor_widgets ui.
Proof.
  unfold UI.send_command. destruct (UI.serial_connection ui) as [s|]; [|done].
  destruct (Serial.is_open s); [|done].
  by destruct (Serial.write _ s) as [[e|] s'].
Qed.

Lemma command_widgets (motor : string) ui :
  UI.motor_widgets (UI.move_forward int motor ui) = UI.motor_widgets ui /\
  UI.motor_widgets (UI.move_backward int motor ui) = UI.motor_widgets ui /\
  UI.motor_widgets (UI.stop_motor motor ui) = UI.motor_widgets ui /\
  UI.motor_widgets (UI.set_servo_angle int ui) = UI.motor_widgets ui.
Proof.
  unfold UI.move_forward, UI.move_backward, UI.stop_motor, UI.set_servo_angle,
    UI.check_connection.
  destruct (UI.connected ui); cbn [negb]; [|done].
  split; [|split; [|split]].
  1, 2: destruct (UI.motor_widgets _ !! motor) as [w|]; [|by rewrite send_command_widgets];
    destruct (Py.truthy (UI.speed w)); [destruct (int (UI.speed w))|];
    destruct (Py.truthy (UI.steps w)); try destruct (int (UI.steps w)) as [n|];
    try destruct (0 <? n);
    cbn [UI.show UI.motor_widgets]; by rewrite ?send_command_widgets.
  - by rewrite !send_command_widgets.
  - destruct (Py.truthy (UI.servo_angle_input ui)); cbn [negb]; [|done].
    destruct (int (UI.servo_angle_input ui)) as [p|]; [|done].
    destruct ((p <? 0) || (180 <? p)); [done|]. by rewrite !send_command_widgets.
Qed.

Lemma on_thread_widgets f (n : nat) ui :
  UI.motor_widgets (UI.on_thread f n ui) = UI.motor_widgets ui.
Proof.
  unfold UI.on_thread. destruct (UI.threads ui !! n) as [r|]; [|done].
  destruct (UI.serial_connection ui) as [s|]; [|done]. by destruct (f (r, s)).
Qed.

Lemma op_widgets (o : UI.Op) (k : string) ui :
  is_Some (UI.motor_widgets ui !! k) -> is_Some (UI.motor_widgets (UI.op int o ui) !! k).
Proof.
  intros H. destruct o; cbn [UI.op]; try done.
  - cbn. by apply lookup_alter_is_Some.
  - cbn. by apply lookup_alter_is_Some.
  - by rewrite (proj1 (command_widgets motor ui)).
  - by rewrite (proj1 (proj2 (command_widgets motor ui))).
  - by rewrite (proj1 (proj2 (proj2 (command_widgets motor ui)))).
  - by rewrite (proj2 (proj2 (proj2 (command_widgets "" ui)))).
  - unfold UI.run_gcode, UI.check_connection.
    destruct (UI.connected ui); cbn [negb]; [|done].
    destruct (Py.truthy (Py.strip (UI.gcode_editor ui))); cbn [negb]; [|done].
    cbn. destruct (UI.stripped_lines (UI.gcode_editor ui)); [done|].
    unfold UI.gcode_runner. cbn.
    destruct (head (UI.threads ui)) as [r|]; [destruct (Runner.isRunning r)|]; done.
  - unfold UI.pause_gcode. destruct (UI.threads ui) as [|r ts]; [done|].
    destruct (Runner.isRunning r); [|done]. by destruct (Runner.paused r).
  - unfold UI.stop_gcode. destruct (UI.gcode_runner ui) as [r|]; [|done].
    destruct (Runner.isRunning r); [|done]. cbn. by rewrite on_thread_widgets.
  - by rewrite on_thread_widgets.
  - destruct sg as [c t| |m]; cbn; try done.
    unfold UI.on_gcode_progress. destruct (0 <? Z.of_nat t); [|done].
    by destruct (UI.percent _ _).
Qed.

End Widgets.

(** X15. The six motors keep their inputs: in every state the window can
    reach from its construction, through typing, commands, runs, steps of
    threads and signals, [motor_widgets] has an entry for each of X, Y, Z, E,
    R and T, so that no command of a motor button ends in a missing key. *)
Theorem every_motor_has_its_inputs
    (int : string -> option Z) (conn : option Serial.t) (os : list UI.Op) (a : Axis) :
  is_Some (UI.motor_widgets (UI.ops int os (UI.init conn)) !! name a).
Proof.
  assert (H : is_Some (UI.motor_widgets (UI.init conn) !! name a))
    by (destruct a; vm_compute; by eexists).
  revert H. generalize (UI.init conn). induction os as [|o os IH]; intros ui H; [done|].
  cbn. apply IH. by apply op_widgets.
Qed.

(** ** The percentage, program by program *)

Lemma percent_close_upto_all (bound : nat) :
  percent_close_upto bound = true ->
  forall current total, 1 <= current <= total -> total <= Z.of_nat bound ->
    percent_close current total = true.
Proof.
  intros H current total Hc Ht. unfold percent_close_upto in H.
  rewrite forallb_forall in H.
  assert (Hin : forall n b, 1 <= n <= Z.of_nat b -> In n (upto b)).
  { intros n b Hn. unfold upto. rewrite <- (Z2Nat.id n) by lia.
    apply in_map, in_seq. lia. }
  specialize (H total (Hin total bound ltac:(lia))). rewrite forallb_forall in H.
  apply H, Hin. lia.
Qed.

Lemma percent_close_200 : percent_close_upto 200 = true.
Proof. vm_compute. reflexivity. Qed.

(** X16. For programs of up to 200 lines the percentage that the progress
    handler shows for [(current, total)], [1 <= current <= total], is the
    exact quotient of [100 * current] by [total] rounded down, or one less
    than it, and one less only where [total] divides [100 * current]; it is
    never above the exact value, lies between 0 and 100, and is 100 for the
    last line. *)
Theorem percent_is_at_most_one_low (current total : Z) :
  1 <= current <= total ->
  total <= 200 ->
  exists p, UI.percent current total = Some p /\
    (p = 100 * current / total \/
     (p = 100 * current / total - 1 /\ (100 * current) mod total = 0)) /\
    0 <= p <= 100 /\
    (current = total -> p = 100).
Proof.
  intros Hc Ht.
  pose proof (percent_close_upto_all 200 percent_close_200 current total Hc Ht) as H.
  unfold percent_close in H. destruct (UI.percent current total) as [p|]; [|done].
  exists p. split; [done|].
  apply andb_prop in H as [H Hend]. apply andb_prop in H as [H Hhi].
  apply andb_prop in H as [H Hlo]. apply Z.leb_le in Hlo, Hhi.
  split; [|split; [lia|]].
  - apply orb_prop in H as [H|H]; [left; by apply Z.eqb_eq|].
    right. apply andb_prop in H as [H1 H2]. split; by apply Z.eqb_eq.
  - intros ->. rewrite Z.eqb_refl in Hend. by apply Z.eqb_eq.
Qed.

Lemma percent_is_at_most_one_low_witness :
  exists p, UI.percent 57 100 = Some p /\
    (p = 100 * 57 / 100 \/ (p = 100 * 57 / 100 - 1 /\ (100 * 57) mod 100 = 0)) /\
    0 <= p <= 100 /\ (57 = 100 -> p = 100).
Proof. apply percent_is_at_most_one_low; lia. Defined.

(** ** The reader thread *)

Section ReaderFacts.

Variable decode : string -> string.
Implicit Types (r : Reader.t) (evs : list Reader.Event).









End ReaderFacts.



(** ** Loading a file *)

Lemma stripped_lines_blank (content : string) :
  Py.strip content = "" -> UI.stripped_lines content = [].
Proof.
  intros H. apply strip_empty in H. rewrite <- all_space_split in H.
  unfold UI.stripped_lines.
  induction (Py.split_nl content) as [|l ls IH]; [done|].
  cbn in H |- *. apply andb_prop in H as [Hl Hls].
  rewrite truthy_strip, Hl. cbn. by apply IH.
Qed.

(** X18. Loading a file reports the number of the lines of the file that are
    not blank, and keeps these lines in the window; the editor gets the text.
    A run request after the load, on an open connection with no runner under
    way, does not use the lines kept: it takes its lines from the text the
    editor gives back.  When the editor gives the text back as it was in the
    file, the thread runs exactly the lines counted; when it gives back
    another text, the thread runs the lines of that text, and the empty-editor
    warning is shown when that text is blank.  A blank file loads with a
    count of 0. *)
Theorem load_then_run (content shown : string) (ui : UI.t) :
  UI.connected ui = true ->
  (forall r, UI.gcode_runner ui = Some r -> Runner.isRunning r = false) ->
  let loaded := UI.load_gcode_file content shown ui in
  let counted := UI.stripped_lines content in
  UI.gcode_editor loaded = shown /\
  UI.gcode_lines loaded = counted /\
  UI.boxes loaded =
    (UI.boxes ui ++
     [UI.box UI.Information "Başarılı"
        ("G-code dosyası yüklendi!" ++ String "010"
           (Py.str (Z.of_nat (length counted)) ++ " satır."))])%list /\
  (Py.strip content = "" -> counted = []) /\
  (Py.strip shown <> "" ->
   UI.gcode_runner (UI.run_gcode loaded) = Some (Runner.init (UI.stripped_lines shown))) /\
  (Py.strip shown = "" -> UI.run_gcode loaded = UI.show UI.editor_empty loaded) /\
  (shown = content -> Py.strip content <> "" ->
   UI.gcode_runner (UI.run_gcode loaded) = Some (Runner.init counted)).
Proof.
  intros Hc Hr loaded counted. do 3 (split; [reflexivity|]).
  split; [apply stripped_lines_blank|].
  assert (Hcl : UI.connected loaded = true) by exact Hc.
  assert (Hrl : forall r, UI.gcode_runner loaded = Some r -> Runner.isRunning r = false)
    by exact Hr.
  assert (Hrun : Py.strip shown <> "" ->
    UI.gcode_runner (UI.run_gcode loaded) = Some (Runner.init (UI.stripped_lines shown))).
  { intros Hne.
    destruct (run_gcode_cases loaded)
      as [[Hn _]|[(_ & Hb & _)|[(_ & _ & (r1 & Hg1 & Hr1) & _)|(_ & _ & _ & _ & Hrun)]]].
    - congruence.
    - done.
    - rewrite (Hrl r1 Hg1) in Hr1. done.
    - rewrite Hrun. reflexivity. }
  split; [exact Hrun|]. split.
  - intros Hb.
    destruct (run_gcode_cases loaded)
      as [[Hn _]|[(_ & _ & He)|[(_ & Hne & _)|(_ & Hne & _)]]]; [congruence|done|done|done].
  - intros -> Hne. by apply Hrun.
Qed.

Lemma load_then_run_witness :
  let line_separator := String "226" (String "128" (String "168" "")) in
  let content := "G28" ++ line_separator ++ "G1 Z5" in
  let shown := "G28" ++ String "010" "G1 Z5" in
  let ui := panel "620" "0" "90" in
  UI.boxes (UI.load_gcode_file content content ui) =
    [UI.box UI.Information "Başarılı"
       ("G-code dosyası yüklendi!" ++ String "010" "1 satır.")] /\
  UI.gcode_runner (UI.run_gcode (UI.load_gcode_file content content ui))
    = Some (Runner.init [content]) /\
  UI.gcode_runner (UI.run_gcode (UI.load_gcode_file content shown ui))
    = Some (Runner.init ["G28"; "G1 Z5"]).
Proof.
  intros line_separator content shown ui.
  destruct (load_then_run content content ui eq_refl
              ltac:(intros r; vm_compute; discriminate)) as (_ & _ & Hb & _ & _ & _ & Hsame).
  destruct (load_then_run content shown ui eq_refl
              ltac:(intros r; vm_compute; discriminate)) as (_ & _ & _ & _ & Hrun & _).
  split; [exact Hb|]. split.
  - apply Hsame; [reflexivity|]. vm_compute. discriminate.
  - apply Hrun. vm_compute. discriminate.
Defined.

(** ** Refreshing the list of ports *)

Section Ports.

Implicit Types (its : list (string * string)) (c : Combo.t) (ports : list Port).

Lemma add_ports ports : forall c,
  fold_left (fun c p => Combo.addItem (port_label p) (device p) c) ports c
  = Combo.mk (Combo.items c ++ List.map entry ports)
      (match Combo.items c, ports with
       | [], _ :: _ => Some 0%nat
       | _, _ => Combo.currentIndex c
       end).
Proof.
  induction ports as [|p ports IH]; intros [its ci]; cbn.
  - rewrite app_nil_r. by destruct its.
  - rewrite IH. cbn. rewrite <- app_assoc. cbn.
    destruct its; cbn; [by destruct ports|]. by destruct ports.
Qed.

Lemma find_Some (text : string) its (j : nat) :
  Combo.find text its = Some j -> exists it, its !! j = Some it /\ fst it = text.
Proof.
  revert j. induction its as [|it its IH]; intros j; cbn; [done|].
  destruct (String.eqb_spec (fst it) text) as [He|He].
  - intros H. inversion H; subst. by exists it.
  - destruct (Combo.find text its) as [k|]; cbn; [|done].
    intros H. inversion H; subst. by apply IH.
Qed.

Lemma find_In (text : string) its :
  In text (List.map fst its) -> exists j, Combo.find text its = Some j.
Proof.
  induction its as [|it its IH]; cbn; [done|].
  destruct (String.eqb_spec (fst it) text) as [He|He]; [by eexists|].
  intros [H|H]; [done|]. destruct (IH H) as [j Hj]. rewrite Hj. by eexists.
Qed.

Lemma find_not_In (text : string) its :
  ~ In text (List.map fst its) -> Combo.find text its = None.
Proof.
  intros H. destruct (Combo.find text its) as [j|] eqn:Hf; [|done].
  destruct (find_Some _ _ _ Hf) as (it & Hl & He). exfalso. apply H.
  apply in_map_iff. exists it. split; [done|].
  by apply list_elem_of_In, list_elem_of_lookup_2 with j.
Qed.

End Ports.

(** X19. Refreshing the list of ports keeps the selection.  Afterwards the
    combo box holds one entry per attached port, in the order reported; when
    the text selected before is the label of an attached port it is selected
    again, with the device of such a port as its data; otherwise the first
    port is selected, or nothing when no port is attached.  Refreshing again
    with the same ports changes nothing. *)
Theorem port_refresh_keeps_selection (ports : list Port) (combo : Combo.t) :
  let before := Combo.currentText combo in
  let after := update_port_list ports combo in
  Combo.items after = List.map entry ports /\
  (In before (List.map port_label ports) ->
   Combo.currentText after = before /\
   exists p, In p ports /\ port_label p = before /\ Combo.currentData after = device p) /\
  (~ In before (List.map port_label ports) ->
   Combo.currentIndex after = match ports with [] => None | _ => Some 0%nat end) /\
  update_port_list ports after = after.
Proof.
  intros before after.
  assert (Hfst : List.map fst (List.map entry ports) = List.map port_label ports)
    by (rewrite List.map_map; reflexivity).
  assert (Hup : forall c, update_port_list ports c =
            match Combo.find (Combo.currentText c) (List.map entry ports) with
            | Some j => Combo.mk (List.map entry ports) (Some j)
            | None => Combo.mk (List.map entry ports)
                        (match ports with [] => None | _ => Some 0%nat end)
            end).
  { intros c. unfold update_port_list, Combo.findText, Combo.clear, Combo.setCurrentIndex.
    rewrite add_ports. cbn.
    destruct (Combo.find _ _); [done|]. by destruct ports. }
  subst after. rewrite (Hup combo). fold before.
  destruct (Combo.find before (List.map entry ports)) as [j|] eqn:Hf.
  - destruct (find_Some _ _ _ Hf) as (it & Hl & He).
    split; [done|]. split; [|split].
    + intros _. unfold Combo.currentText, Combo.currentData. cbn. rewrite Hl.
      split; [done|].
      apply list_elem_of_lookup_2, list_elem_of_In, in_map_iff in Hl as (p & Hp & Hin).
      exists p. subst it. by repeat split.
    + intros Hno. exfalso. apply Hno. rewrite <- Hfst.
      apply in_map_iff. exists it. split; [done|].
      by apply list_elem_of_In, list_elem_of_lookup_2 with j.
    + rewrite Hup. unfold Combo.currentText. cbn. rewrite Hl, He, Hf. done.
  - split; [done|]. split; [|split].
    + intros Hin. rewrite <- Hfst in Hin. destruct (find_In _ _ Hin) as [j Hj]. congruence.
    + done.
    + rewrite Hup. unfold Combo.currentText. cbn.
      destruct ports as [|p ports']; [done|]. cbn. by rewrite String.eqb_refl.
Qed.

Lemma port_refresh_keeps_selection_witness :
  let combo := Combo.mk [("COM3 - Arduino Mega", "COM3"); ("COM4 - USB Serial", "COM4")]
                        (Some 1%nat) in
  let after := update_port_list [port "COM7" "CH340"; port "COM4" "USB Serial"] combo in
  Combo.currentText after = "COM4 - USB Serial" /\
  exists p, In p [port "COM7" "CH340"; port "COM4" "USB Serial"] /\
    port_label p = "COM4 - USB Serial" /\ Combo.currentData after = device p.
Proof.
  intros combo after.
  apply (port_refresh_keeps_selection [port "COM7" "CH340"; port "COM4" "USB Serial"] combo).
  right. left. reflexivity.
Defined.

(** ** A run from the button to the last line *)

Section FullRun.

Variable int : string -> option Z.
Implicit Types (ui : UI.t) (r : Runner.t) (s : Serial.t).

Lemma ops_cons (o : UI.Op) (os : list UI.Op) ui :
  UI.ops int (o :: os) ui = UI.ops int os (UI.op int o ui).
Proof. reflexivity. Qed.

(** Steps of the current thread seen from the window are steps of the thread
    against the port of the window. *)
Lemma steps_of_current (n : nat) : forall ui r ts s,
  UI.threads ui = r :: ts ->
  UI.serial_connection ui = Some s ->
  UI.ops int (repeat (UI.Step 0) n) ui =
    UI.with_serial (Some (snd (Runner.exec (repeat Runner.Tick n) (r, s))))
      (UI.with_threads (fst (Runner.exec (repeat Runner.Tick n) (r, s)) :: ts) ui).
Proof.
  induction n as [|n IH]; intros ui r ts s Ht Hs.
  - cbn. destruct ui. cbn in *. by subst.
  - cbn [repeat]. rewrite ops_cons, exec_cons. cbn [UI.op].
    unfold UI.on_thread. rewrite Ht, Hs. cbn [lookup list_lookup Runner.act fst snd].
    destruct (Runner.step r s) as [r1 s1] eqn:Hst.
    rewrite (IH _ r1 ts s1) by reflexivity.
    destruct ui. reflexivity.
Qed.

End FullRun.

(** X20. From the run button to the end.  On an open port that does not
    fail, with no runner under way and a program in the editor, the run
    request followed by enough steps of the new thread leaves that thread
    returned, with one [progress] per non-blank line of the editor and then
    [finished]; what has gone out is these lines, trimmed, each followed by
    the one byte of a line feed, in order, without the ones that start with
    [;] or [(]; no box has been shown on the way. *)
Theorem run_button_sends_the_program
    (int : string -> option Z) (ui : UI.t) (s : Serial.t) :
  UI.serial_connection ui = Some s ->
  Serial.is_open s = true ->
  (forall n, Serial.fault s n = None) ->
  Py.strip (UI.gcode_editor ui) <> "" ->
  (forall r, UI.gcode_runner ui = Some r -> Runner.isRunning r = false) ->
  let lines := UI.stripped_lines (UI.gcode_editor ui) in
  let n := length lines in
  let ui' := UI.ops int (UI.Run :: repeat (UI.Step 0) (Runner.budget (Runner.init lines))) ui in
  (exists r, UI.gcode_runner ui' = Some r /\ Runner.isRunning r = false /\
     Runner.emitted r = (progress_run n 0 n ++ [Runner.finished])%list) /\
  wire_of ui' = (wire_of ui ++ List.map (fun l => l ++ String "010" "")%string
                   (List.filter (fun l => negb (is_comment l)) lines))%list /\
  UI.boxes ui' = UI.boxes ui.
Proof.
  intros Hs Ho Hn He Hr lines n ui'.
  assert (Hc : UI.connected ui = true) by (unfold UI.connected; by rewrite Hs).
  destruct (run_gcode_cases ui)
    as [[Hx _]|[(_ & Hb & _)|[(_ & _ & (r1 & Hg1 & Hr1) & _)|(_ & _ & _ & _ & Hrun)]]];
    [congruence | done | by rewrite (Hr r1 Hg1) in Hr1 |].
  fold lines in Hrun.
  subst ui'. rewrite ops_cons. cbn [UI.op]. rewrite Hrun.
  rewrite (steps_of_current int _ _ (Runner.init lines) (UI.threads ui) s)
    by (reflexivity || exact Hs).
  fold (Runner.wait (Runner.init lines, s)).
  assert (Hret : Runner.isRunning (fst (Runner.wait (Runner.init lines, s))) = false)
    by (apply wait_returns; by left).
  assert (Hp : Runner.pc (fst (Runner.wait (Runner.init lines, s))) = Runner.Returned)
    by (unfold Runner.isRunning in Hret; destruct (Runner.pc _); done).
  pose proof (returned_outcome lines s _ (ticks_no_stop _) Hp) as Hout.
  rewrite (run_rest_completes lines (length lines) 0 s [] Ho Hn) in Hout.
  fold (Runner.wait (Runner.init lines, s)) in Hout.
  apply pair_equal_spec in Hout as [Hem Hst].
  split; [|split].
  - exists (fst (Runner.wait (Runner.init lines, s))). by repeat split.
  - unfold wire_of. cbn [UI.serial_connection UI.with_serial].
    change (Runner.exec (repeat Runner.Tick (Runner.budget (Runner.init lines)))
              (Runner.init lines, s)) with (Runner.wait (Runner.init lines, s)).
    rewrite Hst, Hs.
    cbn [Serial.wire]. fold (sent_of lines). unfold lines.
    by rewrite (proj2 (editor_lines_trimmed_all (UI.gcode_editor ui))).
  - reflexivity.
Qed.

Lemma run_button_sends_the_program_witness :
  let ideographic_space := String "227" (String "128" (String "128" "")) in
  let content := "G28" ++ String "010" (ideographic_space ++ String "010" "; up"
                   ++ String "010" (ideographic_space ++ " G1 Z5 ")) in
  let ui := UI.with_editor content (panel "620" "0" "90") in
  let ui' := UI.ops Py.int (UI.Run :: repeat (UI.Step 0) 17) ui in
  (exists r, UI.gcode_runner ui' = Some r /\ Runner.isRunning r = false /\
     Runner.emitted r
       = [Runner.progress 1 3; Runner.progress 2 3; Runner.progress 3 3; Runner.finished]) /\
  wire_of ui' = ["G28" ++ String "010" ""; "G1 Z5" ++ String "010" ""] /\
  UI.boxes ui' = [].
Proof.
  intros ideographic_space content ui ui'.
  apply (run_button_sends_the_program Py.int ui (Serial.mk true (fun _ => None) [] []));
    try reflexivity.
  - vm_compute. discriminate.
  - intros r. vm_compute. discriminate.
Defined.
